(** * ImageNet workload (Jax) and its training-algorithm submission

    A shallow embedding of [workloads/imagenet/imagenet_jax/workload.py] and
    [workloads/imagenet/imagenet_jax/submission.py].

    Conventions of the embedding.
    - Python [int] is [Z]; [//] and [%] are floor division and floor modulo,
      raising [ZeroDivisionError] on a zero divisor.
    - Floating-point scalars are kept abstract in the class [Scalar]: the
      definitions never assume an arithmetic law.  The exact rationals [Qc]
      and the reals [R] are instances, and so is IEEE binary32, the
      [float32] of the program, with its rounding.
    - A value that lives on the devices of [jax.pmap] (a pytree whose leaves
      carry a leading device axis) is the list of its per-device slices,
      device 0 first.  [jax_utils.replicate] builds such a list.
    - Exceptions are values of [exn]; a computation that reads or writes
      [self] runs in the state-and-error monad [M], which also records the
      calls of [sync_batch_stats] and of [next] on the evaluation iterator.
    - JAX, flax, optax and tensorflow-datasets, and the modules [models],
      [input_pipeline], [spec] and [random_utils], are outside these two
      files; what the code needs from them is collected in the class
      [Backend]. *)

From Stdlib Require Import ZArith QArith Qcanon Reals Lra Lia.
From stdpp Require Import base gmap strings list.

#[local] Set Warnings "-register-all".
#[local] Open Scope Z_scope.

(** ** Python exceptions and results *)

Inductive exn : Type :=
| ValueError (msg : string)
| TypeError
| ZeroDivisionError
| KeyError (key : string)
| AttributeError (name : string)
| IndexError
| StopIteration.

Inductive result (A : Type) : Type :=
| Ok (a : A)
| Raise (e : exn).
Arguments Ok {A} a.
Arguments Raise {A} e.

Definition rbind {A B} (r : result A) (k : A -> result B) : result B :=
  match r with
  | Ok a => k a
  | Raise e => Raise e
  end.

Notation "x <-? r ; k" := (rbind r (fun x => k))
  (at level 100, r at next level, right associativity, only parsing).

(** [a // b] and [a % b] on Python ints. *)
Definition py_floordiv (a b : Z) : result Z :=
  if b =? 0 then Raise ZeroDivisionError else Ok (a / b).

Definition py_mod (a b : Z) : result Z :=
  if b =? 0 then Raise ZeroDivisionError else Ok (a mod b).

(** [d[k]] on a dict. *)
Definition getitem {V} (d : gmap string V) (k : string) : result V :=
  match d !! k with
  | Some v => Ok v
  | None => Raise (KeyError k)
  end.

(** [needle in hay] on Python strings. *)
Fixpoint str_contains (needle hay : string) : bool :=
  String.prefix needle hay ||
  match hay with
  | EmptyString => false
  | String _ rest => str_contains needle rest
  end.

(** [mapM] for [result]: the first exception wins. *)
Fixpoint collect {A} (rs : list (result A)) : result (list A) :=
  match rs with
  | [] => Ok []
  | r :: rest => x <-? r; xs <-? collect rest; Ok (x :: xs)
  end.

(** ** Scalars, arrays and pytrees *)

Class Scalar (F : Type) : Type := {
  of_Q : Q -> F;            (* a float literal *)
  fadd : F -> F -> F;
  fmul : F -> F -> F;
  fdiv : F -> F -> F;
  fgtb : F -> F -> bool     (* Python [>] *)
}.

(** An array: its shape and its elements in row-major order. *)
Record Tensor (F : Type) : Type := mkTensor {
  shape : list nat;
  data : list F
}.
Arguments mkTensor {F} shape data.
Arguments shape {F}.
Arguments data {F}.

(** A pytree of nested dicts; [jax] visits the keys of a dict in sorted
    order, which is the order of [items]. *)
Inductive PyTree (A : Type) : Type :=
| Leaf (a : A)
| Dict (items : list (string * PyTree A)).
Arguments Leaf {A} a.
Arguments Dict {A} items.

Fixpoint tree_leaves {A} (t : PyTree A) : list A :=
  match t with
  | Leaf a => [a]
  | Dict items => flat_map (fun kv => tree_leaves (snd kv)) items
  end.

Fixpoint tree_map {A B} (f : A -> B) (t : PyTree A) : PyTree B :=
  match t with
  | Leaf a => Leaf (f a)
  | Dict items => Dict (map (fun kv => (fst kv, tree_map f (snd kv))) items)
  end.

(** [jax.tree_multimap f t1 t2] for two trees of one structure (the only
    use here: slices of one device-mapped pytree); the structure is [t1]'s. *)
Fixpoint tree_multimap {A} (f : A -> A -> A) (t1 t2 : PyTree A) : PyTree A :=
  match t1, t2 with
  | Leaf a, Leaf b => Leaf (f a b)
  | Dict l1, Dict l2 =>
      Dict ((fix go (l1 l2 : list (string * PyTree A)) :=
               match l1, l2 with
               | (k, s1) :: r1, (_, s2) :: r2 =>
                   (k, tree_multimap f s1 s2) :: go r1 r2
               | _, _ => []
               end) l1 l2)
  | _, _ => t1
  end.

(** A value on the devices of a [pmap]: one slice per device. *)
Abbreviation Sharded A := (list A) (only parsing).

(** [flax.jax_utils.replicate] on [n] devices (one host: the local devices
    are all the devices). *)
Definition replicate_on {A} (n : nat) (x : A) : Sharded A := replicate n x.

Section Arrays.
Context {F : Type} `{Scalar F}.

Definition ndim (x : Tensor F) : nat := length (shape x).

(** [x ** 2], elementwise. *)
Definition square (x : Tensor F) : Tensor F :=
  mkTensor (shape x) (map (fun v => fmul v v) (data x)).

(** Python's builtin [sum]: starts from the int [0], adds left to right. *)
Definition py_sum (xs : list F) : F := fold_left fadd xs (of_Q 0).

(** [jnp.sum x]. *)
Definition jnp_sum (x : Tensor F) : F := py_sum (data x).

Definition of_nat (n : nat) : F := of_Q (inject_Z (Z.of_nat n)).

(** [jnp.mean] of a list of scalars. *)
Definition jnp_mean (xs : list F) : F := fdiv (py_sum xs) (of_nat (length xs)).

(** [jnp.squeeze]: axes of length one are removed, the elements stay. *)
Definition squeeze (x : Tensor F) : Tensor F :=
  mkTensor (filter (fun d => d ≠ 1%nat) (shape x)) (data x).

Definition tensor_add (x y : Tensor F) : Tensor F :=
  mkTensor (shape x) (zip_with fadd (data x) (data y)).

Definition tensor_div (n : F) (x : Tensor F) : Tensor F :=
  mkTensor (shape x) (map (fun v => fdiv v n) (data x)).

(** [lax.psum] over the device axis: the slices are added up, device 0
    first. *)
Definition psum_scalar (xs : Sharded F) : option F :=
  match xs with
  | [] => None
  | x :: rest => Some (fold_left fadd rest x)
  end.

Definition psum_tree (xs : Sharded (PyTree (Tensor F))) : option (PyTree (Tensor F)) :=
  match xs with
  | [] => None
  | x :: rest => Some (fold_left (tree_multimap tensor_add) rest x)
  end.

(** [lax.pmean x axis]: [psum x] divided by [psum 1], the number of
    devices; every device receives the result. *)
Definition pmean_scalar (xs : Sharded F) : Sharded F :=
  match psum_scalar xs with
  | None => []
  | Some s => replicate_on (length xs) (fdiv s (of_nat (length xs)))
  end.

Definition pmean_tree (xs : Sharded (PyTree (Tensor F))) : Sharded (PyTree (Tensor F)) :=
  match psum_tree xs with
  | None => []
  | Some s =>
      replicate_on (length xs) (tree_map (tensor_div (of_nat (length xs))) s)
  end.

End Arrays.

(** ** External collaborators *)

(** [spec.ForwardPassMode]. *)
Inductive ForwardPassMode : Type := TRAIN | EVAL.

Definition ForwardPassMode_eqb (a b : ForwardPassMode) : bool :=
  match a, b with
  | TRAIN, TRAIN | EVAL, EVAL => true
  | _, _ => false
  end.

(** [spec.LossType]. *)
Inductive LossType : Type := SOFTMAX_CROSS_ENTROPY.

(** [spec.ShapeTuple]. *)
Record ShapeTuple : Type := mkShapeTuple { shape_tuple : list nat }.

(** A model object: the class found in [models], its constructor arguments. *)
Record Model : Type := mkModel {
  model_cls : string;
  model_num_classes : Z;
  model_dtype : string
}.

(** A batch: the dict with the keys ['image'] and ['label'].  [A] is the
    type of its two arrays: [Tensor F] on one device, [Sharded (Tensor F)]
    for a batch that is split over the devices. *)
Record Batch (A : Type) : Type := mkBatch {
  image : A;
  label : A
}.
Arguments mkBatch {A} image label.
Arguments image {A}.
Arguments label {A}.

(** The iterator that [input_pipeline.create_input_iter] returns: the
    arguments it was built from, and how many batches were drawn from it. *)
Record InputIter (F : Type) : Type := mkInputIter {
  ds_builder : string;
  ds_batch_size : Z;
  ds_mean : list F;
  ds_stddev : list F;
  ds_train : bool;
  ds_cache : bool;
  ds_drawn : nat
}.
Arguments mkInputIter {F} _ _ _ _ _ _ _.
Arguments ds_builder {F}.
Arguments ds_batch_size {F}.
Arguments ds_mean {F}.
Arguments ds_stddev {F}.
Arguments ds_train {F}.
Arguments ds_cache {F}.
Arguments ds_drawn {F}.

(** The same iterator after one more [next]. *)
Definition advance {F} (it : InputIter F) : InputIter F :=
  mkInputIter (ds_builder it) (ds_batch_size it) (ds_mean it) (ds_stddev it)
    (ds_train it) (ds_cache it) (S (ds_drawn it)).

Class Backend (F : Type) : Type := {
  RandomState : Type;
  (* optax's optimizer state *)
  OptState : Type;
  (* jax.device_count() *)
  device_count : Z;
  (* hasattr(models, name) *)
  models_has : string -> bool;
  (* model.init({'params': key}, x) *)
  flax_init : Model -> RandomState -> Tensor F -> gmap string (PyTree (Tensor F));
  (* model.apply(variables, x, train=.., mutable=..): the logits and, when
     'batch_stats' is mutable, the updated collections *)
  flax_apply : Model -> gmap string (PyTree (Tensor F)) -> Tensor F -> bool ->
               bool -> Tensor F * gmap string (PyTree (Tensor F));
  (* jax.nn.one_hot(labels, num_classes) *)
  one_hot : Tensor F -> Z -> Tensor F;
  (* optax.softmax_cross_entropy(logits, labels) *)
  softmax_cross_entropy : Tensor F -> Tensor F -> Tensor F;
  (* jnp.argmax(logits, -1) == labels *)
  argmax_eq : Tensor F -> Tensor F -> Tensor F;
  (* jax.value_and_grad(f, has_aux=True) *)
  value_and_grad :
    forall {Aux : Type},
      (PyTree (Tensor F) -> result (F * Aux)) ->
      PyTree (Tensor F) -> result ((F * Aux) * PyTree (Tensor F));
  (* prng.split(rng, 2) *)
  prng_split2 : RandomState -> RandomState * RandomState;
  (* the batch an input iterator yields next, already split over the
     devices; None when it is exhausted *)
  pipeline_next : InputIter F -> option (Batch (Sharded (Tensor F)))
}.

(** [jax.pmap] needs one size for the device axis of all mapped arguments. *)
Definition pmap_axis_size (sizes : list nat) : result nat :=
  match sizes with
  | [] => Ok 0%nat
  | n :: rest =>
      if forallb (Nat.eqb n) rest then Ok n
      else Raise (ValueError "pmap got inconsistent sizes for array axes to be mapped")
  end.

(** The per-device slices of a device-mapped batch. *)
Definition batch_slices {A} (b : Batch (Sharded A)) : Sharded (Batch A) :=
  zip_with mkBatch (image b) (label b).

(** [spec.Hyperparamters], as far as the submission reads it. *)
Record Hyperparameters (F : Type) : Type := mkHyperparameters {
  learning_rate : F;
  momentum : F;
  l2 : F;
  warmup_epochs : Z;
  num_epochs : Z
}.
Arguments mkHyperparameters {F} _ _ _ _ _.
Arguments learning_rate {F}.
Arguments momentum {F}.
Arguments l2 {F} h.
Arguments warmup_epochs {F}.
Arguments num_epochs {F}.

(** ** workload.py *)

(** What a run leaves behind for an observer. *)
Inductive Event : Type :=
| EvSyncBatchStats      (* workload.sync_batch_stats was called *)
| EvNext.               (* next() was called on the evaluation iterator *)

(** The fields of an [ImagenetWorkload] object; [_model] is absent until
    [init_model_fn] assigns it. *)
Record ImagenetWorkload (F : Type) : Type := mkWorkload {
  _eval_ds : option (InputIter F);
  _param_shapes : option (PyTree ShapeTuple);
  _model : option Model;
  epoch_metrics : list (gmap string F);
  model_name : string;
  dataset : string;
  num_classes : Z
}.
Arguments mkWorkload {F} _ _ _ _ _ _ _.
Arguments _eval_ds {F}.
Arguments _param_shapes {F}.
Arguments _model {F}.
Arguments epoch_metrics {F}.
Arguments model_name {F}.
Arguments dataset {F}.
Arguments num_classes {F}.

Record World (F : Type) : Type := mkWorld {
  self : ImagenetWorkload F;
  trace : list Event
}.
Arguments mkWorld {F} self trace.
Arguments self {F}.
Arguments trace {F}.

(** The monad of methods: the workload object and the trace are threaded,
    an exception stops the computation and keeps the state reached. *)
Definition M (F A : Type) : Type := World F -> result A * World F.

Definition ret {F A} (a : A) : M F A := fun s => (Ok a, s).

Definition bind {F A B} (m : M F A) (k : A -> M F B) : M F B :=
  fun s =>
    match m s with
    | (Ok a, s') => k a s'
    | (Raise e, s') => (Raise e, s')
    end.

Notation "x <- m ;; k" := (bind m (fun x => k))
  (at level 100, m at next level, right associativity, only parsing).

Definition lift {F A} (r : result A) : M F A := fun s => (r, s).

Definition get_self {F} : M F (ImagenetWorkload F) := fun s => (Ok (self s), s).

Definition emit {F} (e : Event) : M F unit :=
  fun s => (Ok tt, mkWorld (self s) (trace s ++ [e])).

Definition set_eval_ds {F} (v : option (InputIter F)) : M F unit :=
  fun s =>
    let w := self s in
    (Ok tt,
     mkWorld (mkWorkload v (_param_shapes w) (_model w) (epoch_metrics w)
                (model_name w) (dataset w) (num_classes w)) (trace s)).

Definition set_param_shapes {F} (v : option (PyTree ShapeTuple)) : M F unit :=
  fun s =>
    let w := self s in
    (Ok tt,
     mkWorld (mkWorkload (_eval_ds w) v (_model w) (epoch_metrics w)
                (model_name w) (dataset w) (num_classes w)) (trace s)).

Definition set_model {F} (v : option Model) : M F unit :=
  fun s =>
    let w := self s in
    (Ok tt,
     mkWorld (mkWorkload (_eval_ds w) (_param_shapes w) v (epoch_metrics w)
                (model_name w) (dataset w) (num_classes w)) (trace s)).

(** [x[0]] on a device-mapped value. *)
Definition first_slice {A} (xs : Sharded A) : result A :=
  match xs with
  | x :: _ => Ok x
  | [] => Raise IndexError
  end.

Section Workload.
Context {F : Type} `{Scalar F} `{Backend F}.

(** [ImagenetWorkload.__init__]. *)
Definition __init__ : ImagenetWorkload F :=
  mkWorkload None None None [] "_ResNet1" "imagenette" 10.

Definition target_value (w : ImagenetWorkload F) : F := of_Q 0.76.

Definition has_reached_goal (w : ImagenetWorkload F) (eval_result : gmap string F)
  : result bool :=
  accuracy <-? getitem eval_result "accuracy";
  Ok (fgtb accuracy (target_value w)).

Definition loss_type (w : ImagenetWorkload F) : LossType := SOFTMAX_CROSS_ENTROPY.

Definition train_mean (w : ImagenetWorkload F) : list F :=
  [fmul (of_Q 0.485) (of_Q 255); fmul (of_Q 0.456) (of_Q 255);
   fmul (of_Q 0.406) (of_Q 255)].

Definition train_stddev (w : ImagenetWorkload F) : list F :=
  [fmul (of_Q 0.229) (of_Q 255); fmul (of_Q 0.224) (of_Q 255);
   fmul (of_Q 0.225) (of_Q 255)].

(** The properties below fall off the end (return [None]) for any other
    dataset name. *)
Definition num_train_examples (w : ImagenetWorkload F) : option Z :=
  if str_contains "imagenet2012" (dataset w) then Some 1271167
  else if String.eqb "imagenette" (dataset w) then Some 9469
  else None.

Definition num_eval_examples (w : ImagenetWorkload F) : option Z :=
  if str_contains "imagenet2012" (dataset w) then Some 100000
  else if String.eqb "imagenette" (dataset w) then Some 3925
  else None.

Definition max_allowed_runtime_sec (w : ImagenetWorkload F) : option Z :=
  if str_contains "imagenet2012" (dataset w) then Some 111600
  else if String.eqb "imagenette" (dataset w) then Some 3600
  else None.

Definition eval_period_time_sec (w : ImagenetWorkload F) : option Z :=
  if str_contains "imagenet2012" (dataset w) then Some 6000
  else if String.eqb "imagenette" (dataset w) then Some 30
  else None.

(** An int-valued operand that may be [None]: arithmetic on [None] is a
    [TypeError]. *)
Definition as_int (v : option Z) : result Z :=
  match v with
  | Some n => Ok n
  | None => Raise TypeError
  end.

(** [input_pipeline.create_input_iter(ds_builder, batch_size, mean, stddev,
    train=.., cache=..)], a fresh iterator. *)
Definition create_input_iter (ds_builder : string) (batch_size : Z)
    (mean stddev : list F) (train cache : bool) : InputIter F :=
  mkInputIter ds_builder batch_size mean stddev train cache 0.

Definition _build_dataset (w : ImagenetWorkload F) (data_rng : RandomState)
    (split data_dir : string) (batch_size : Z) : result (InputIter F) :=
  r <-? py_mod batch_size device_count;
  if r >? 0 then
    Raise (ValueError "Batch size must be divisible by the number of devices")
  else
    let ds_builder := dataset w in
    let ds := create_input_iter ds_builder batch_size (train_mean w)
                (train_stddev w) true false in
    Ok ds.

(** [iter] of an iterator is the iterator. *)
Definition build_input_queue (w : ImagenetWorkload F) (data_rng : RandomState)
    (split data_dir : string) (batch_size : Z) : result (InputIter F) :=
  _build_dataset w data_rng split data_dir batch_size.

(** [avg_fn = jax.pmap(lambda x: lax.pmean(x, 'x'), 'x')] is [pmean_tree];
    [model_state['batch_stats']] reads the key on every slice and
    [model_state.copy({...})] rewrites it on every slice. *)
Definition sync_batch_stats (model_state : Sharded (gmap string (PyTree (Tensor F))))
  : result (Sharded (gmap string (PyTree (Tensor F)))) :=
  let avg_fn := pmean_tree in
  batch_stats <-? collect (map (fun s => getitem s "batch_stats") model_state);
  let new_model_state :=
    zip_with (fun s avg => <["batch_stats" := avg]> s) model_state
      (avg_fn batch_stats) in
  Ok new_model_state.

Definition param_shapes (w : ImagenetWorkload F) : result (PyTree ShapeTuple) :=
  match _param_shapes w with
  | None =>
      Raise (ValueError
        "This should not happen, workload.init_model_fn() should be called before workload.param_shapes!")
  | Some shapes => Ok shapes
  end.

(** [jnp.ones(shape)]. *)
Definition jnp_ones (shp : list nat) : Tensor F :=
  mkTensor shp (repeat (of_Q 1) (foldr Nat.mul 1%nat shp)).

(** [variables.pop('params')] on a FrozenDict: the dict without the key,
    and the value. *)
Definition initialized (key : RandomState) (model : Model)
  : result (PyTree (Tensor F) * gmap string (PyTree (Tensor F))) :=
  let input_shape := [1; 224; 224; 3]%nat in
  let variables := flax_init model key (jnp_ones input_shape) in
  params <-? getitem variables "params";
  let model_state := delete "params" variables in
  Ok (params, model_state).

Definition init_model_fn (rng : RandomState)
  : M F (Sharded (PyTree (Tensor F)) * Sharded (gmap string (PyTree (Tensor F)))) :=
  w <- get_self;;
  model_cls <- lift (if models_has (model_name w) then Ok (model_name w)
                     else Raise (AttributeError (model_name w)));;
  let model := mkModel model_cls (num_classes w) "float32" in
  _ <- set_model (Some model);;
  pm <- lift (initialized rng model);;
  let '(params, model_state) := pm in
  _ <- set_param_shapes
         (Some (tree_map (fun x => mkShapeTuple (shape x)) params));;
  let model_state := replicate_on (Z.to_nat device_count) model_state in
  let params := replicate_on (Z.to_nat device_count) params in
  ret (params, model_state).

Definition model_fn (w : ImagenetWorkload F) (params : PyTree (Tensor F))
    (input_batch : Batch (Tensor F)) (model_state : gmap string (PyTree (Tensor F)))
    (mode : ForwardPassMode) (rng : RandomState) (update_batch_norm : bool)
  : result (Tensor F * option (gmap string (PyTree (Tensor F)))) :=
  (* {'params': params, **model_state}: the later keys win *)
  let variables := model_state ∪ {[ "params" := params ]} in
  let train := ForwardPassMode_eqb mode TRAIN in
  match _model w with
  | None => Raise (AttributeError "_model")
  | Some model =>
      if update_batch_norm then
        let '(logits, new_model_state) :=
          flax_apply model variables (squeeze (image input_batch)) train true in
        Ok (logits, Some new_model_state)
      else
        let logits :=
          fst (flax_apply model variables (squeeze (image input_batch)) train false) in
        Ok (logits, None)
  end.

Definition loss_fn (w : ImagenetWorkload F) (label_batch logits_batch : Tensor F) : F :=
  let one_hot_labels := one_hot label_batch (num_classes w) in
  let xentropy := softmax_cross_entropy logits_batch one_hot_labels in
  jnp_mean (data xentropy).

(** [compute_metrics] runs on every device inside [eval_model_fn]; its
    [lax.pmean] joins the devices, so it is written over the slices. *)
Definition compute_metrics (w : ImagenetWorkload F)
    (logits labels : Sharded (Tensor F)) : Sharded (gmap string F) :=
  let loss := zip_with (fun lg lb => loss_fn w lb lg) logits labels in
  let accuracy :=
    zip_with (fun lg lb => jnp_mean (data (argmax_eq lg lb))) logits labels in
  zip_with (fun l a => ({[ "loss" := l; "accuracy" := a ]} : gmap string F))
    (pmean_scalar loss) (pmean_scalar accuracy).

(** [jax.pmap(..., in_axes=(None, 0, 0, 0, None))]: [params], [batch] and
    [state] are device-mapped, [self] and [rng] are broadcast. *)
Definition eval_model_fn (w : ImagenetWorkload F)
    (params : Sharded (PyTree (Tensor F)))
    (batch : Batch (Sharded (Tensor F)))
    (state : Sharded (gmap string (PyTree (Tensor F))))
    (rng : RandomState) : result (Sharded (gmap string F)) :=
  _ <-? pmap_axis_size [length params; length (image batch);
                        length (label batch); length state];
  outs <-? collect
    (zip_with (fun p bs => model_fn w p (fst bs) (snd bs) EVAL rng false)
       params (zip (batch_slices batch) state));
  Ok (compute_metrics w (map fst outs) (label batch)).

(** The call [workload.sync_batch_stats(model_state)], as seen from
    outside. *)
Definition call_sync_batch_stats
    (model_state : Sharded (gmap string (PyTree (Tensor F))))
  : M F (Sharded (gmap string (PyTree (Tensor F)))) :=
  _ <- emit EvSyncBatchStats;;
  lift (sync_batch_stats model_state).

(** [next(eval_iter)]: [eval_iter] is the object held in [self._eval_ds]. *)
Definition next_eval_iter : M F (Batch (Sharded (Tensor F))) :=
  _ <- emit EvNext;;
  w <- get_self;;
  match _eval_ds w with
  | None => lift (Raise TypeError)
  | Some it =>
      match pipeline_next it with
      | None => lift (Raise StopIteration)
      | Some batch =>
          _ <- set_eval_ds
                 (Some (mkInputIter (ds_builder it) (ds_batch_size it)
                          (ds_mean it) (ds_stddev it) (ds_train it)
                          (ds_cache it) (S (ds_drawn it))));;
          ret batch
      end
  end.

(** The body of [for idx in range(num_batches)], [n] iterations left. *)
Fixpoint eval_batches (n : nat)
    (params : Sharded (PyTree (Tensor F)))
    (model_state : Sharded (gmap string (PyTree (Tensor F))))
    (rng : RandomState)
    (eval_metrics : list (Sharded (gmap string F))) (total_accuracy : F)
  : M F (list (Sharded (gmap string F))) :=
  match n with
  | O => ret eval_metrics
  | S n' =>
      batch <- next_eval_iter;;
      w <- get_self;;
      synced_metrics <- lift (eval_model_fn w params batch model_state rng);;
      accuracy <- lift (collect (map (fun m => getitem m "accuracy") synced_metrics));;
      eval_batches n' params model_state rng
        (eval_metrics ++ [synced_metrics])
        (fadd total_accuracy (jnp_mean accuracy))
  end.

(** [jax.tree_multimap(lambda *x: np.stack(x), *eval_metrics)]: one list
    per key; there must be a first dict, and all have its keys. *)
Definition stack_metrics (eval_metrics : list (gmap string F))
  : result (gmap string (list F)) :=
  match eval_metrics with
  | [] => Raise TypeError
  | m0 :: _ =>
      if forallb (fun m => bool_decide (dom m = dom m0)) eval_metrics then
        Ok (map_imap (fun k _ => Some (omap (fun m => m !! k) eval_metrics)) m0)
      else Raise (ValueError "Dict key mismatch")
  end.

Definition eval_model
    (params : Sharded (PyTree (Tensor F)))
    (model_state : Sharded (gmap string (PyTree (Tensor F))))
    (rng : RandomState) (data_dir : string) : M F (gmap string F) :=
  model_state <- call_sync_batch_stats model_state;;
  let '(data_rng, model_rng) := prng_split2 rng in
  let eval_batch_size := 200 in
  w <- get_self;;
  num_eval <- lift (as_int (num_eval_examples w));;
  num_batches <- lift (py_floordiv num_eval eval_batch_size);;
  _ <- match _eval_ds w with
       | None =>
           ds <- lift (_build_dataset w data_rng "test" data_dir eval_batch_size);;
           set_eval_ds (Some ds)
       | Some _ => ret tt
       end;;
  eval_metrics <- eval_batches (Z.to_nat num_batches) params model_state rng
                    [] (of_Q 0);;
  eval_metrics <- lift (collect (map first_slice eval_metrics));;
  eval_metrics <- lift (stack_metrics eval_metrics);;
  let summary := jnp_mean <$> eval_metrics in
  ret summary.

End Workload.

(** ** submission.py *)

Definition get_batch_size (workload_name : string) : Z := 128.

Section Submission.
Context {F : Type} `{Scalar F} `{Backend F}.

(** [optax.apply_updates]: [p + u] on every leaf. *)
Definition apply_updates (params updates : PyTree (Tensor F)) : PyTree (Tensor F) :=
  tree_multimap tensor_add params updates.

(** The closure [_loss_fn] of [pmapped_train_step], on one device; the
    variables it captures come first.  [model_fn] is called with
    [update_batch_norm=True], where its second result is never [None]. *)
Definition _loss_fn (workload : ImagenetWorkload F)
    (hyperparameters : Hyperparameters F)
    (model_state : gmap string (PyTree (Tensor F)))
    (batch : Batch (Tensor F)) (rng : RandomState)
    (params : PyTree (Tensor F))
  : result (F * (gmap string (PyTree (Tensor F)) * Tensor F)) :=
  let variables := model_state ∪ {[ "params" := params ]} in
  out <-? model_fn workload params batch model_state TRAIN rng true;
  let '(logits, new_model_state) := out in
  new_model_state <-? match new_model_state with
                      | Some s => Ok s
                      | None => Raise TypeError
                      end;
  let loss := loss_fn workload (label batch) logits in
  variables_params <-? getitem variables "params";
  let weight_penalty_params := tree_leaves variables_params in
  let weight_l2 :=
    py_sum (omap (fun x => if (1 <? ndim x)%nat     (* x.ndim > 1 *)
                           then Some (jnp_sum (square x)) else None)
              weight_penalty_params) in
  let weight_penalty := fmul (fmul (l2 hyperparameters) (of_Q 0.5)) weight_l2 in
  let loss := fadd loss weight_penalty in
  Ok (loss, (new_model_state, logits)).

(** [jax.pmap(..., in_axes=(None, None, 0, 0, 0, None, 0, None))]:
    [model_state], [optimizer_state], [current_param_container] and [batch]
    are device-mapped, the other arguments are broadcast. *)
Definition pmapped_train_step (workload : ImagenetWorkload F)
    (opt_update_fn : PyTree (Tensor F) -> OptState -> PyTree (Tensor F) ->
                     PyTree (Tensor F) * OptState)
    (model_state : Sharded (gmap string (PyTree (Tensor F))))
    (optimizer_state : Sharded OptState)
    (current_param_container : Sharded (PyTree (Tensor F)))
    (hyperparameters : Hyperparameters F)
    (batch : Batch (Sharded (Tensor F))) (rng : RandomState)
  : result (Sharded (gmap string (PyTree (Tensor F))) * Sharded OptState *
            Sharded (PyTree (Tensor F))) :=
  _ <-? pmap_axis_size [length model_state; length optimizer_state;
                        length current_param_container;
                        length (image batch); length (label batch)];
  (* aux, grad = grad_fn(current_param_container), on every device *)
  outs <-? collect
    (zip_with
       (fun p sb =>
          let grad_fn := value_and_grad
                           (_loss_fn workload hyperparameters (fst sb) (snd sb) rng) in
          grad_fn p)
       current_param_container (zip model_state (batch_slices batch)));
  let aux := map fst outs in
  let grad := pmean_tree (map snd outs) in
  let new_model_state := map (fun a => fst (snd a)) aux in
  let stepped :=
    zip_with
      (fun g sp =>
         let '(updates, new_optimizer_state) := opt_update_fn g (fst sp) (snd sp) in
         let updated_params := apply_updates (snd sp) updates in
         (new_optimizer_state, updated_params))
      grad (zip optimizer_state current_param_container) in
  Ok (new_model_state, map fst stepped, map snd stepped).

(** [workload] is the object in the state of [M]; [optimizer_state] is the
    pair of the optax state and [opt_update_fn]; [current_params_types] is
    never read and is left out. *)
Definition update_params
    (current_param_container : Sharded (PyTree (Tensor F)))
    (model_state : Sharded (gmap string (PyTree (Tensor F))))
    (hyperparameters : Hyperparameters F)
    (input_batch label_batch : Sharded (Tensor F))
    (loss_type : LossType)
    (optimizer_state :
       Sharded OptState *
       (PyTree (Tensor F) -> OptState -> PyTree (Tensor F) ->
        PyTree (Tensor F) * OptState))
    (eval_results : list (Z * F)) (global_step : Z) (rng : RandomState)
  : M F ((Sharded OptState *
          (PyTree (Tensor F) -> OptState -> PyTree (Tensor F) ->
           PyTree (Tensor F) * OptState)) *
         Sharded (PyTree (Tensor F)) *
         Sharded (gmap string (PyTree (Tensor F)))) :=
  let batch := mkBatch input_batch label_batch in
  let '(optimizer_state, opt_update_fn) := optimizer_state in
  workload <- get_self;;
  out <- lift (pmapped_train_step workload opt_update_fn model_state
                 optimizer_state current_param_container hyperparameters
                 batch rng);;
  let '(new_model_state, new_optimizer_state, new_params) := out in
  num_train <- lift (as_int (num_train_examples workload));;
  steps_per_epoch <- lift (py_floordiv num_train (get_batch_size "imagenet"));;
  r <- lift (py_mod (global_step + 1) steps_per_epoch);;
  new_model_state <-
    (if r =? 0 then
       (* sync batch statistics across replicas once per epoch *)
       call_sync_batch_stats new_model_state
     else ret new_model_state);;
  ret ((new_optimizer_state, opt_update_fn), new_params, new_model_state).

(** [next(input_queue)], then the two entries of the batch; the other
    arguments are never read.  The queue is the caller's object: its state
    after the call is returned beside the result. *)
Definition data_selection (input_queue : InputIter F)
  : result ((Sharded (Tensor F) * Sharded (Tensor F)) * InputIter F) :=
  match pipeline_next input_queue with
  | None => Raise StopIteration
  | Some x => Ok ((image x, label x), advance input_queue)
  end.

End Submission.

(** *** The learning-rate schedule, on the reals *)

#[local] Open Scope R_scope.

(** [optax.polynomial_schedule]; [optax.linear_schedule] is its case
    [power = 1]. *)
Definition polynomial_schedule (init_value end_value : R) (power : nat)
    (transition_steps transition_begin : Z) : Z -> R :=
  if (transition_steps <=? 0)%Z then fun count => init_value
  else
    fun count =>
      (* jnp.clip(count - transition_begin, 0, transition_steps) *)
      let count := Z.min (Z.max (count - transition_begin) 0) transition_steps in
      let frac := 1 - IZR count / IZR transition_steps in
      (init_value - end_value) * frac ^ power + end_value.

Definition linear_schedule (init_value end_value : R) (transition_steps : Z)
  : Z -> R :=
  polynomial_schedule init_value end_value 1 transition_steps 0.

(** [optax.cosine_decay_schedule], with its default [alpha = 0]. *)
Definition cosine_decay_schedule (init_value : R) (decay_steps : Z)
  : result (Z -> R) :=
  if negb (decay_steps >? 0)%Z then
    Raise (ValueError "The cosine_decay_schedule requires positive decay_steps!")
  else
    Ok (fun count =>
          let alpha := 0 in
          let count := Z.min count decay_steps in
          let cosine_decay := 0.5 * (1 + cos (PI * IZR count / IZR decay_steps)) in
          let decayed := (1 - alpha) * cosine_decay + alpha in
          init_value * decayed).

(** [optax.join_schedules]: [jnp.where(step < boundary, output,
    schedule(step - boundary))], boundary after boundary. *)
Fixpoint join_from (output : Z -> R) (schedules : list (Z -> R))
    (boundaries : list Z) : Z -> R :=
  match schedules, boundaries with
  | schedule :: schedules', boundary :: boundaries' =>
      join_from
        (fun step => if (step <? boundary)%Z then output step
                     else schedule (step - boundary)%Z)
        schedules' boundaries'
  | _, _ => output
  end.

Definition join_schedules (schedules : list (Z -> R)) (boundaries : list Z)
  : result (Z -> R) :=
  match schedules with
  | [] => Raise IndexError
  | first :: others => Ok (join_from first others boundaries)
  end.

Definition cosine_decay (lr step total_steps : R) : R :=
  let ratio := Rmax 0 (step / total_steps) in
  let mult := 0.5 * (1 + cos (PI * ratio)) in
  mult * lr.

Definition create_learning_rate_fn (hparams : Hyperparameters R)
    (steps_per_epoch : Z) : result (Z -> R) :=
  let base_learning_rate :=
    learning_rate hparams * IZR (get_batch_size "imagenet") / 256 in
  let warmup_fn :=
    linear_schedule 0 base_learning_rate
      (warmup_epochs hparams * steps_per_epoch) in
  let cosine_epochs := Z.max (num_epochs hparams - warmup_epochs hparams) 1 in
  cosine_fn <-? cosine_decay_schedule base_learning_rate
                  (cosine_epochs * steps_per_epoch);
  schedule_fn <-? join_schedules [warmup_fn; cosine_fn]
                    [(warmup_epochs hparams * steps_per_epoch)%Z];
  Ok schedule_fn.

#[local] Close Scope R_scope.


(** ** Instances used to run the definitions *)

(** Exact rational arithmetic. *)
#[export] Instance Qc_Scalar : Scalar Qc := {|
  of_Q := Q2Qc;
  fadd := Qcplus;
  fmul := Qcmult;
  fdiv := Qcdiv;
  fgtb := fun x y => match (x ?= y)%Qc with Gt => true | _ => false end
|}.

(** Real arithmetic. *)
#[export] Instance R_Scalar : Scalar R := {|
  of_Q := Q2R;
  fadd := Rplus;
  fmul := Rmult;
  fdiv := Rdiv;
  fgtb := fun x y => if Rgt_dec x y then true else false
|}.

(** IEEE 754 binary32, the [jnp.float32] that the model and its batch
    statistics are created with: every operation is the exact one followed
    by rounding to the nearest number with 24 significant bits, ties to the
    even one.  A number is carried as the rational it denotes.  Numbers
    below the normal range are rounded to multiples of [2^-149]; overflow
    to infinity and division by zero are not represented. *)
Definition round_half_even (num den : Z) : Z :=
  let q := num / den in
  let r := num mod den in
  match 2 * r ?= den with
  | Lt => q
  | Gt => q + 1
  | Eq => if Z.even q then q else q + 1
  end.

Definition binary32_round (x : Q) : Q :=
  let a := Qnum x in
  let b := Zpos (Qden x) in
  if a =? 0 then 0%Q
  else
    let m := Z.abs a in
    (* [e] with [2^e <= m / b < 2^(e+1)] *)
    let k := Z.log2 m - Z.log2 b in
    let e :=
      if 0 <=? k
      then (if b * 2 ^ k <=? m then k else k - 1)
      else (if b <=? m * 2 ^ (- k) then k else k - 1) in
    (* the unit in the last place is [2^s] *)
    let s := Z.max (e - 23) (-149) in
    if 0 <=? s
    then inject_Z (Z.sgn a * round_half_even m (b * 2 ^ s) * 2 ^ s)
    else Qmake (Z.sgn a * round_half_even (m * 2 ^ (- s)) b) (Z.to_pos (2 ^ (- s))).

Definition binary32_Scalar : Scalar Qc := {|
  of_Q := fun q => Q2Qc (binary32_round q);
  fadd := fun x y => Q2Qc (binary32_round (x + y)%Qc);
  fmul := fun x y => Q2Qc (binary32_round (x * y)%Qc);
  fdiv := fun x y => Q2Qc (binary32_round (x / y)%Qc);
  fgtb := fun x y => match (x ?= y)%Qc with Gt => true | _ => false end
|}.

(** ** submission.py: the optimizer, on the reals *)

(** [optax.sgd(nesterov=.., momentum=.., learning_rate=..)]: the pair
    [(opt_init_fn, opt_update_fn)]. *)
Class Optax (F : Type) `{Backend F} : Type := {
  optax_sgd :
    bool -> F -> (Z -> R) ->
    (PyTree (Tensor F) -> OptState) *
    (PyTree (Tensor F) -> OptState -> PyTree (Tensor F) ->
     PyTree (Tensor F) * OptState)
}.

(** [jnp.zeros(shape)]. *)
Definition jnp_zeros {F} `{Scalar F} (shp : list nat) : Tensor F :=
  mkTensor shp (repeat (of_Q 0) (foldr Nat.mul 1%nat shp)).

Section Optimizer.
Context `{Backend R} `{!Optax R}.

(** [num_train_examples] is what the caller read from the workload. *)
Definition optimizer (hyperparameters : Hyperparameters R)
    (num_train_examples : option Z)
  : result ((PyTree (Tensor R) -> OptState) *
            (PyTree (Tensor R) -> OptState -> PyTree (Tensor R) ->
             PyTree (Tensor R) * OptState)) :=
  num_train <-? as_int num_train_examples;
  steps_per_epoch <-? py_floordiv num_train (get_batch_size "imagenet");
  learning_rate_fn <-? create_learning_rate_fn hyperparameters steps_per_epoch;
  Ok (optax_sgd true (momentum hyperparameters) learning_rate_fn).

Definition init_optimizer_state (workload : ImagenetWorkload R)
    (model_params : Sharded (PyTree (Tensor R)))
    (model_state : Sharded (gmap string (PyTree (Tensor R))))
    (hyperparameters : Hyperparameters R) (rng : RandomState)
  : result (Sharded OptState *
            (PyTree (Tensor R) -> OptState -> PyTree (Tensor R) ->
             PyTree (Tensor R) * OptState)) :=
  shapes <-? param_shapes workload;
  let params_zeros_like := tree_map (fun s => jnp_zeros (shape_tuple s)) shapes in
  fns <-? optimizer hyperparameters (num_train_examples workload);
  let '(opt_init_fn, opt_update_fn) := fns in
  let optimizer_state := opt_init_fn params_zeros_like in
  Ok (replicate_on (Z.to_nat device_count) optimizer_state, opt_update_fn).

End Optimizer.

(** A two-device machine with a one-layer model: a 2x2 kernel, a bias and
    one running mean.  The forward pass moves the running mean by the first
    pixel; the gradient is the parameter tree itself; the optimizer steps
    against the gradient and counts its calls. *)
Definition demo_kernel : Tensor Qc :=
  mkTensor [2; 2]%nat [Q2Qc 1; Q2Qc 2; Q2Qc 3; Q2Qc 4].

Definition demo_bias : Tensor Qc := mkTensor [2]%nat [Q2Qc 5; Q2Qc 6].

Definition demo_params : PyTree (Tensor Qc) :=
  Dict [("Dense_0", Dict [("bias", Leaf demo_bias); ("kernel", Leaf demo_kernel)])].

Definition demo_stats (v : Qc) : PyTree (Tensor Qc) :=
  Dict [("bn", Dict [("mean", Leaf (mkTensor [1]%nat [v]))])].

Definition demo_state (v : Qc) : gmap string (PyTree (Tensor Qc)) :=
  {[ "batch_stats" := demo_stats v ]}.

Definition demo_apply (m : Model) (variables : gmap string (PyTree (Tensor Qc)))
    (x : Tensor Qc) (train mutable : bool)
  : Tensor Qc * gmap string (PyTree (Tensor Qc)) :=
  (mkTensor [1]%nat (firstn 1 (data x)),
   {[ "batch_stats" :=
        tree_map (fun t => mkTensor (shape t)
                             (map (fun v => fadd v (hd (Q2Qc 0) (data x))) (data t)))
          (default (Dict []) (variables !! "batch_stats")) ]}).

#[export] Instance demo_backend : Backend Qc := {|
  RandomState := nat;
  OptState := nat;
  device_count := 2;
  models_has := fun name => String.eqb name "_ResNet1" || String.eqb name "ResNet50";
  flax_init := fun m key x => {[ "params" := demo_params ]} ∪ demo_state (Q2Qc 0);
  flax_apply := demo_apply;
  one_hot := fun labels n => labels;
  softmax_cross_entropy := fun logits labels => tensor_add logits labels;
  argmax_eq := fun logits labels => mkTensor [1]%nat [Q2Qc (1 # 2)];
  value_and_grad := fun Aux f p =>
    match f p with
    | Ok v => Ok (v, p)
    | Raise e => Raise e
    end;
  prng_split2 := fun rng => (2 * rng, 2 * rng + 1)%nat;
  pipeline_next := fun it =>
    let px := Q2Qc (inject_Z (Z.of_nat (ds_drawn it))) in
    Some (mkBatch [mkTensor [1; 1]%nat [px]; mkTensor [1; 1]%nat [px]]
                  [mkTensor [1]%nat [Q2Qc 1]; mkTensor [1]%nat [Q2Qc 0]])
|}.

Definition demo_opt_update (g : PyTree (Tensor Qc)) (s : nat) (p : PyTree (Tensor Qc))
  : PyTree (Tensor Qc) * nat :=
  (tree_map (fun t => mkTensor (shape t) (map (fun v => (- v)%Qc) (data t))) g, S s).

(** The demo workload after [init_model_fn], and one evaluation of it
    with running means 1 and 3 on the two devices. *)
Definition demo_world : World Qc :=
  snd (init_model_fn (H0 := demo_backend) 7%nat (mkWorld __init__ [])).

Definition demo_eval_run : result (gmap string Qc) * World Qc :=
  eval_model (H0 := demo_backend) (replicate_on 2 demo_params)
    [demo_state (Q2Qc 1); demo_state (Q2Qc 3)] 5%nat "/data" demo_world.

Definition demo_hparams : Hyperparameters Qc :=
  mkHyperparameters (Q2Qc 0.1) (Q2Qc 0.9) (Q2Qc 0.5) 5 90.

Definition demo_images : Sharded (Tensor Qc) :=
  [mkTensor [1; 1]%nat [Q2Qc 3]; mkTensor [1; 1]%nat [Q2Qc 4]].

Definition demo_labels : Sharded (Tensor Qc) :=
  [mkTensor [1]%nat [Q2Qc 1]; mkTensor [1]%nat [Q2Qc 0]].

(** One training step of the demo workload at step index 72. *)
Definition demo_update_run :=
  update_params (H0 := demo_backend) (replicate_on 2 demo_params)
    [demo_state (Q2Qc 1); demo_state (Q2Qc 3)] demo_hparams demo_images
    demo_labels SOFTMAX_CROSS_ENTROPY (replicate_on 2 0%nat, demo_opt_update)
    [] 72 5%nat demo_world.

(** The same step without the epoch bookkeeping. *)
Definition demo_step_out :=
  match pmapped_train_step (H0 := demo_backend) (self demo_world)
          demo_opt_update [demo_state (Q2Qc 1); demo_state (Q2Qc 3)]
          (replicate_on 2 0%nat) (replicate_on 2 demo_params) demo_hparams
          (mkBatch demo_images demo_labels) 5%nat with
  | Ok out => out
  | Raise _ => ([], [], [])
  end.

(** Hyperparameters without warmup, on the reals. *)
Definition no_warmup_hparams : Hyperparameters R :=
  mkHyperparameters 1%R 0.9%R 0.0001%R 0 10.

(** A usual configuration: 5 warmup epochs out of 90. *)
Definition usual_hparams : Hyperparameters R :=
  mkHyperparameters 0.1%R 0.9%R 0.0001%R 5 90.

(** A warmup longer than the run. *)
Definition long_warmup_hparams : Hyperparameters R :=
  mkHyperparameters 0.1%R 0.9%R 0.0001%R 5 3.

(** The demo machine with 16 devices: 128 is a multiple of 16, 200 is not. *)
#[export] Instance demo_backend16 : Backend Qc := {|
  RandomState := nat;
  OptState := nat;
  device_count := 16;
  models_has := models_has (Backend := demo_backend);
  flax_init := flax_init (Backend := demo_backend);
  flax_apply := demo_apply;
  one_hot := one_hot (Backend := demo_backend);
  softmax_cross_entropy := softmax_cross_entropy (Backend := demo_backend);
  argmax_eq := argmax_eq (Backend := demo_backend);
  value_and_grad := @value_and_grad Qc demo_backend;
  prng_split2 := prng_split2 (Backend := demo_backend);
  pipeline_next := pipeline_next (Backend := demo_backend)
|}.

(** A workload object whose dataset name is not one the properties know. *)
Definition other_dataset_world : World Qc :=
  mkWorld (mkWorkload None None (Some (mkModel "_ResNet1" 10 "float32")) []
             "_ResNet1" "cifar10" 10) [].

(** A two-device machine on the reals, with a model of one 2x3 kernel and
    one bias; its optimizer keeps a momentum tree. *)
Definition demo_params_R : PyTree (Tensor R) :=
  Dict [("Dense_0",
         Dict [("bias", Leaf (mkTensor [3]%nat [1%R; 2%R; 3%R]));
               ("kernel", Leaf (mkTensor [2; 3]%nat
                                  [1%R; 2%R; 3%R; 4%R; 5%R; 6%R]))])].

#[export] Instance demo_backend_R : Backend R := {|
  RandomState := nat;
  OptState := PyTree (Tensor R);
  device_count := 2;
  models_has := fun name => String.eqb name "_ResNet1";
  flax_init := fun m key x =>
    {[ "params" := demo_params_R;
       "batch_stats" := Leaf (mkTensor [1]%nat [0%R]) ]};
  flax_apply := fun m variables x train mutable => (x, variables);
  one_hot := fun labels n => labels;
  softmax_cross_entropy := fun logits labels => logits;
  argmax_eq := fun logits labels => logits;
  value_and_grad := fun Aux f p =>
    match f p with
    | Ok v => Ok (v, p)
    | Raise e => Raise e
    end;
  prng_split2 := fun rng => (rng, S rng);
  pipeline_next := fun it => None
|}.

#[export] Instance demo_optax_R : Optax R := {|
  optax_sgd := fun nesterov momentum learning_rate_fn =>
    (fun params => params, fun g s p => (g, s))
|}.

Definition demo_world_R : World R :=
  snd (init_model_fn (H0 := demo_backend_R) 7%nat (mkWorld __init__ [])).

(** A second evaluation of the demo workload, with another [rng] and
    directory. *)
Definition demo_eval_again : result (gmap string Qc) * World Qc :=
  eval_model (H0 := demo_backend) (replicate_on 2 demo_params)
    [demo_state (Q2Qc 1); demo_state (Q2Qc 3)] 11%nat "/elsewhere"
    (snd demo_eval_run).

(** The evaluation of the demo workload on the 16-device machine. *)
Definition demo_eval_run16 : result (gmap string Qc) * World Qc :=
  eval_model (H0 := demo_backend16) (replicate_on 16 demo_params)
    (replicate_on 16 (demo_state (Q2Qc 1))) 5%nat "/data" demo_world.

(** ** Notions used to state the properties *)

(** An input iterator put back to its first batch: what it was built from. *)
Definition rewind {F} (it : InputIter F) : InputIter F :=
  mkInputIter (ds_builder it) (ds_batch_size it) (ds_mean it) (ds_stddev it)
    (ds_train it) (ds_cache it) 0.

(** The run from [s] to [s'] left the workload as it was, apart from
    drawing batches from the evaluation iterator. *)
Definition only_drawn {F} (s s' : World F) : Prop :=
  rewind <$> _eval_ds (self s') = rewind <$> _eval_ds (self s) /\
  _param_shapes (self s') = _param_shapes (self s) /\
  _model (self s') = _model (self s) /\
  dataset (self s') = dataset (self s).

(** An array with [g] applied to every element. *)
Definition tensor_map {F} (g : F -> F) (x : Tensor F) : Tensor F :=
  mkTensor (shape x) (map g (data x)).

Section Notions.
Context {F : Type} `{Scalar F} `{Backend F}.

(** The parameter leaves whose rank is greater than 1. *)
Definition l2_penalty_leaves (params : PyTree (Tensor F)) : list (Tensor F) :=
  filter (fun x => (1 < ndim x)%nat) (tree_leaves params).

(** The weight-decay penalty in the words of the design:
    [l2_coefficient * 0.5 * sum(weight**2)] over those leaves. *)
Definition weight_decay_penalty (l2_coefficient : F) (params : PyTree (Tensor F)) : F :=
  fmul (fmul l2_coefficient (of_Q 0.5))
    (py_sum (map (fun weight => jnp_sum (square weight)) (l2_penalty_leaves params))).

(** Averaging [n] equal scalars across the devices returns them. *)
Definition exact_mean (n : nat) : Prop :=
  forall v : F, pmean_scalar (replicate_on n v) = replicate_on n v.

(** Consecutive training steps, as a driver runs them: every step gets the
    state the previous one returned, and the next step index. *)
Fixpoint train_steps
    (steps : list (Sharded (Tensor F) * Sharded (Tensor F) * RandomState))
    (hyperparameters : Hyperparameters F) (loss_type : LossType)
    (optimizer_state :
       Sharded OptState *
       (PyTree (Tensor F) -> OptState -> PyTree (Tensor F) ->
        PyTree (Tensor F) * OptState))
    (params : Sharded (PyTree (Tensor F)))
    (model_state : Sharded (gmap string (PyTree (Tensor F))))
    (global_step : Z)
  : M F ((Sharded OptState *
          (PyTree (Tensor F) -> OptState -> PyTree (Tensor F) ->
           PyTree (Tensor F) * OptState)) *
         Sharded (PyTree (Tensor F)) *
         Sharded (gmap string (PyTree (Tensor F)))) :=
  match steps with
  | [] => ret (optimizer_state, params, model_state)
  | (input_batch, label_batch, rng) :: rest =>
      out <- update_params params model_state hyperparameters input_batch
               label_batch loss_type optimizer_state [] global_step rng;;
      let '(optimizer_state', params', model_state') := out in
      train_steps rest hyperparameters loss_type optimizer_state' params'
        model_state' (global_step + 1)
  end.

End Notions.

(** The number of step indices [i] among the [k] indices from [global_step]
    on with [(i + 1) % steps_per_epoch = 0]. *)
Fixpoint epoch_boundaries (steps_per_epoch global_step : Z) (k : nat) : nat :=
  match k with
  | O => O
  | S k' =>
      ((if ((global_step + 1) mod steps_per_epoch =? 0)%Z then 1 else 0) +
       epoch_boundaries steps_per_epoch (global_step + 1)%Z k')%nat
  end.

(** [k] consecutive calls of [data_selection] on one queue, and the queue
    they leave. *)
Fixpoint select_batches `{Backend F} (k : nat) (input_queue : InputIter F)
  : result (list (Sharded (Tensor F) * Sharded (Tensor F)) * InputIter F) :=
  match k with
  | O => Ok ([], input_queue)
  | S k' =>
      first <-? data_selection input_queue;
      rest <-? select_batches k' (snd first);
      Ok (fst first :: fst rest, snd rest)
  end.

(** One epoch of the demo workload: 73 training steps from step index 0. *)
Definition demo_train_run :=
  train_steps (H0 := demo_backend)
    (replicate 73 (demo_images, demo_labels, 5%nat)) demo_hparams
    SOFTMAX_CROSS_ENTROPY (replicate_on 2 0%nat, demo_opt_update)
    (replicate_on 2 demo_params) [demo_state (Q2Qc 1); demo_state (Q2Qc 3)]
    0 demo_world.

(** A training queue from which nothing was drawn yet. *)
Definition demo_queue : InputIter Qc :=
  mkInputIter "imagenette" 128 [] [] true false 0.

(** * Properties *)

(** ** The definitions on small inputs *)

Example str_contains_examples :
  str_contains "imagenet2012" "imagenet2012:5.*.*" = true /\
  str_contains "imagenet2012" "imagenette" = false /\
  str_contains "net" "imagenette" = true.
Proof. repeat split. Qed.

Example py_mod_examples :
  py_mod (-1) 8 = Ok 7 /\ py_mod 128 8 = Ok 0 /\ py_mod 128 3 = Ok 2 /\
  py_mod 5 0 = Raise ZeroDivisionError /\ py_floordiv 9469 128 = Ok 73 /\
  py_floordiv 3925 200 = Ok 19.
Proof. repeat split. Qed.

Example workload_constants :
  num_train_examples (__init__ : ImagenetWorkload Qc) = Some 9469 /\
  num_eval_examples (__init__ : ImagenetWorkload Qc) = Some 3925 /\
  max_allowed_runtime_sec (__init__ : ImagenetWorkload Qc) = Some 3600 /\
  eval_period_time_sec (__init__ : ImagenetWorkload Qc) = Some 30.
Proof. repeat split. Qed.

Example tree_leaves_demo :
  tree_leaves demo_params = [demo_bias; demo_kernel] /\
  map ndim (tree_leaves demo_params) = [1; 2]%nat.
Proof. split; reflexivity. Qed.

(** The demo evaluation: one synchronization, then 19 = 3925 // 200 calls
    of [next]. *)
Example demo_eval_trace :
  trace (snd demo_eval_run) = EvSyncBatchStats :: repeat EvNext 19.
Proof. vm_compute. reflexivity. Qed.

(** ** The goal test *)

(** C3.  On exact rationals: for every evaluation summary with an accuracy
    field [a], [has_reached_goal] returns a boolean, and it returns true if
    and only if [a] strictly exceeds the target 0.76; a summary whose
    accuracy is exactly 0.76 gives false and one whose accuracy is 0.7601
    gives true. *)
Theorem has_reached_goal_strict :
  forall (w : ImagenetWorkload Qc) (eval_result : gmap string Qc) (a : Qc),
    eval_result !! "accuracy" = Some a ->
    (exists b : bool,
        has_reached_goal w eval_result = Ok b /\
        (b = true <-> (Q2Qc 0.76 < a)%Qc)) /\
    has_reached_goal w (<["accuracy" := Q2Qc 0.76]> eval_result) = Ok false /\
    has_reached_goal w (<["accuracy" := Q2Qc 0.7601]> eval_result) = Ok true.
Proof.
  intros w eval_result a Ha. split; [| split].
  - unfold has_reached_goal, getitem. rewrite Ha. simpl.
    exists (match (a ?= target_value w)%Qc with Gt => true | _ => false end).
    split; [reflexivity |].
    unfold target_value; simpl.
    change (Q2Qc 0.76 < a)%Qc with (a > Q2Qc 0.76)%Qc.
    rewrite Qcgt_alt.
    destruct (a ?= Q2Qc 0.76)%Qc; split; congruence.
  - unfold has_reached_goal, getitem. rewrite lookup_insert_eq. reflexivity.
  - unfold has_reached_goal, getitem. rewrite lookup_insert_eq. reflexivity.
Qed.

Lemma has_reached_goal_strict_witness :
  let r : gmap string Qc := {[ "loss" := Q2Qc 1.5; "accuracy" := Q2Qc 0.8 ]} in
  (exists b : bool,
      has_reached_goal __init__ r = Ok b /\ (b = true <-> (Q2Qc 0.76 < Q2Qc 0.8)%Qc)) /\
  has_reached_goal __init__ (<["accuracy" := Q2Qc 0.76]> r) = Ok false /\
  has_reached_goal __init__ (<["accuracy" := Q2Qc 0.7601]> r) = Ok true.
Proof.
  intros r. apply (has_reached_goal_strict __init__ r (Q2Qc 0.8)).
  vm_compute. reflexivity.
Defined.

(** ** Building the input queue *)

Section InputQueue.
Context {F : Type} `{Scalar F} `{Backend F}.

(** C8.  With at least one device: [build_input_queue] raises the
    batch-size [ValueError] when [batch_size] leaves a remainder modulo the
    device count, and returns an iterator (raises nothing) when it does
    not. *)
Theorem build_input_queue_divisibility :
  forall (w : ImagenetWorkload F) (data_rng : RandomState)
         (split data_dir : string) (batch_size : Z),
    0 < device_count ->
    (batch_size mod device_count <> 0 ->
     build_input_queue w data_rng split data_dir batch_size =
       Raise (ValueError "Batch size must be divisible by the number of devices")) /\
    (batch_size mod device_count = 0 ->
     exists ds, build_input_queue w data_rng split data_dir batch_size = Ok ds).
Proof.
  intros w data_rng split data_dir batch_size Hdev.
  unfold build_input_queue, _build_dataset, py_mod.
  destruct (Z.eqb_spec device_count 0) as [E | _]; [lia |].
  pose proof (Z.mod_pos_bound batch_size device_count Hdev) as Hb.
  simpl. split; intros Hm.
  - destruct (Z.gtb_spec (batch_size mod device_count) 0); [reflexivity | lia].
  - destruct (Z.gtb_spec (batch_size mod device_count) 0); [lia | eauto].
Qed.

End InputQueue.

Lemma build_input_queue_divisibility_witness :
  (128 mod 2 <> 0 ->
   build_input_queue (H0 := demo_backend) __init__ 0%nat "train" "/data" 128 =
     Raise (ValueError "Batch size must be divisible by the number of devices")) /\
  (128 mod 2 = 0 ->
   exists ds,
     build_input_queue (H0 := demo_backend) __init__ 0%nat "train" "/data" 128 = Ok ds).
Proof.
  apply (build_input_queue_divisibility (H0 := demo_backend)
           __init__ 0%nat "train" "/data" 128).
  reflexivity.
Defined.

(** ** Running monadic code *)

Lemma bind_run {F A B} (m : M F A) (k : A -> M F B) (s : World F) :
  bind m k s =
  match m s with
  | (Ok a, s') => k a s'
  | (Raise e, s') => (Raise e, s')
  end.
Proof. reflexivity. Qed.

Lemma bind_Ok {F A B} (m : M F A) (k : A -> M F B) s b s' :
  bind m k s = (Ok b, s') ->
  exists a s1, m s = (Ok a, s1) /\ k a s1 = (Ok b, s').
Proof.
  rewrite bind_run. destruct (m s) as [[a | e] s1]; [eauto | discriminate].
Qed.

Lemma bind_any {F A B} (m : M F A) (k : A -> M F B) s r s' :
  bind m k s = (r, s') ->
  (exists a s1, m s = (Ok a, s1) /\ k a s1 = (r, s')) \/
  (exists e, m s = (Raise e, s') /\ r = Raise e).
Proof.
  rewrite bind_run. destruct (m s) as [[a | e] s1]; intros E.
  - left; eauto.
  - right. inversion E; subst. eauto.
Qed.

(** Splits a run of [x <- m ;; k] in hypothesis [H] that ended in [Ok]. *)
Ltac bind_ok H a s1 Hm :=
  apply bind_Ok in H; destruct H as (a & s1 & Hm & H).

(** ** The parameter shapes *)

Section ParamShapes.
Context {F : Type} `{Scalar F} `{Backend F}.

(** C9.  Reading [param_shapes] while [_param_shapes] is still [None], as
    it is on a fresh workload, raises the state error.  When
    [init_model_fn] has returned, [param_shapes] returns the shape tree of
    the parameters that the initialization produced and replicated.
    [init_model_fn] does return when [models] has the model class and the
    initialized variables have the 'params' collection. *)
Theorem param_shapes_after_init :
  (forall w : ImagenetWorkload F,
      _param_shapes w = None ->
      param_shapes w =
        Raise (ValueError
          "This should not happen, workload.init_model_fn() should be called before workload.param_shapes!")) /\
  _param_shapes (__init__ : ImagenetWorkload F) = None /\
  (forall (rng : RandomState) (s : World F) out s',
      init_model_fn rng s = (Ok out, s') ->
      exists params,
        fst out = replicate_on (Z.to_nat device_count) params /\
        param_shapes (self s') =
          Ok (tree_map (fun x => mkShapeTuple (shape x)) params)) /\
  (forall (rng : RandomState) (s : World F),
      models_has (model_name (self s)) = true ->
      is_Some (flax_init (mkModel (model_name (self s)) (num_classes (self s)) "float32")
                 rng (jnp_ones [1; 224; 224; 3]%nat) !! "params") ->
      exists out s', init_model_fn rng s = (Ok out, s')).
Proof.
  split; [| split; [| split]].
  - intros w Hw. unfold param_shapes. rewrite Hw. reflexivity.
  - reflexivity.
  - intros rng s out s' Hrun. unfold init_model_fn in Hrun.
    bind_ok Hrun w s1 Hw. inversion Hw; subst w s1; clear Hw.
    bind_ok Hrun cls s2 Hcls.
    bind_ok Hrun u s3 Hset.
    bind_ok Hrun pm s4 Hinit.
    destruct pm as [params model_state].
    bind_ok Hrun u' s5 Hshapes.
    inversion Hrun; subst out s'; clear Hrun.
    inversion Hshapes; subst u' s5; clear Hshapes.
    exists params. split; reflexivity.
  - intros rng s Hhas [params Hparams].
    unfold init_model_fn, bind, get_self, lift, set_model, set_param_shapes, ret.
    rewrite Hhas. unfold initialized, getitem, rbind.
    cbv beta iota zeta. rewrite Hparams.
    eauto.
Qed.

End ParamShapes.

Lemma param_shapes_after_init_witness :
  exists params,
    fst (replicate_on 2 demo_params, replicate_on 2 (demo_state (Q2Qc 0))) =
      replicate_on (Z.to_nat (device_count (Backend := demo_backend))) params /\
    param_shapes
      (self (snd (init_model_fn (H0 := demo_backend) 7%nat (mkWorld __init__ [])))) =
      Ok (tree_map (fun x => mkShapeTuple (shape x)) params).
Proof.
  destruct (param_shapes_after_init (H0 := demo_backend)) as (_ & _ & Hafter & _).
  apply (Hafter 7%nat (mkWorld __init__ []) _ _).
  vm_compute. reflexivity.
Defined.

(** ** The evaluation loop *)

Section EvalLoop.
Context {F : Type} `{Scalar F} `{Backend F}.

Lemma only_drawn_refl (s : World F) : only_drawn s s.
Proof. repeat split. Qed.

Lemma only_drawn_trans (s1 s2 s3 : World F) :
  only_drawn s1 s2 -> only_drawn s2 s3 -> only_drawn s1 s3.
Proof.
  intros (A1 & A2 & A3 & A4) (B1 & B2 & B3 & B4).
  repeat split; congruence.
Qed.

Lemma next_eval_iter_run (s : World F) r s' :
  next_eval_iter s = (r, s') ->
  only_drawn s s' /\ trace s' = trace s ++ [EvNext] /\
  (forall b, r = Ok b ->
     exists it, _eval_ds (self s) = Some it /\
                (ds_drawn <$> _eval_ds (self s')) = Some (S (ds_drawn it))).
Proof.
  unfold next_eval_iter, bind, emit, get_self, lift, set_eval_ds, ret. simpl.
  destruct (_eval_ds (self s)) as [it |] eqn:Eds.
  - destruct (pipeline_next it) as [batch |]; intros E; inversion E; subst; clear E.
    + simpl. split; [| split].
      * repeat split; simpl. rewrite Eds. reflexivity.
      * reflexivity.
      * intros b _. exists it. split; reflexivity.
    + split; [| split]; [| reflexivity | discriminate].
      repeat split; simpl. 
    
  - intros E; inversion E; subst; clear E.
    split; [| split]; [| reflexivity | discriminate].
    repeat split.
Qed.

Lemma eval_batches_run :
  forall (n : nat) params model_state (rng : RandomState) eval_metrics total
         (s : World F) r s',
    eval_batches n params model_state rng eval_metrics total s = (r, s') ->
    only_drawn s s' /\
    exists k,
      (k <= n)%nat /\ trace s' = trace s ++ repeat EvNext k /\
      (forall v, r = Ok v ->
         k = n /\ length v = (length eval_metrics + n)%nat /\
         (ds_drawn <$> _eval_ds (self s')) =
           (fun it => (ds_drawn it + n)%nat) <$> _eval_ds (self s)).
Proof.
  induction n as [| n IH]; intros params model_state rng eval_metrics total s r s' Hrun.
  - inversion Hrun; subst. split; [apply only_drawn_refl |].
    exists 0%nat. simpl. rewrite app_nil_r. repeat split; try lia.
    + inversion H1. subst. lia.
    + destruct (_eval_ds (self s')); simpl; [f_equal; lia | reflexivity].
  - simpl in Hrun.
    apply bind_any in Hrun.
    destruct Hrun as [(batch & s1 & Hnext & Hrun) | (e & Hnext & ->)].
    + apply next_eval_iter_run in Hnext. destruct Hnext as (Hd1 & Ht1 & Hc1).
      destruct (Hc1 batch eq_refl) as (it & Hit & Hit1).
      apply bind_any in Hrun.
      destruct Hrun as [(w & s2 & Hw & Hrun) | (e & Hw & _)]; [| discriminate].
      inversion Hw; subst w s2; clear Hw.
      apply bind_any in Hrun.
      destruct Hrun as [(sm & s2 & Hsm & Hrun) | (e & Hsm & ->)].
      * inversion Hsm; subst s2; clear Hsm.
        apply bind_any in Hrun.
        destruct Hrun as [(acc & s2 & Hacc & Hrun) | (e & Hacc & ->)].
        -- inversion Hacc; subst s2; clear Hacc.
           apply IH in Hrun. destruct Hrun as (Hd2 & k & Hk & Ht2 & Hc2).
           split; [eapply only_drawn_trans; eassumption |].
           exists (S k). split; [lia |]. split.
           ++ rewrite Ht2, Ht1, <- app_assoc. reflexivity.
           ++ intros v Hv. destruct (Hc2 v Hv) as (-> & Hlen & Hdr).
              split; [reflexivity |]. split.
              ** rewrite Hlen, length_app. simpl. lia.
              ** rewrite Hdr, Hit. 
                 destruct (_eval_ds (self s1)) as [it1 |]; [| discriminate].
                 simpl in *. inversion Hit1. f_equal. lia.
        -- inversion Hacc; subst. split; [assumption |].
           exists 1%nat. split; [lia |]. split; [assumption | discriminate].
      * inversion Hsm; subst. split; [assumption |].
        exists 1%nat. split; [lia |]. split; [assumption | discriminate].
    + apply next_eval_iter_run in Hnext. destruct Hnext as (Hd1 & Ht1 & _).
      split; [assumption |].
      exists 1%nat. split; [lia |]. split; [assumption | discriminate].
Qed.

End EvalLoop.

Section EvalModel.
Context {F : Type} `{Scalar F} `{Backend F}.

Lemma build_dataset_rewind (w : ImagenetWorkload F) (rng : RandomState)
    split data_dir batch_size ds :
  _build_dataset w rng split data_dir batch_size = Ok ds ->
  rewind ds = ds /\ ds_train ds = true /\ ds_batch_size ds = batch_size /\
  ds_drawn ds = 0%nat.
Proof.
  unfold _build_dataset. destruct (py_mod batch_size device_count) as [r | e];
    simpl; [| discriminate].
  destruct (r >? 0); [discriminate |].
  intros E; inversion E; subst. repeat split.
Qed.

Lemma build_dataset_args (w w' : ImagenetWorkload F) (rng rng' : RandomState)
    split split' data_dir data_dir' batch_size :
  dataset w' = dataset w ->
  _build_dataset w' rng' split' data_dir' batch_size =
  _build_dataset w rng split data_dir batch_size.
Proof. intros E. unfold _build_dataset. rewrite E. reflexivity. Qed.

Lemma num_eval_examples_nonneg (w : ImagenetWorkload F) N :
  num_eval_examples w = Some N -> 0 <= N.
Proof.
  unfold num_eval_examples.
  destruct (str_contains _ _); [intros E; inversion E; lia |].
  destruct (String.eqb _ _); intros E; inversion E; lia.
Qed.

(** What a run of [eval_model] does to the workload and to the trace. *)
Lemma eval_model_run params model_state (rng : RandomState) data_dir
    (s : World F) r s' :
  eval_model params model_state rng data_dir s = (r, s') ->
  (forall ds,
      _eval_ds (self s) = None -> _eval_ds (self s') = Some ds ->
      _build_dataset (self s) (fst (prng_split2 rng)) "test" data_dir 200 =
        Ok (rewind ds)) /\
  (forall summary,
      r = Ok summary ->
      exists N ds,
        num_eval_examples (self s) = Some N /\
        trace s' = trace s ++ EvSyncBatchStats :: repeat EvNext (Z.to_nat (N / 200)) /\
        _eval_ds (self s') = Some ds /\
        (_eval_ds (self s) = None ->
         ds_batch_size ds = 200 /\ ds_drawn ds = Z.to_nat (N / 200))).
Proof.
  intros Hrun. unfold eval_model in Hrun.
  apply bind_any in Hrun.
  destruct Hrun as [(ms' & s1 & Hsync & Hrun) | (e & Hsync & ->)]; cycle 1.
  { unfold call_sync_batch_stats, bind, emit, lift in Hsync. simpl in Hsync.
    inversion Hsync; subst. simpl. split; [congruence | discriminate]. }
  assert (Hs1 : s1 = mkWorld (self s) (trace s ++ [EvSyncBatchStats])).
  { unfold call_sync_batch_stats, bind, emit, lift in Hsync. simpl in Hsync.
    inversion Hsync; reflexivity. }
  clear Hsync. subst s1.
  destruct (prng_split2 rng) as [data_rng model_rng] eqn:Esplit. simpl fst.
  rewrite bind_run in Hrun. simpl in Hrun.
  rewrite bind_run in Hrun. unfold lift at 1 in Hrun.
  destruct (num_eval_examples (self s)) as [N |] eqn:EN; simpl in Hrun; cycle 1.
  { inversion Hrun; subst. simpl. split; [congruence | discriminate]. }
  rewrite bind_run in Hrun. unfold lift at 1, py_floordiv in Hrun. simpl in Hrun.
  set (s1 := mkWorld (self s) (trace s ++ [EvSyncBatchStats])) in *.
  apply bind_any in Hrun.
  destruct Hrun as [(u & s2 & Hbuild & Hrun) | (e & Hbuild & ->)]; cycle 1.
  { destruct (_eval_ds (self s)) as [ds0 |] eqn:Eds.
    - inversion Hbuild.
    - rewrite bind_run in Hbuild. unfold lift at 1 in Hbuild.
      destruct (_build_dataset _ _ _ _ _) as [ds0 | e0]; simpl in Hbuild;
        inversion Hbuild; subst; simpl.
      split; [congruence | discriminate]. }
  (* the dataset is in place in [s2] *)
  assert (Hs2 : trace s2 = trace s1 /\ dataset (self s2) = dataset (self s) /\
                 exists ds0, _eval_ds (self s2) = Some ds0 /\
                   (_eval_ds (self s) = None ->
                    _build_dataset (self s) data_rng "test" data_dir 200 = Ok ds0)).
  { destruct (_eval_ds (self s)) as [ds0 |] eqn:Eds.
    - inversion Hbuild; subst. simpl.
      split; [reflexivity |]. split; [reflexivity |].
      exists ds0. split; [assumption | discriminate].
    - rewrite bind_run in Hbuild. unfold lift at 1 in Hbuild.
      destruct (_build_dataset _ _ _ _ _) as [ds0 | e0] eqn:Eb; simpl in Hbuild;
        inversion Hbuild; subst; simpl.
      split; [reflexivity |]. split; [reflexivity |].
      exists ds0. split; [reflexivity | intros _; reflexivity]. }
  clear Hbuild. destruct Hs2 as (Ht2 & Hdat2 & ds0 & Hds2 & Hb0).
  apply bind_any in Hrun.
  destruct Hrun as [(em & s3 & Hloop & Hrun) | (e & Hloop & ->)].
  - apply eval_batches_run in Hloop.
    destruct Hloop as ((Hrw & _ & _ & _) & k & Hk & Ht3 & Hc3).
    destruct (Hc3 em eq_refl) as (-> & Hlen & Hdrawn). clear Hc3.
    assert (Hs' : s' = s3).
    { rewrite bind_run in Hrun. unfold lift at 1 in Hrun.
      destruct (collect _) as [em1 | e1]; simpl in Hrun; [| inversion Hrun; reflexivity].
      rewrite bind_run in Hrun. unfold lift at 1 in Hrun.
      destruct (stack_metrics em1); simpl in Hrun; inversion Hrun; reflexivity. }
    subst s3. rewrite Hds2 in Hrw, Hdrawn. simpl in Hrw, Hdrawn.
    destruct (_eval_ds (self s')) as [ds |] eqn:Eds'; [| discriminate].
    simpl in Hrw, Hdrawn.
    assert (Hrw' : rewind ds = rewind ds0) by congruence.
    assert (Hdr' : ds_drawn ds = (ds_drawn ds0 + Z.to_nat (N / 200))%nat) by congruence.
    split.
    + intros ds1 Hnone Hsome. inversion Hsome; subst ds1.
      specialize (Hb0 Hnone). rewrite Hb0. f_equal.
      apply build_dataset_rewind in Hb0. destruct Hb0 as (Hr0 & _).
      congruence.
    + intros summary _. exists N, ds. split; [reflexivity |]. split.
      * rewrite Ht3, Ht2. unfold s1. simpl. rewrite <- app_assoc. reflexivity.
      * split; [reflexivity |]. intros Hnone. specialize (Hb0 Hnone).
        apply build_dataset_rewind in Hb0. destruct Hb0 as (_ & _ & Hbs & Hdr0).
        split.
        -- transitivity (ds_batch_size (rewind ds)); [reflexivity |].
           rewrite Hrw'. assumption.
        -- rewrite Hdr', Hdr0. reflexivity.
  - apply eval_batches_run in Hloop.
    destruct Hloop as ((Hrw & _ & _ & _) & _).
    split; [| discriminate].
    intros ds Hnone Hsome. specialize (Hb0 Hnone). rewrite Hb0. f_equal.
    rewrite Hsome, Hds2 in Hrw. simpl in Hrw.
    assert (Hrw' : rewind ds = rewind ds0) by congruence.
    apply build_dataset_rewind in Hb0. destruct Hb0 as (Hr0 & _). congruence.
Qed.

End EvalModel.

Section EvalClaims.
Context {F : Type} `{Scalar F} `{Backend F}.

(** C4 (amended).  [eval_model] reads the evaluation iterator in batches of
    the constant size 200, which is larger than the training batch size
    128.  A run that returns a summary has called [next] exactly
    [num_eval_examples // 200] times, right after one call of
    [sync_batch_stats]; the batches drawn hold
    [num_eval_examples - num_eval_examples % 200] examples, so the
    trailing remainder is left unread.  When the run built the iterator
    itself, the iterator has batch size 200 and has yielded that many
    batches. *)
Theorem eval_model_batches :
  forall params model_state (rng : RandomState) data_dir (s : World F)
         summary s',
    eval_model params model_state rng data_dir s = (Ok summary, s') ->
    exists N,
      num_eval_examples (self s) = Some N /\
      trace s' =
        trace s ++ EvSyncBatchStats :: repeat EvNext (Z.to_nat (N / 200)) /\
      200 * Z.of_nat (Z.to_nat (N / 200)) = N - N mod 200 /\
      (_eval_ds (self s) = None ->
       exists ds, _eval_ds (self s') = Some ds /\ ds_batch_size ds = 200 /\
                  ds_drawn ds = Z.to_nat (N / 200)) /\
      get_batch_size "imagenet" < 200.
Proof.
  intros params model_state rng data_dir s summary s' Hrun.
  apply eval_model_run in Hrun. destruct Hrun as (_ & Hok).
  destruct (Hok summary eq_refl) as (N & ds & HN & Htr & Hds & Hnew).
  exists N. split; [assumption |]. split; [assumption |]. split; [| split].
  - pose proof (num_eval_examples_nonneg _ _ HN) as HN0.
    rewrite Z2Nat.id by (apply Z.div_pos; lia).
    pose proof (Z.div_mod N 200). lia.
  - intros Hnone. exists ds. split; [assumption |]. apply Hnew. assumption.
  - reflexivity.
Qed.

(** C10.  With the same [rng] and [batch_size], [_build_dataset] and
    [build_input_queue] return the same result whatever [split] and
    [data_dir] are, and a pipeline they return is built with [train=True].
    The dataset that [eval_model] builds (for split 'test', when
    [_eval_ds] is still [None]) is, up to the batches already drawn from
    it, the one [_build_dataset] returns for any split and directory at
    batch size 200, and it is in training mode. *)
Theorem build_dataset_ignores_split :
  (forall (w : ImagenetWorkload F) (rng : RandomState)
          split1 data_dir1 split2 data_dir2 batch_size,
      _build_dataset w rng split1 data_dir1 batch_size =
      _build_dataset w rng split2 data_dir2 batch_size /\
      build_input_queue w rng split1 data_dir1 batch_size =
      build_input_queue w rng split2 data_dir2 batch_size) /\
  (forall (w : ImagenetWorkload F) (rng : RandomState) split data_dir
          batch_size ds,
      _build_dataset w rng split data_dir batch_size = Ok ds ->
      ds_train ds = true) /\
  (forall params model_state (rng : RandomState) data_dir (s : World F) r s' ds,
      _eval_ds (self s) = None ->
      eval_model params model_state rng data_dir s = (r, s') ->
      _eval_ds (self s') = Some ds ->
      ds_train ds = true /\
      forall split data_dir',
        _build_dataset (self s) (fst (prng_split2 rng)) split data_dir' 200 =
          Ok (rewind ds)).
Proof.
  split; [| split].
  - intros. split; reflexivity.
  - intros w rng split data_dir batch_size ds Hb.
    apply build_dataset_rewind in Hb. tauto.
  - intros params model_state rng data_dir s r s' ds Hnone Hrun Hsome.
    apply eval_model_run in Hrun. destruct Hrun as (Hbuilt & _).
    specialize (Hbuilt ds Hnone Hsome).
    split.
    + apply build_dataset_rewind in Hbuilt. 
      destruct Hbuilt as (_ & Htrain & _). exact Htrain.
    + intros split data_dir'. rewrite <- Hbuilt. reflexivity.
Qed.

End EvalClaims.

Lemma eval_model_batches_witness :
  exists N,
    num_eval_examples (self demo_world) = Some N /\
    trace (snd demo_eval_run) =
      trace demo_world ++ EvSyncBatchStats :: repeat EvNext (Z.to_nat (N / 200)) /\
    200 * Z.of_nat (Z.to_nat (N / 200)) = N - N mod 200 /\
    (_eval_ds (self demo_world) = None ->
     exists ds, _eval_ds (self (snd demo_eval_run)) = Some ds /\
                ds_batch_size ds = 200 /\ ds_drawn ds = Z.to_nat (N / 200)) /\
    get_batch_size "imagenet" < 200.
Proof.
  apply (eval_model_batches (H0 := demo_backend) (replicate_on 2 demo_params)
           [demo_state (Q2Qc 1); demo_state (Q2Qc 3)] 5%nat "/data" demo_world
           (match fst demo_eval_run with Ok v => v | Raise _ => ∅ end)
           (snd demo_eval_run)).
  vm_compute. reflexivity.
Defined.

(** C4, as stated, fails: the evaluation batch size is not smaller than the
    training batch size.  On the demo machine the iterator that
    [eval_model] builds has batch size 200, and [get_batch_size] is 128. *)
Lemma eval_batch_size_not_smaller :
  ~ (forall ds : InputIter Qc,
        _eval_ds (self (snd demo_eval_run)) = Some ds ->
        ds_batch_size ds < get_batch_size "imagenet").
Proof.
  intros Hclaim.
  destruct (_eval_ds (self (snd demo_eval_run))) as [ds |] eqn:Eds;
    [| vm_compute in Eds; discriminate].
  specialize (Hclaim ds eq_refl).
  vm_compute in Eds. inversion Eds; subst ds.
  vm_compute in Hclaim. discriminate.
Qed.

Lemma build_dataset_ignores_split_witness :
  ds_train (mkInputIter "imagenette" 200 (train_mean __init__)
              (train_stddev __init__) true false 19 : InputIter Qc) = true /\
  forall split data_dir',
    _build_dataset (H0 := demo_backend) (self demo_world)
      (fst (prng_split2 (Backend := demo_backend) 5%nat)) split data_dir' 200 =
      Ok (rewind (mkInputIter "imagenette" 200 (train_mean __init__)
                    (train_stddev __init__) true false 19)).
Proof.
  destruct (build_dataset_ignores_split (H0 := demo_backend)) as (_ & _ & Heval).
  apply (Heval (replicate_on 2 demo_params)
           [demo_state (Q2Qc 1); demo_state (Q2Qc 3)] 5%nat "/data" demo_world
           (fst demo_eval_run) (snd demo_eval_run)).
  - reflexivity.
  - exact (surjective_pairing demo_eval_run).
  - vm_compute. reflexivity.
Defined.

(** ** The training step *)

Section TrainStep.
Context {F : Type} `{Scalar F} `{Backend F}.

(** C1.  Let [n] be the workload's number of training examples and
    [steps_per_epoch = n // 128] be nonzero, and let the training step
    itself return.  Then [update_params] calls [sync_batch_stats] (once, on
    the auxiliary state the step returned) if and only if
    [(global_step + 1) % steps_per_epoch = 0], and otherwise returns that
    state as it is.  For the dataset 'imagenette', [n = 9469] and
    [steps_per_epoch = 73]: the call happens at [global_step = 72] and does
    not happen at [global_step = 71]. *)
Theorem update_params_sync_boundary :
  forall params model_state hyperparameters input_batch label_batch loss_type
         optimizer_state opt_update_fn eval_results global_step
         (rng : RandomState) (s : World F) r s' n out,
    num_train_examples (self s) = Some n ->
    n / get_batch_size "imagenet" <> 0 ->
    pmapped_train_step (self s) opt_update_fn model_state optimizer_state
      params hyperparameters (mkBatch input_batch label_batch) rng = Ok out ->
    update_params params model_state hyperparameters input_batch label_batch
      loss_type (optimizer_state, opt_update_fn) eval_results global_step rng s
      = (r, s') ->
    let steps_per_epoch := n / get_batch_size "imagenet" in
    exists evs,
      trace s' = trace s ++ evs /\
      (EvSyncBatchStats ∈ evs <-> (global_step + 1) mod steps_per_epoch = 0) /\
      ((global_step + 1) mod steps_per_epoch = 0 ->
       evs = [EvSyncBatchStats] /\
       r = (synced <-? sync_batch_stats (fst (fst out));
            Ok ((snd (fst out), opt_update_fn), snd out, synced))) /\
      ((global_step + 1) mod steps_per_epoch <> 0 ->
       evs = [] /\
       r = Ok ((snd (fst out), opt_update_fn), snd out, fst (fst out))) /\
      (dataset (self s) = "imagenette" ->
       n = 9469 /\ steps_per_epoch = 73 /\
       (global_step = 72 -> EvSyncBatchStats ∈ evs) /\
       (global_step = 71 -> EvSyncBatchStats ∉ evs)).
Proof.
  intros params model_state hyperparameters input_batch label_batch loss_type
    optimizer_state opt_update_fn eval_results global_step rng s r s' n out
    Hn Hspe Hstep Hrun steps_per_epoch.
  unfold update_params in Hrun.
  rewrite bind_run in Hrun. simpl in Hrun.
  rewrite bind_run in Hrun. unfold lift at 1 in Hrun. rewrite Hstep in Hrun.
  destruct out as [[new_model_state new_optimizer_state] new_params].
  rewrite bind_run in Hrun. unfold lift at 1 in Hrun. rewrite Hn in Hrun.
  simpl in Hrun.
  rewrite bind_run in Hrun. unfold lift at 1, py_floordiv in Hrun.
  change (get_batch_size "imagenet" =? 0) with false in Hrun. 
  cbv iota in Hrun.
  rewrite bind_run in Hrun. unfold lift at 1, py_mod in Hrun.
  fold steps_per_epoch in Hrun.
  destruct (Z.eqb_spec steps_per_epoch 0) as [E0 | _]; [contradiction |].
  assert (Hds : dataset (self s) = "imagenette" ->
                n = 9469 /\ steps_per_epoch = 73).
  { intros Hd. unfold num_train_examples in Hn. rewrite Hd in Hn.
    simpl in Hn. inversion Hn; subst n. split; reflexivity. }
  destruct (Z.eqb_spec ((global_step + 1) mod steps_per_epoch) 0) as [Em | Em].
  - exists [EvSyncBatchStats].
    rewrite bind_run in Hrun.
    unfold call_sync_batch_stats, bind, emit, lift, ret in Hrun. simpl in Hrun.
    assert (Htr : trace s' = trace s ++ [EvSyncBatchStats] /\
                  r = (synced <-? sync_batch_stats new_model_state;
                       Ok ((new_optimizer_state, opt_update_fn), new_params, synced))).
    { destruct (sync_batch_stats new_model_state); simpl in *;
        inversion Hrun; subst; split; reflexivity. }
    destruct Htr as [Htr Hr].
    split; [exact Htr |]. split; [| split; [| split]].
    + split; [intros _; exact Em | intros _; apply list_elem_of_here].
    + intros _. split; [reflexivity | exact Hr].
    + intros Hne. contradiction.
    + intros Hd. destruct (Hds Hd) as [-> Hs73]. repeat split; try assumption.
      * intros _. apply list_elem_of_here.
      * intros -> Hin. rewrite Hs73 in Em. discriminate Em.
  - exists []. rewrite bind_run in Hrun. unfold ret in Hrun.
    inversion Hrun; subst r s'. clear Hrun.
    split; [rewrite app_nil_r; reflexivity |]. split; [| split; [| split]].
    + split; [intros Hin; inversion Hin | intros E; contradiction].
    + intros E. contradiction.
    + intros _. split; reflexivity.
    + intros Hd. destruct (Hds Hd) as [-> Hs73]. repeat split; try assumption.
      * intros ->. rewrite Hs73 in Em. exfalso. apply Em. reflexivity.
      * intros _ Hin. inversion Hin.
Qed.

Lemma omap_rank_filter {B} (f : Tensor F -> B) (xs : list (Tensor F)) :
  omap (fun x => if (1 <? ndim x)%nat then Some (f x) else None) xs =
  map f (filter (fun x => (1 < ndim x)%nat) xs).
Proof.
  induction xs as [| x xs IH]; [reflexivity |].
  rewrite filter_cons. cbn [omap list_omap].
  destruct (Nat.ltb_spec 1 (ndim x)) as [Hlt | Hge].
  - rewrite decide_True by assumption. simpl. f_equal. apply IH.
  - rewrite decide_False by lia. apply IH.
Qed.

(** C5.  When the auxiliary state has no 'params' collection of its own:
    the loss that [_loss_fn] returns is the workload's loss on the
    device's batch plus [l2 * 0.5 * sum(weight**2)] summed over exactly the
    parameter leaves of rank greater than 1; [_loss_fn] returns whenever the
    forward pass does. *)
Theorem loss_fn_weight_decay :
  forall (workload : ImagenetWorkload F) hyperparameters model_state batch
         (rng : RandomState) params,
    model_state !! "params" = None ->
    (forall logits new_model_state,
        model_fn workload params batch model_state TRAIN rng true =
          Ok (logits, Some new_model_state) ->
        _loss_fn workload hyperparameters model_state batch rng params =
          Ok (fadd (loss_fn workload (label batch) logits)
                (weight_decay_penalty (l2 hyperparameters) params),
              (new_model_state, logits))) /\
    (forall loss aux,
        _loss_fn workload hyperparameters model_state batch rng params =
          Ok (loss, aux) ->
        model_fn workload params batch model_state TRAIN rng true =
          Ok (snd aux, Some (fst aux)) /\
        loss = fadd (loss_fn workload (label batch) (snd aux))
                 (weight_decay_penalty (l2 hyperparameters) params)) /\
    (forall x, x ∈ l2_penalty_leaves params <->
               x ∈ tree_leaves params /\ (1 < ndim x)%nat).
Proof.
  intros workload hyperparameters model_state batch rng params Hfresh.
  assert (Hvars : getitem (model_state ∪ {[ "params" := params ]}) "params" = Ok params).
  { unfold getitem. rewrite lookup_union_r by assumption.
    rewrite lookup_singleton_eq. reflexivity. }
  assert (Hloss : forall logits new_model_state,
            model_fn workload params batch model_state TRAIN rng true =
              Ok (logits, Some new_model_state) ->
            _loss_fn workload hyperparameters model_state batch rng params =
              Ok (fadd (loss_fn workload (label batch) logits)
                    (weight_decay_penalty (l2 hyperparameters) params),
                  (new_model_state, logits))).
  { intros logits new_model_state Hfwd. unfold _loss_fn.
    rewrite Hfwd. simpl. rewrite Hvars. simpl.
    unfold weight_decay_penalty, l2_penalty_leaves.
    rewrite omap_rank_filter. reflexivity. }
  split; [exact Hloss |]. split.
  - intros loss [new_model_state logits] Hrun.
    destruct (model_fn workload params batch model_state TRAIN rng true)
      as [[logits' [st |]] | e] eqn:Hfwd.
    + rewrite (Hloss _ _ eq_refl) in Hrun. inversion Hrun; subst.
      split; reflexivity.
    + unfold _loss_fn in Hrun. rewrite Hfwd in Hrun. discriminate.
    + unfold _loss_fn in Hrun. rewrite Hfwd in Hrun. discriminate.
  - intros x. unfold l2_penalty_leaves. rewrite list_elem_of_filter. tauto.
Qed.

End TrainStep.

Lemma update_params_sync_boundary_witness :
  exists evs,
    trace (snd demo_update_run) = trace demo_world ++ evs /\
    (EvSyncBatchStats ∈ evs <-> (72 + 1) mod (9469 / get_batch_size "imagenet") = 0) /\
    EvSyncBatchStats ∈ evs.
Proof.
  destruct (update_params_sync_boundary (H0 := demo_backend)
              (replicate_on 2 demo_params)
              [demo_state (Q2Qc 1); demo_state (Q2Qc 3)] demo_hparams
              demo_images demo_labels SOFTMAX_CROSS_ENTROPY
              (replicate_on 2 0%nat) demo_opt_update [] 72 5%nat demo_world
              (fst demo_update_run) (snd demo_update_run) 9469
              (match pmapped_train_step (H0 := demo_backend) (self demo_world)
                       demo_opt_update [demo_state (Q2Qc 1); demo_state (Q2Qc 3)]
                       (replicate_on 2 0%nat) (replicate_on 2 demo_params)
                       demo_hparams (mkBatch demo_images demo_labels) 5%nat with
               | Ok o => o
               | Raise _ => ([], [], [])
               end))
    as (evs & Htrace & Hiff & _ & _ & Himagenette).
  - reflexivity.
  - vm_compute. discriminate.
  - vm_compute. reflexivity.
  - exact (surjective_pairing demo_update_run).
  - exists evs. split; [exact Htrace |]. split; [exact Hiff |].
    apply Himagenette; reflexivity.
Defined.

Lemma loss_fn_weight_decay_witness :
  _loss_fn (H0 := demo_backend) (self demo_world) demo_hparams
    (demo_state (Q2Qc 1))
    (mkBatch (mkTensor [1; 1]%nat [Q2Qc 3]) (mkTensor [1]%nat [Q2Qc 1]))
    5%nat demo_params =
  Ok (fadd (loss_fn (H0 := demo_backend) (self demo_world)
              (mkTensor [1]%nat [Q2Qc 1]) (mkTensor [1]%nat [Q2Qc 3]))
        (weight_decay_penalty (l2 demo_hparams) demo_params),
      (demo_state (Q2Qc 4), mkTensor [1]%nat [Q2Qc 3])).
Proof.
  destruct (loss_fn_weight_decay (H0 := demo_backend) (self demo_world)
              demo_hparams (demo_state (Q2Qc 1))
              (mkBatch (mkTensor [1; 1]%nat [Q2Qc 3]) (mkTensor [1]%nat [Q2Qc 1]))
              5%nat demo_params) as (Hloss & _ & _).
  - vm_compute. reflexivity.
  - apply Hloss. vm_compute. reflexivity.
Defined.

(** On the demo parameters the penalty counts the 2x2 kernel only:
    [0.5 * 0.5 * (1 + 4 + 9 + 16)]; the bias, of rank 1, is left out. *)
Example demo_weight_decay_penalty :
  weight_decay_penalty (l2 demo_hparams) demo_params = Q2Qc 7.5 /\
  l2_penalty_leaves demo_params = [demo_kernel].
Proof.
  split; [| vm_compute; reflexivity].
  apply Qc_is_canon. vm_compute. reflexivity.
Qed.

(** ** Replicas stay identical *)

Section Replicas.
Context {F : Type} `{Scalar F} `{Backend F}.

Lemma map_replicate {A B} (f : A -> B) (n : nat) (x : A) :
  map f (replicate n x) = replicate n (f x).
Proof. induction n as [| n IH]; simpl; [reflexivity | f_equal; exact IH]. Qed.

Lemma collect_length {A} (rs : list (result A)) (xs : list A) :
  collect rs = Ok xs -> length xs = length rs.
Proof.
  revert xs. induction rs as [| r rs IH]; intros xs Hc; simpl in Hc.
  - inversion Hc. reflexivity.
  - destruct r as [x | e]; simpl in Hc; [| discriminate].
    destruct (collect rs) as [xs' | e]; simpl in Hc; [| discriminate].
    inversion Hc; subst. simpl. f_equal. apply IH. reflexivity.
Qed.

Lemma pmap_axis_size_Ok (n : nat) (rest : list nat) (m : nat) :
  pmap_axis_size (n :: rest) = Ok m -> Forall (fun k => k = n) rest.
Proof.
  simpl. destruct (forallb (Nat.eqb n) rest) eqn:E; [| discriminate].
  intros _. rewrite forallb_forall in E. apply List.Forall_forall.
  intros k Hk. symmetry. apply Nat.eqb_eq. apply E. exact Hk.
Qed.

(** After [lax.pmean] every device holds the same tree. *)
Lemma pmean_tree_replicated (xs : Sharded (PyTree (Tensor F))) :
  exists g, pmean_tree xs = replicate_on (length xs) g.
Proof.
  unfold pmean_tree. destruct (psum_tree xs) as [total |] eqn:E.
  - eexists. reflexivity.
  - destruct xs; [| discriminate]. exists (Leaf (mkTensor [] [])). reflexivity.
Qed.

(** The step on replicated parameters and optimizer state. *)
Lemma pmapped_train_step_replicated
    (workload : ImagenetWorkload F) opt_update_fn model_state
    (o : OptState) (p : PyTree (Tensor F)) hyperparameters batch
    (rng : RandomState) (n : nat) new_model_state new_optimizer_state new_params :
  pmapped_train_step workload opt_update_fn model_state (replicate_on n o)
    (replicate_on n p) hyperparameters batch rng =
    Ok (new_model_state, new_optimizer_state, new_params) ->
  exists g,
    (exists grads, length grads = n /\ pmean_tree grads = replicate_on n g) /\
    new_optimizer_state = replicate_on n (snd (opt_update_fn g o p)) /\
    new_params = replicate_on n (apply_updates p (fst (opt_update_fn g o p))).
Proof.
  unfold pmapped_train_step, replicate_on. intros Hstep.
  destruct (pmap_axis_size _) as [sz |] eqn:Hsz; simpl in Hstep; [| discriminate].
  apply pmap_axis_size_Ok in Hsz.
  rewrite !length_replicate in Hsz.
  apply Forall_cons in Hsz as [Hs1 Hsz].
  apply Forall_cons in Hsz as [Hs2 Hsz].
  apply Forall_cons in Hsz as [Hs3 Hsz].
  apply Forall_cons in Hsz as [Hs4 _].
  destruct (collect _) as [outs |] eqn:Hc; simpl in Hstep; [| discriminate].
  apply collect_length in Hc.
  rewrite length_zip_with, length_zip, length_replicate in Hc.
  unfold batch_slices in Hc. rewrite length_zip_with in Hc.
  assert (Hlen : length (map snd outs) = n) by (rewrite length_map; lia).
  destruct (pmean_tree_replicated (map snd outs)) as [g Hg].
  rewrite Hlen in Hg. unfold replicate_on in Hg.
  inversion Hstep; subst; clear Hstep.
  exists g. split; [exists (map snd outs); split; assumption |].
  rewrite Hg. rewrite !zip_with_replicate.
  rewrite !map_replicate. simpl.
  destruct (opt_update_fn g o p) as [updates new_o]. split; reflexivity.
Qed.

Lemma update_params_replicated
    (o : OptState) (p : PyTree (Tensor F)) (n : nat)
    model_state hyperparameters input_batch label_batch loss_type
    opt_update_fn eval_results global_step (rng : RandomState) (s : World F)
    os f ps ms s' :
  update_params (replicate_on n p) model_state hyperparameters input_batch
    label_batch loss_type (replicate_on n o, opt_update_fn) eval_results
    global_step rng s = (Ok ((os, f), ps, ms), s') ->
  f = opt_update_fn /\
  exists o' p', os = replicate_on n o' /\ ps = replicate_on n p'.
Proof.
  unfold update_params. intros Hrun.
  bind_ok Hrun w s1 Hw. inversion Hw; subst w s1; clear Hw.
  bind_ok Hrun out s1 Hstep.
  unfold lift in Hstep. inversion Hstep as [[Hstep' Hs1]]; subst s1; clear Hstep.
  destruct out as [[nms nos] nps].
  bind_ok Hrun nte s1 Hn.
  bind_ok Hrun spe s2 Hspe.
  bind_ok Hrun r s3 Hr.
  bind_ok Hrun nms' s4 Hsync.
  inversion Hrun; subst; clear Hrun.
  split; [reflexivity |].
  apply pmapped_train_step_replicated in Hstep'.
  destruct Hstep' as (g & _ & Hos & Hps). eauto.
Qed.

(** C2.  One step, at any point of training: when the parameters and the
    optimizer state that enter [pmapped_train_step] are the same on all [n]
    replicas, so are the new parameters and the new optimizer state, because
    every replica applies [opt_update_fn] to the same gradient [g], the
    mean over the replicas that [lax.pmean] leaves on each of them.  Hence
    any number of consecutive [update_params] steps that starts from
    replicated parameters and optimizer state ends with replicated ones. *)
Theorem train_step_keeps_replicas_identical :
  (forall (workload : ImagenetWorkload F) opt_update_fn model_state
          (o : OptState) (p : PyTree (Tensor F)) hyperparameters batch
          (rng : RandomState) (n : nat)
          new_model_state new_optimizer_state new_params,
      pmapped_train_step workload opt_update_fn model_state (replicate_on n o)
        (replicate_on n p) hyperparameters batch rng =
        Ok (new_model_state, new_optimizer_state, new_params) ->
      exists g,
        (exists grads, length grads = n /\ pmean_tree grads = replicate_on n g) /\
        new_optimizer_state = replicate_on n (snd (opt_update_fn g o p)) /\
        new_params = replicate_on n (apply_updates p (fst (opt_update_fn g o p)))) /\
  (forall steps hyperparameters loss_type opt_update_fn
          (o : OptState) (p : PyTree (Tensor F)) (n : nat) model_state
          global_step (s : World F) os f ps ms s',
      train_steps steps hyperparameters loss_type
        (replicate_on n o, opt_update_fn) (replicate_on n p) model_state
        global_step s = (Ok ((os, f), ps, ms), s') ->
      exists o' p', os = replicate_on n o' /\ ps = replicate_on n p').
Proof.
  split.
  - intros. eapply pmapped_train_step_replicated. eassumption.
  - intros steps hyperparameters loss_type opt_update_fn.
    induction steps as [| [[input_batch label_batch] rng] steps IH];
      intros o p n model_state global_step s os f ps ms s' Hrun.
    + inversion Hrun; subst. eauto.
    + cbn [train_steps] in Hrun. bind_ok Hrun out s1 Hstep.
      destruct out as [[[os1 f1] ps1] ms1].
      apply update_params_replicated in Hstep.
      destruct Hstep as (-> & o1 & p1 & -> & ->).
      eapply IH. eassumption.
Qed.

End Replicas.

(** ** Synchronizing the batch statistics *)

Section PyTreeFacts.
Context {A : Type}.

(** Induction on a pytree, with the hypothesis for every entry of a dict. *)
Lemma PyTree_ind' (P : PyTree A -> Prop) :
  (forall a, P (Leaf a)) ->
  (forall items, Forall (fun kv => P (snd kv)) items -> P (Dict items)) ->
  forall t, P t.
Proof.
  intros Hleaf Hdict.
  fix IH 1. intros [a | items].
  - apply Hleaf.
  - apply Hdict. induction items as [| [k t] items IHitems].
    + constructor.
    + constructor; [apply IH | apply IHitems].
Qed.

Lemma tree_map_ext {B} (f g : A -> B) (t : PyTree A) :
  (forall a, f a = g a) -> tree_map f t = tree_map g t.
Proof.
  intros Hfg. induction t as [a | items IH] using PyTree_ind'; simpl.
  - f_equal. apply Hfg.
  - f_equal. induction IH as [| [k t] items Ht _ IHitems]; simpl.
    + reflexivity.
    + f_equal; [f_equal; exact Ht | exact IHitems].
Qed.

Lemma tree_map_id (f : A -> A) (t : PyTree A) :
  (forall a, f a = a) -> tree_map f t = t.
Proof.
  intros Hf. induction t as [a | items IH] using PyTree_ind'; simpl.
  - f_equal. apply Hf.
  - f_equal. induction IH as [| [k t] items Ht _ IHitems]; simpl.
    + reflexivity.
    + f_equal; [f_equal; exact Ht | exact IHitems].
Qed.

Lemma tree_map_map {B C} (f : B -> C) (g : A -> B) (t : PyTree A) :
  tree_map f (tree_map g t) = tree_map (fun a => f (g a)) t.
Proof.
  induction t as [a | items IH] using PyTree_ind'; simpl.
  - reflexivity.
  - f_equal. induction IH as [| [k t] items Ht _ IHitems]; simpl.
    + reflexivity.
    + f_equal; [f_equal; exact Ht | exact IHitems].
Qed.

(** Combining a mapped tree with the tree it was mapped from. *)
Lemma tree_multimap_map_self (f : A -> A -> A) (g : A -> A) (t : PyTree A) :
  tree_multimap f (tree_map g t) t = tree_map (fun a => f (g a) a) t.
Proof.
  induction t as [a | items IH] using PyTree_ind'; simpl.
  - reflexivity.
  - f_equal. induction IH as [| [k t] items Ht _ IHitems]; simpl.
    + reflexivity.
    + f_equal; [f_equal; exact Ht | exact IHitems].
Qed.

End PyTreeFacts.

Section Sync.
Context {F : Type} `{Scalar F} `{Backend F}.

Lemma tensor_add_map_self (g : F -> F) (x : Tensor F) :
  tensor_add (tensor_map g x) x = tensor_map (fun v => fadd (g v) v) x.
Proof.
  unfold tensor_add, tensor_map. simpl. f_equal.
  induction (data x) as [| v d IH]; simpl; [reflexivity | f_equal; exact IH].
Qed.

Lemma tensor_map_id (g : F -> F) (x : Tensor F) :
  (forall v, g v = v) -> tensor_map g x = x.
Proof.
  intros Hg. destruct x as [shp d]. unfold tensor_map. simpl. f_equal.
  induction d as [| v d IH]; simpl; [reflexivity |].
  rewrite Hg. f_equal. exact IH.
Qed.

Lemma tensor_map_ext (g g' : F -> F) (x : Tensor F) :
  (forall v, g v = g' v) -> tensor_map g x = tensor_map g' x.
Proof.
  intros Hg. unfold tensor_map. f_equal.
  induction (data x) as [| v d IH]; simpl; [reflexivity |].
  rewrite Hg. f_equal. exact IH.
Qed.

(** The sum over [k] further copies of a tree, element by element. *)
Lemma psum_copies (t : PyTree (Tensor F)) (k : nat) (g : F -> F) :
  fold_left (tree_multimap tensor_add) (replicate k t)
    (tree_map (tensor_map g) t) =
  tree_map (tensor_map (fun v => fold_left fadd (replicate k v) (g v))) t.
Proof.
  revert g. induction k as [| k IH]; intros g; simpl.
  - reflexivity.
  - rewrite tree_multimap_map_self.
    rewrite (tree_map_ext _ (tensor_map (fun v => fadd (g v) v)))
      by (intros x; apply tensor_add_map_self).
    apply IH.
Qed.

Lemma exact_mean_elim (k : nat) (v : F) :
  exact_mean (S k) ->
  fdiv (fold_left fadd (replicate k v) v) (of_nat (S k)) = v.
Proof.
  intros Hexact. specialize (Hexact v).
  unfold pmean_scalar, replicate_on in Hexact. simpl in Hexact.
  rewrite length_replicate in Hexact. injection Hexact as Hv _.
  exact Hv.
Qed.

(** Averaging [n] copies of a tree returns them, when averaging [n] copies
    of a scalar does. *)
Lemma pmean_tree_copies (n : nat) (t : PyTree (Tensor F)) :
  exact_mean n -> pmean_tree (replicate_on n t) = replicate_on n t.
Proof.
  intros Hexact. destruct n as [| k]; [reflexivity |].
  assert (Hsum : fold_left (tree_multimap tensor_add) (replicate k t) t =
                 tree_map (tensor_map (fun v => fold_left fadd (replicate k v) v)) t).
  { pose proof (psum_copies t k (fun v => v)) as Hp.
    rewrite (tree_map_id (tensor_map (fun v => v)) t) in Hp
      by (intros x; apply tensor_map_id; reflexivity).
    exact Hp. }
  unfold pmean_tree, replicate_on. simpl psum_tree. cbv iota.
  rewrite Hsum, length_replicate, tree_map_map.
  rewrite (tree_map_id _ t); [reflexivity |].
  intros x. unfold tensor_div, tensor_map. simpl. rewrite map_map.
  apply (tensor_map_id (fun v => fdiv (fold_left fadd (replicate k v) v) (of_nat (S k)))).
  intros v. apply exact_mean_elim. exact Hexact.
Qed.

End Sync.

Section SyncClaims.
Context {F : Type} `{Scalar F} `{Backend F}.

Lemma zip_with_replicate_map {A B C} (f : A -> B -> C) (l : list A) (y : B) :
  zip_with f l (replicate (length l) y) = map (fun x => f x y) l.
Proof. induction l as [| x l IH]; simpl; [reflexivity | f_equal; exact IH]. Qed.

(** A successful synchronization writes one tree into every slice. *)
Lemma sync_batch_stats_Ok_inv
    (model_state new_model_state : Sharded (gmap string (PyTree (Tensor F)))) :
  sync_batch_stats model_state = Ok new_model_state ->
  exists avg,
    new_model_state = map (fun s => <["batch_stats" := avg]> s) model_state.
Proof.
  unfold sync_batch_stats. intros Hsync.
  destruct (collect _) as [stats |] eqn:Hc; simpl in Hsync; [| discriminate].
  apply collect_length in Hc. rewrite length_map in Hc.
  destruct (pmean_tree_replicated stats) as [avg Havg].
  rewrite Havg, Hc in Hsync. unfold replicate_on in Hsync.
  rewrite zip_with_replicate_map in Hsync.
  inversion Hsync. exists avg. reflexivity.
Qed.

(** Slices that all hold the tree [avg] are a fixed point. *)
Lemma sync_batch_stats_fixed
    (model_state : Sharded (gmap string (PyTree (Tensor F))))
    (avg : PyTree (Tensor F)) :
  exact_mean (length model_state) ->
  Forall (fun s => s !! "batch_stats" = Some avg) model_state ->
  sync_batch_stats model_state = Ok model_state.
Proof.
  intros Hexact Hall. unfold sync_batch_stats.
  assert (Hc : collect (map (fun s => getitem s "batch_stats") model_state) =
               Ok (replicate_on (length model_state) avg)).
  { clear Hexact. induction Hall as [| s l Hs _ IH]; simpl; [reflexivity |].
    unfold getitem at 1. rewrite Hs. simpl. rewrite IH. reflexivity. }
  rewrite Hc. simpl.
  rewrite pmean_tree_copies by exact Hexact.
  unfold replicate_on. rewrite zip_with_replicate_map. f_equal.
  clear Hc Hexact. induction Hall as [| s l Hs _ IH]; simpl; [reflexivity |].
  rewrite insert_id by exact Hs. f_equal. exact IH.
Qed.

(** Idempotence in any arithmetic where the mean of [n] equal scalars is
    that scalar: [sync_batch_stats] returns an auxiliary state whose [n]
    slices are identical (and have batch statistics) unchanged, and a second
    application right after a first returns what the first returned.  In
    any arithmetic, a successful application leaves the same batch
    statistics on every slice. *)
Lemma sync_batch_stats_idempotent_exact :
  forall n : nat,
    exact_mean n ->
    (forall st : gmap string (PyTree (Tensor F)),
        is_Some (st !! "batch_stats") ->
        sync_batch_stats (replicate_on n st) = Ok (replicate_on n st)) /\
    (forall model_state once,
        length model_state = n ->
        sync_batch_stats model_state = Ok once ->
        sync_batch_stats once = Ok once /\
        length once = n /\
        exists avg, Forall (fun s => s !! "batch_stats" = Some avg) once).
Proof.
  intros n Hexact. split.
  - intros st [t Ht]. apply (sync_batch_stats_fixed _ t).
    + unfold replicate_on. rewrite length_replicate. exact Hexact.
    + unfold replicate_on. apply Forall_replicate. exact Ht.
  - intros model_state once Hlen Hsync.
    apply sync_batch_stats_Ok_inv in Hsync. destruct Hsync as [avg ->].
    assert (Hall : Forall (fun s : gmap string (PyTree (Tensor F)) =>
                             s !! "batch_stats" = Some avg)
                     (map (fun s => <["batch_stats" := avg]> s) model_state)).
    { apply List.Forall_forall. intros s Hs. apply in_map_iff in Hs.
      destruct Hs as (s0 & <- & _). apply lookup_insert_eq. }
    split; [| split].
    + apply (sync_batch_stats_fixed _ avg); [| exact Hall].
      rewrite length_map, Hlen. exact Hexact.
    + rewrite length_map. exact Hlen.
    + exists avg. exact Hall.
Qed.

End SyncClaims.

(** Exact rational arithmetic has exact means. *)
Lemma Qc_sum_copies (k : nat) (v : Qc) (m : Z) :
  fold_left Qcplus (replicate k v) (Q2Qc (inject_Z m) * v)%Qc =
  (Q2Qc (inject_Z (m + Z.of_nat k)) * v)%Qc.
Proof.
  revert m. induction k as [| k IH]; intros m.
  - simpl. rewrite Z.add_0_r. reflexivity.
  - cbn [replicate fold_left].
    assert (Hsucc : Q2Qc (inject_Z (m + 1)) = (Q2Qc (inject_Z m) + 1)%Qc).
    { apply Qc_is_canon. simpl. rewrite !Qred_correct.
      rewrite inject_Z_plus. reflexivity. }
    replace (Q2Qc (inject_Z m) * v + v)%Qc with (Q2Qc (inject_Z (m + 1)) * v)%Qc
      by (rewrite Hsucc; ring).
    rewrite IH. do 3 f_equal. lia.
Qed.

Lemma Qc_exact_mean (n : nat) : exact_mean (F := Qc) n.
Proof.
  intros v. destruct n as [| k]; [reflexivity |].
  unfold pmean_scalar, replicate_on. simpl psum_scalar. cbv iota.
  simpl length. rewrite length_replicate. f_equal.
  simpl fadd. simpl fdiv. unfold of_nat. simpl of_Q.
  pose proof (Qc_sum_copies k v 1) as Hsum.
  replace (Q2Qc (inject_Z 1) * v)%Qc with v in Hsum
    by (change (Q2Qc (inject_Z 1)) with 1%Qc; ring).
  rewrite Hsum.
  replace (1 + Z.of_nat k) with (Z.of_nat (S k)) by lia.
  field. intros E. apply (f_equal this) in E. simpl in E.
  apply Qred_eq_iff in E. unfold Qeq in E. simpl in E. lia.
Qed.




(** Two devices whose running means are 1 and 3 both hold 2 after one
    synchronization, and after a second one. *)
Example demo_sync_twice :
  sync_batch_stats [demo_state (Q2Qc 1); demo_state (Q2Qc 3)] =
    Ok [demo_state (Q2Qc 2); demo_state (Q2Qc 2)] /\
  sync_batch_stats [demo_state (Q2Qc 2); demo_state (Q2Qc 2)] =
    Ok [demo_state (Q2Qc 2); demo_state (Q2Qc 2)].
Proof.
  assert (Hfirst : sync_batch_stats [demo_state (Q2Qc 1); demo_state (Q2Qc 3)] =
                   Ok [demo_state (Q2Qc 2); demo_state (Q2Qc 2)]).
  { unfold sync_batch_stats, demo_state, getitem. simpl.
    rewrite !lookup_singleton_eq. simpl.
    rewrite !insert_singleton_eq. unfold tensor_div, tensor_add. simpl.
    replace ((1 + Q2Qc 3) / Q2Qc (inject_Z (Z.of_nat 2)))%Qc with (Q2Qc 2)
      by (apply Qc_is_canon; reflexivity).
    reflexivity. }
  split; [exact Hfirst |].
  destruct (sync_batch_stats_idempotent_exact (F := Qc) 2 (Qc_exact_mean 2))
    as [_ Htwice].
  destruct (Htwice [demo_state (Q2Qc 1); demo_state (Q2Qc 3)] _ eq_refl Hfirst)
    as [Hagain _].
  exact Hagain.
Qed.

Lemma train_step_keeps_replicas_identical_witness :
  exists g : PyTree (Tensor Qc),
    snd (fst demo_step_out) = replicate_on 2 (snd (demo_opt_update g 0%nat demo_params)) /\
    snd demo_step_out =
      replicate_on 2 (apply_updates demo_params (fst (demo_opt_update g 0%nat demo_params))).
Proof.
  destruct (train_step_keeps_replicas_identical (H0 := demo_backend)) as [Hstep _].
  destruct (Hstep (self demo_world) demo_opt_update
              [demo_state (Q2Qc 1); demo_state (Q2Qc 3)] 0%nat demo_params
              demo_hparams (mkBatch demo_images demo_labels) 5%nat 2%nat
              (fst (fst demo_step_out)) (snd (fst demo_step_out))
              (snd demo_step_out))
    as (g & _ & Hos & Hps).
  - vm_compute. reflexivity.
  - exists g. split; assumption.
Defined.

(** ** The learning-rate schedule *)

Section Schedule.
#[local] Open Scope R_scope.

Lemma join_two (warmup_fn cosine_fn : Z -> R) (boundary step : Z) :
  join_from warmup_fn [cosine_fn] [boundary] step =
  if (step <? boundary)%Z then warmup_fn step else cosine_fn (step - boundary)%Z.
Proof. reflexivity. Qed.

Lemma linear_schedule_value (end_value : R) (transition_steps step : Z) :
  (0 < transition_steps)%Z -> (0 <= step <= transition_steps)%Z ->
  linear_schedule 0 end_value transition_steps step =
  end_value * IZR step / IZR transition_steps.
Proof.
  intros Hpos Hstep. unfold linear_schedule, polynomial_schedule.
  destruct (Z.leb_spec transition_steps 0) as [Hle | _]; [lia |].
  rewrite Z.sub_0_r, Z.max_l, Z.min_l by lia.
  assert (HW : IZR transition_steps <> 0) by (apply not_0_IZR; lia).
  simpl. field. exact HW.
Qed.

Lemma cosine_schedule_value (init_value : R) (decay_steps count : Z) f :
  (0 < decay_steps)%Z ->
  cosine_decay_schedule init_value decay_steps = Ok f ->
  f count =
  init_value * (0.5 * (1 + cos (PI * IZR (Z.min count decay_steps) / IZR decay_steps))).
Proof.
  intros Hpos Hf. unfold cosine_decay_schedule in Hf.
  destruct (Z.gtb_spec decay_steps 0) as [_ | Hle]; [| lia].
  simpl in Hf. inversion Hf; subst f. ring.
Qed.

(** C7 (amended).  For hyperparameters with
    [0 < warmup_epochs < num_epochs] and a positive [steps_per_epoch],
    [create_learning_rate_fn] returns a schedule that is 0 at step 0, rises
    linearly to the base rate [learning_rate * 128 / 256] at step
    [warmup_epochs * steps_per_epoch], then follows the half cosine
    [base * 0.5 * (1 + cos (pi * t))] (the shape of [cosine_decay]) down
    to exactly 0 at step [num_epochs * steps_per_epoch], and stays 0. *)
Theorem learning_rate_schedule_shape :
  forall (hparams : Hyperparameters R) (steps_per_epoch : Z),
    (0 < warmup_epochs hparams < num_epochs hparams)%Z ->
    (0 < steps_per_epoch)%Z ->
    let base := learning_rate hparams * IZR (get_batch_size "imagenet") / 256 in
    let W := (warmup_epochs hparams * steps_per_epoch)%Z in
    let T := (num_epochs hparams * steps_per_epoch)%Z in
    exists schedule_fn,
      create_learning_rate_fn hparams steps_per_epoch = Ok schedule_fn /\
      schedule_fn 0%Z = 0 /\
      (forall step, (0 <= step <= W)%Z ->
                    schedule_fn step = base * IZR step / IZR W) /\
      schedule_fn W = base /\
      (forall step, (W <= step <= T)%Z ->
         schedule_fn step =
           base * (0.5 * (1 + cos (PI * IZR (step - W) / IZR (T - W)))) /\
         schedule_fn step = cosine_decay base (IZR (step - W)) (IZR (T - W))) /\
      schedule_fn T = 0 /\
      (forall step, (T <= step)%Z -> schedule_fn step = 0).
Proof.
  intros hparams steps_per_epoch Hepochs Hspe base W T.
  assert (HW : (0 < W)%Z) by (unfold W; nia).
  assert (HWT : (W < T)%Z) by (unfold W, T; nia).
  assert (HD : (Z.max (num_epochs hparams - warmup_epochs hparams) 1 * steps_per_epoch
                = T - W)%Z) by (unfold W, T; rewrite Z.max_l by lia; ring).
  assert (HIW : IZR W <> 0) by (apply not_0_IZR; lia).
  assert (HID : IZR (T - W) <> 0) by (apply not_0_IZR; lia).
  unfold create_learning_rate_fn. fold base. fold W. rewrite HD.
  destruct (cosine_decay_schedule base (T - W)) as [cosine_fn | e] eqn:Hcos.
  2: { unfold cosine_decay_schedule in Hcos.
       destruct (Z.gtb_spec (T - W) 0) as [_ | Hle]; [discriminate | lia]. }
  exists (join_from (linear_schedule 0 base W) [cosine_fn] [W]).
  split; [reflexivity |].
  assert (Hwarm : forall step, (0 <= step < W)%Z ->
            join_from (linear_schedule 0 base W) [cosine_fn] [W] step =
            base * IZR step / IZR W).
  { intros step Hs. rewrite join_two.
    destruct (Z.ltb_spec step W) as [_ | Hge]; [| lia].
    apply linear_schedule_value; lia. }
  assert (Hdecay : forall step, (W <= step)%Z ->
            join_from (linear_schedule 0 base W) [cosine_fn] [W] step =
            base * (0.5 * (1 + cos (PI * IZR (Z.min (step - W) (T - W)) / IZR (T - W))))).
  { intros step Hs. rewrite join_two.
    destruct (Z.ltb_spec step W) as [Hlt | _]; [lia |].
    apply cosine_schedule_value; [lia | exact Hcos]. }
  assert (Hat_W : join_from (linear_schedule 0 base W) [cosine_fn] [W] W = base).
  { rewrite Hdecay by lia. rewrite Z.sub_diag, Z.min_l by lia.
    replace (PI * 0 / IZR (T - W)) with 0 by (field; exact HID).
    rewrite cos_0. lra. }
  assert (Hat_T : forall step, (T <= step)%Z ->
            join_from (linear_schedule 0 base W) [cosine_fn] [W] step = 0).
  { intros step Hs. rewrite Hdecay by lia. rewrite Z.min_r by lia.
    replace (PI * IZR (T - W) / IZR (T - W)) with PI by (field; exact HID).
    rewrite cos_PI. lra. }
  split; [| split; [| split; [| split; [| split]]]].
  - rewrite Hwarm by lia. unfold Rdiv. ring.
  - intros step Hs. destruct (Z.eq_dec step W) as [-> | Hne].
    + rewrite Hat_W. field. exact HIW.
    + apply Hwarm. lia.
  - exact Hat_W.
  - intros step Hs. rewrite Hdecay by lia. rewrite Z.min_l by lia.
    split; [reflexivity |].
    unfold cosine_decay. rewrite Rmax_right.
    + replace (PI * (IZR (step - W) / IZR (T - W)))
        with (PI * IZR (step - W) / IZR (T - W)) by (unfold Rdiv; ring).
      ring.
    + apply Rmult_le_pos.
      * apply IZR_le. lia.
      * left. apply Rinv_0_lt_compat. apply IZR_lt. lia.
  - apply Hat_T. lia.
  - exact Hat_T.
Qed.

End Schedule.

Lemma learning_rate_schedule_shape_witness :
  exists schedule_fn,
    create_learning_rate_fn usual_hparams 73 = Ok schedule_fn /\
    schedule_fn 0 = 0%R /\
    schedule_fn 365 = (0.1 * IZR (get_batch_size "imagenet") / 256)%R /\
    schedule_fn 6570 = 0%R.
Proof.
  destruct (learning_rate_schedule_shape usual_hparams 73)
    as (schedule_fn & Hfn & Hzero & _ & Hbase & _ & Hend & _).
  - simpl. lia.
  - lia.
  - exists schedule_fn. repeat split; assumption.
Defined.

(** C7, as stated for all hyperparameters, fails: without warmup epochs the
    schedule starts at the base rate, here [1 * 128 / 256], not at 0. *)
Lemma schedule_without_warmup_starts_at_base_rate :
  exists schedule_fn,
    create_learning_rate_fn no_warmup_hparams 73 = Ok schedule_fn /\
    schedule_fn 0 = (1 / 2)%R /\
    schedule_fn 0 <> 0%R.
Proof.
  assert (Hfn : exists schedule_fn,
             create_learning_rate_fn no_warmup_hparams 73 = Ok schedule_fn /\
             schedule_fn 0 = (1 / 2)%R).
  { unfold create_learning_rate_fn, no_warmup_hparams, cosine_decay_schedule,
      join_schedules. simpl.
    eexists. split; [reflexivity |]. simpl.
    change ((0 - 0 * 73) `min` ((10 - 0) `max` 1 * 73))%Z with 0%Z.
    change ((10 - 0) `max` 1 * 73)%Z with 730%Z.
    change (get_batch_size "imagenet") with 128%Z.
    replace (PI * 0 / 730)%R with 0%R by (unfold Rdiv; ring).
    rewrite cos_0. lra. }
  destruct Hfn as (schedule_fn & Hfn & Hval).
  exists schedule_fn. split; [exact Hfn |]. split; [exact Hval |].
  rewrite Hval. lra.
Qed.

(** * Further properties of the two files *)

(** ** The schedule helpers of submission.py *)

Section ScheduleMore.
#[local] Open Scope R_scope.

Lemma half_cosine_bounds (x : R) : 0 <= 0.5 * (1 + cos x) <= 1.
Proof. pose proof (COS_bound x) as [Hlo Hhi]. split; lra. Qed.

(** What [create_learning_rate_fn] returns, when it returns. *)
Lemma create_learning_rate_fn_Ok_inv (hparams : Hyperparameters R)
    (steps_per_epoch : Z) schedule_fn :
  create_learning_rate_fn hparams steps_per_epoch = Ok schedule_fn ->
  let base := learning_rate hparams * IZR (get_batch_size "imagenet") / 256 in
  let W := (warmup_epochs hparams * steps_per_epoch)%Z in
  let D := (Z.max (num_epochs hparams - warmup_epochs hparams) 1 * steps_per_epoch)%Z in
  (0 < D)%Z /\
  forall step,
    schedule_fn step =
    if (step <? W)%Z then linear_schedule 0 base W step
    else base * (0.5 * (1 + cos (PI * IZR (Z.min (step - W) D) / IZR D))).
Proof.
  intros Hfn base W D. unfold create_learning_rate_fn in Hfn.
  fold base in Hfn. fold W in Hfn. fold D in Hfn.
  destruct (cosine_decay_schedule base D) as [cosine_fn | e] eqn:Hcos;
    [| discriminate].
  assert (HD : (0 < D)%Z).
  { unfold cosine_decay_schedule in Hcos.
    destruct (Z.gtb_spec D 0) as [Hgt | _]; [lia | discriminate]. }
  split; [exact HD |].
  simpl in Hfn. inversion Hfn; subst schedule_fn. intros step.
  destruct (step <? W)%Z; [reflexivity |].
  apply cosine_schedule_value; assumption.
Qed.

Lemma create_learning_rate_fn_returns (hparams : Hyperparameters R)
    (steps_per_epoch : Z) :
  (0 < steps_per_epoch)%Z ->
  exists schedule_fn, create_learning_rate_fn hparams steps_per_epoch = Ok schedule_fn.
Proof.
  intros Hspe. unfold create_learning_rate_fn, cosine_decay_schedule.
  destruct (Z.gtb_spec
              (Z.max (num_epochs hparams - warmup_epochs hparams) 1 * steps_per_epoch) 0)
    as [_ | Hle]; [| nia].
  simpl. eauto.
Qed.

Lemma cosine_decay_at_start (lr step total_steps : R) :
  0 < total_steps -> step <= 0 -> cosine_decay lr step total_steps = lr.
Proof.
  intros HT Hstep. unfold cosine_decay.
  assert (Hinv : 0 < / total_steps) by (apply Rinv_0_lt_compat; exact HT).
  rewrite Rmax_left.
  - rewrite Rmult_0_r, cos_0. lra.
  - unfold Rdiv.
    replace (step * / total_steps) with (- ((- step) * / total_steps)) by ring.
    assert (0 <= - step * / total_steps) by (apply Rmult_le_pos; lra). lra.
Qed.

Lemma cosine_decay_at_end (lr total_steps : R) :
  0 < total_steps -> cosine_decay lr total_steps total_steps = 0.
Proof.
  intros HT. unfold cosine_decay.
  replace (total_steps / total_steps) with 1 by (field; lra).
  rewrite Rmax_right by lra. rewrite Rmult_1_r, cos_PI. lra.
Qed.

(** X1.  [cosine_decay lr step total_steps] with a positive [total_steps]
    is [lr] for every step up to 0 and 0 at [total_steps]; for a
    nonnegative [lr] it stays between 0 and [lr] and does not increase
    between steps 0 and [total_steps].  The ratio is not capped at 1: at
    twice [total_steps] the value is [lr] again. *)
Theorem cosine_decay_shape :
  forall lr total_steps : R,
    0 < total_steps ->
    (forall step, step <= 0 -> cosine_decay lr step total_steps = lr) /\
    cosine_decay lr total_steps total_steps = 0 /\
    cosine_decay lr (2 * total_steps) total_steps = lr /\
    (0 <= lr ->
     (forall step, 0 <= cosine_decay lr step total_steps <= lr) /\
     (forall a b, 0 <= a -> a <= b -> b <= total_steps ->
                  cosine_decay lr b total_steps <= cosine_decay lr a total_steps)).
Proof.
  intros lr T HT.
  assert (Hinv : 0 < / T) by (apply Rinv_0_lt_compat; exact HT).
  split; [| split; [| split]]; [| | unfold cosine_decay | unfold cosine_decay].
  - intros step Hstep. apply cosine_decay_at_start; assumption.
  - apply cosine_decay_at_end. exact HT.
  - replace (2 * T / T) with 2 by (field; lra).
    rewrite Rmax_right by lra.
    replace (PI * 2) with (2 * PI) by ring. rewrite cos_2PI. lra.
  - intros Hlr. split.
    + intros step.
      pose proof (half_cosine_bounds (PI * Rmax 0 (step / T))) as [Hlo Hhi].
      split; [apply Rmult_le_pos; assumption |].
      rewrite <- (Rmult_1_l lr) at 2. apply Rmult_le_compat_r; assumption.
    + intros a b Ha Hab HbT.
      assert (Hra : 0 <= a / T) by (apply Rmult_le_pos; lra).
      assert (Hrb : 0 <= b / T) by (apply Rmult_le_pos; lra).
      assert (Hab' : a / T <= b / T)
        by (unfold Rdiv; apply Rmult_le_compat_r; lra).
      assert (Hb1 : b / T <= 1).
      { apply (Rmult_le_reg_r T); [exact HT |].
        unfold Rdiv. rewrite Rmult_assoc, Rinv_l by lra. lra. }
      rewrite !Rmax_right by assumption.
      pose proof PI_RGT_0 as Hpi.
      assert (Hcos : cos (PI * (b / T)) <= cos (PI * (a / T))).
      { apply cos_decr_1.
        - apply Rmult_le_pos; lra.
        - rewrite <- (Rmult_1_r PI) at 2. apply Rmult_le_compat_l; lra.
        - apply Rmult_le_pos; lra.
        - rewrite <- (Rmult_1_r PI) at 2. apply Rmult_le_compat_l; lra.
        - apply Rmult_le_compat_l; lra. }
      apply Rmult_le_compat_r; [exact Hlr | lra].
Qed.

(** X2.  [create_learning_rate_fn] raises the [ValueError] of
    [optax.cosine_decay_schedule] exactly when [steps_per_epoch] is not
    positive, whatever the hyperparameters are: the number of cosine
    epochs is at least 1. *)
Theorem create_learning_rate_fn_raises :
  forall (hparams : Hyperparameters R) (steps_per_epoch : Z),
    ((steps_per_epoch <= 0)%Z <->
     create_learning_rate_fn hparams steps_per_epoch =
       Raise (ValueError "The cosine_decay_schedule requires positive decay_steps!")) /\
    ((0 < steps_per_epoch)%Z <->
     exists schedule_fn,
       create_learning_rate_fn hparams steps_per_epoch = Ok schedule_fn).
Proof.
  intros hparams spe.
  assert (Hraise : (spe <= 0)%Z ->
            create_learning_rate_fn hparams spe =
            Raise (ValueError "The cosine_decay_schedule requires positive decay_steps!")).
  { intros Hle. unfold create_learning_rate_fn, cosine_decay_schedule.
    destruct (Z.gtb_spec
                (Z.max (num_epochs hparams - warmup_epochs hparams) 1 * spe) 0)
      as [Hgt | _]; [nia | reflexivity]. }
  split; split.
  - exact Hraise.
  - intros Hr. destruct (Z.le_gt_cases spe 0) as [Hle | Hgt]; [exact Hle |].
    destruct (create_learning_rate_fn_returns hparams spe Hgt) as [f Hf].
    rewrite Hf in Hr. discriminate.
  - apply create_learning_rate_fn_returns.
  - intros [f Hf]. destruct (Z.le_gt_cases spe 0) as [Hle | Hgt]; [| lia].
    rewrite (Hraise Hle) in Hf. discriminate.
Qed.

(** X3.  For a nonnegative learning rate and a positive
    [steps_per_epoch], whatever the epoch counts are, the schedule that
    [create_learning_rate_fn] returns stays between 0 and the base rate
    [learning_rate * 128 / 256] at every step. *)
Theorem learning_rate_schedule_bounds :
  forall (hparams : Hyperparameters R) (steps_per_epoch : Z),
    0 <= learning_rate hparams ->
    (0 < steps_per_epoch)%Z ->
    exists schedule_fn,
      create_learning_rate_fn hparams steps_per_epoch = Ok schedule_fn /\
      forall step,
        0 <= schedule_fn step <=
        learning_rate hparams * IZR (get_batch_size "imagenet") / 256.
Proof.
  intros hparams spe Hlr Hspe.
  destruct (create_learning_rate_fn_returns hparams spe Hspe) as [f Hf].
  exists f. split; [exact Hf |]. intros step.
  destruct (create_learning_rate_fn_Ok_inv _ _ _ Hf) as [HD Hval].
  rewrite Hval. clear Hval.
  set (base := learning_rate hparams * IZR (get_batch_size "imagenet") / 256).
  set (W := (warmup_epochs hparams * spe)%Z).
  assert (Hbase : 0 <= base).
  { unfold base. change (get_batch_size "imagenet") with 128%Z. lra. }
  destruct (Z.ltb_spec step W) as [Hlt | Hge].
  - unfold linear_schedule, polynomial_schedule.
    destruct (Z.leb_spec W 0) as [HW | HW]; [lra |].
    set (c := Z.min (Z.max (step - 0) 0) W).
    assert (Hc : (0 <= c <= W)%Z) by (unfold c; lia).
    assert (HIW : 0 < IZR W) by (apply IZR_lt; lia).
    assert (Hfrac : 0 <= IZR c / IZR W <= 1).
    { split.
      - apply Rmult_le_pos; [apply IZR_le; lia |].
        left. apply Rinv_0_lt_compat. exact HIW.
      - apply (Rmult_le_reg_r (IZR W)); [exact HIW |].
        unfold Rdiv. rewrite Rmult_assoc, Rinv_l by lra.
        rewrite Rmult_1_r, Rmult_1_l. apply IZR_le. lia. }
    simpl. split; nra.
  - pose proof (half_cosine_bounds
                  (PI * IZR (Z.min (step - W)
                     (Z.max (num_epochs hparams - warmup_epochs hparams) 1 * spe))
                   / IZR (Z.max (num_epochs hparams - warmup_epochs hparams) 1 * spe)))
      as [Hlo Hhi].
    split; [apply Rmult_le_pos; assumption |].
    rewrite <- (Rmult_1_r base) at 2. apply Rmult_le_compat_l; assumption.
Qed.

End ScheduleMore.

Section ScheduleEdges.
#[local] Open Scope R_scope.

(** X4.  Without warmup epochs ([warmup_epochs = 0 < num_epochs], positive
    [steps_per_epoch]) the schedule is the cosine decay alone: it starts at
    the base rate at step 0, equals [cosine_decay base step T] up to
    [T = num_epochs * steps_per_epoch], and is 0 at [T]. *)
Theorem learning_rate_schedule_no_warmup :
  forall (hparams : Hyperparameters R) (steps_per_epoch : Z),
    warmup_epochs hparams = 0%Z ->
    (0 < num_epochs hparams)%Z ->
    (0 < steps_per_epoch)%Z ->
    let base := learning_rate hparams * IZR (get_batch_size "imagenet") / 256 in
    let T := (num_epochs hparams * steps_per_epoch)%Z in
    exists schedule_fn,
      create_learning_rate_fn hparams steps_per_epoch = Ok schedule_fn /\
      schedule_fn 0%Z = base /\
      (forall step, (0 <= step <= T)%Z ->
                    schedule_fn step = cosine_decay base (IZR step) (IZR T)) /\
      schedule_fn T = 0.
Proof.
  intros hparams spe Hwe Hne Hspe base T.
  destruct (create_learning_rate_fn_returns hparams spe Hspe) as [f Hf].
  exists f. split; [exact Hf |].
  destruct (create_learning_rate_fn_Ok_inv _ _ _ Hf) as [_ Hval].
  fold base in Hval. rewrite Hwe in Hval.
  replace (Z.max (num_epochs hparams - 0) 1 * spe)%Z with T in Hval
    by (unfold T; rewrite Z.max_l by lia; f_equal; lia).
  change (0 * spe)%Z with 0%Z in Hval.
  assert (HT : (0 < T)%Z) by (unfold T; nia).
  assert (HIT : 0 < IZR T) by (apply IZR_lt; exact HT).
  assert (Hcos : forall step, (0 <= step <= T)%Z ->
            f step = cosine_decay base (IZR step) (IZR T)).
  { intros step Hs. rewrite Hval.
    destruct (Z.ltb_spec step 0) as [Hlt | _]; [lia |].
    rewrite Z.sub_0_r, Z.min_l by lia.
    unfold cosine_decay. rewrite Rmax_right.
    - replace (PI * (IZR step / IZR T)) with (PI * IZR step / IZR T)
        by (unfold Rdiv; ring).
      ring.
    - apply Rmult_le_pos; [apply IZR_le; lia |].
      left. apply Rinv_0_lt_compat. exact HIT. }
  split; [| split; [exact Hcos |]].
  - rewrite Hcos by lia. apply cosine_decay_at_start; [exact HIT | lra].
  - rewrite Hcos by lia. apply cosine_decay_at_end. exact HIT.
Qed.

(** X5.  When the warmup is at least as long as the whole run
    ([0 <= num_epochs <= warmup_epochs], [0 < warmup_epochs], positive
    [steps_per_epoch]), the schedule has not decayed at the nominal last
    step [num_epochs * steps_per_epoch]: its value there is
    [base * num_epochs / warmup_epochs].  It reaches the base rate at the
    end of the warmup and 0 one epoch later, because the cosine part lasts
    [max(num_epochs - warmup_epochs, 1)] epochs. *)
Theorem learning_rate_schedule_long_warmup :
  forall (hparams : Hyperparameters R) (steps_per_epoch : Z),
    (0 < warmup_epochs hparams)%Z ->
    (0 <= num_epochs hparams <= warmup_epochs hparams)%Z ->
    (0 < steps_per_epoch)%Z ->
    let base := learning_rate hparams * IZR (get_batch_size "imagenet") / 256 in
    let W := (warmup_epochs hparams * steps_per_epoch)%Z in
    exists schedule_fn,
      create_learning_rate_fn hparams steps_per_epoch = Ok schedule_fn /\
      schedule_fn (num_epochs hparams * steps_per_epoch)%Z =
        base * IZR (num_epochs hparams) / IZR (warmup_epochs hparams) /\
      schedule_fn W = base /\
      schedule_fn (W + steps_per_epoch)%Z = 0.
Proof.
  intros hparams spe Hwe Hne Hspe base W.
  destruct (create_learning_rate_fn_returns hparams spe Hspe) as [f Hf].
  exists f. split; [exact Hf |].
  destruct (create_learning_rate_fn_Ok_inv _ _ _ Hf) as [_ Hval].
  fold base in Hval. fold W in Hval.
  replace (Z.max (num_epochs hparams - warmup_epochs hparams) 1 * spe)%Z
    with spe in Hval by (rewrite Z.max_r by lia; lia).
  assert (HW : (0 < W)%Z) by (unfold W; nia).
  assert (HIs : IZR spe <> 0) by (apply not_0_IZR; lia).
  assert (HIw : IZR (warmup_epochs hparams) <> 0) by (apply not_0_IZR; lia).
  assert (Hat_W : f W = base).
  { rewrite Hval. destruct (Z.ltb_spec W W) as [Hlt | _]; [lia |].
    rewrite Z.sub_diag, Z.min_l by lia.
    replace (PI * 0 / IZR spe) with 0 by (field; exact HIs).
    rewrite cos_0. lra. }
  split; [| split; [exact Hat_W |]].
  - destruct (Z.eq_dec (num_epochs hparams) (warmup_epochs hparams)) as [E | Hne'].
    + rewrite E. fold W. rewrite Hat_W. field. exact HIw.
    + rewrite Hval.
      destruct (Z.ltb_spec (num_epochs hparams * spe) W) as [_ | Hge];
        [| unfold W in Hge; nia].
      rewrite linear_schedule_value by (unfold W; nia).
      unfold W. rewrite !mult_IZR. field. split; assumption.
  - rewrite Hval. destruct (Z.ltb_spec (W + spe) W) as [Hlt | _]; [lia |].
    replace (W + spe - W)%Z with spe by lia. rewrite Z.min_l by lia.
    replace (PI * IZR spe / IZR spe) with PI by (field; exact HIs).
    rewrite cos_PI. lra.
Qed.

End ScheduleEdges.

Lemma cosine_decay_shape_witness :
  cosine_decay 0.1 730 730 = 0%R /\ cosine_decay 0.1 (2 * 730) 730 = 0.1%R.
Proof.
  destruct (cosine_decay_shape 0.1 730) as (_ & Hend & Htwice & _).
  - lra.
  - split; assumption.
Defined.

Lemma learning_rate_schedule_bounds_witness :
  exists schedule_fn,
    create_learning_rate_fn usual_hparams 73 = Ok schedule_fn /\
    forall step,
      (0 <= schedule_fn step <= 0.1 * IZR (get_batch_size "imagenet") / 256)%R.
Proof.
  apply (learning_rate_schedule_bounds usual_hparams 73).
  - simpl. lra.
  - lia.
Defined.

Lemma learning_rate_schedule_no_warmup_witness :
  exists schedule_fn,
    create_learning_rate_fn no_warmup_hparams 73 = Ok schedule_fn /\
    schedule_fn 0 = (1 * IZR (get_batch_size "imagenet") / 256)%R /\
    schedule_fn 730 = 0%R.
Proof.
  destruct (learning_rate_schedule_no_warmup no_warmup_hparams 73)
    as (schedule_fn & Hfn & Hstart & _ & Hend).
  - reflexivity.
  - simpl. lia.
  - lia.
  - exists schedule_fn. repeat split; assumption.
Defined.

Lemma learning_rate_schedule_long_warmup_witness :
  exists schedule_fn,
    create_learning_rate_fn long_warmup_hparams 73 = Ok schedule_fn /\
    schedule_fn (3 * 73) =
      (0.1 * IZR (get_batch_size "imagenet") / 256 * IZR 3 / IZR 5)%R /\
    schedule_fn (5 * 73 + 73) = 0%R.
Proof.
  destruct (learning_rate_schedule_long_warmup long_warmup_hparams 73)
    as (schedule_fn & Hfn & Hlast & _ & Hend).
  - simpl. lia.
  - simpl. lia.
  - lia.
  - exists schedule_fn. repeat split; assumption.
Defined.

(** ** [sync_batch_stats], in any arithmetic *)

Section SyncMore.
Context {F : Type} `{Scalar F} `{Backend F}.

Lemma collect_getitem_cases {V} (k : string) (ds : list (gmap string V)) :
  (Forall (fun d => is_Some (d !! k)) ds /\
   exists vs, collect (map (fun d => getitem d k) ds) = Ok vs) \/
  (~ Forall (fun d => is_Some (d !! k)) ds /\
   collect (map (fun d => getitem d k) ds) = Raise (KeyError k)).
Proof.
  induction ds as [| d ds IH]; simpl.
  - left. split; [constructor | eauto].
  - unfold getitem at 1 3. destruct (d !! k) as [v |] eqn:Hd; simpl.
    + destruct IH as [[Hall [vs ->]] | [Hnot ->]]; simpl.
      * left. split; [constructor; [eauto | exact Hall] | eauto].
      * right. split; [| reflexivity].
        intros Hall. apply Hnot. inversion Hall; assumption.
    + right. split; [| reflexivity].
      intros Hall. inversion Hall as [| ? ? [v Hv] _]; subst. congruence.
Qed.

Lemma map_lookup {A B} (f : A -> B) (l : list A) (i : nat) :
  map f l !! i = f <$> (l !! i).
Proof.
  revert i. induction l as [| x l IH]; intros [| i]; simpl; try reflexivity.
  apply IH.
Qed.

Lemma sync_batch_stats_cases
    (model_state : Sharded (gmap string (PyTree (Tensor F)))) :
  (Forall (fun s => is_Some (s !! "batch_stats")) model_state /\
   exists synced, sync_batch_stats model_state = Ok synced) \/
  (~ Forall (fun s => is_Some (s !! "batch_stats")) model_state /\
   sync_batch_stats model_state = Raise (KeyError "batch_stats")).
Proof.
  unfold sync_batch_stats.
  destruct (collect_getitem_cases "batch_stats" model_state)
    as [[Hall [vs ->]] | [Hnot ->]]; simpl; [left | right]; eauto.
Qed.

Lemma sync_batch_stats_returns
    (model_state : Sharded (gmap string (PyTree (Tensor F)))) :
  Forall (fun s => is_Some (s !! "batch_stats")) model_state ->
  exists synced, sync_batch_stats model_state = Ok synced.
Proof.
  intros Hall. destruct (sync_batch_stats_cases model_state)
    as [[_ Hok] | [Hnot _]]; [exact Hok | contradiction].
Qed.

Lemma sync_batch_stats_Raise
    (model_state : Sharded (gmap string (PyTree (Tensor F)))) e :
  sync_batch_stats model_state = Raise e ->
  e = KeyError "batch_stats" /\
  ~ Forall (fun s => is_Some (s !! "batch_stats")) model_state.
Proof.
  intros Hr. destruct (sync_batch_stats_cases model_state)
    as [[_ [x Hx]] | [Hnot Hk]]; [congruence |].
  split; [congruence | exact Hnot].
Qed.

(** X6.  [sync_batch_stats] returns exactly when every slice has the
    'batch_stats' collection, and otherwise raises [KeyError
    'batch_stats'].  When it returns, there are as many slices as before,
    all slices hold one and the same 'batch_stats' tree, and every other
    collection of every slice is as it was. *)
Theorem sync_batch_stats_effect :
  forall model_state : Sharded (gmap string (PyTree (Tensor F))),
    (Forall (fun s => is_Some (s !! "batch_stats")) model_state <->
     exists synced, sync_batch_stats model_state = Ok synced) /\
    (~ Forall (fun s => is_Some (s !! "batch_stats")) model_state <->
     sync_batch_stats model_state = Raise (KeyError "batch_stats")) /\
    (forall synced,
        sync_batch_stats model_state = Ok synced ->
        length synced = length model_state /\
        (exists avg, Forall (fun s => s !! "batch_stats" = Some avg) synced) /\
        (forall i s s' k,
            model_state !! i = Some s -> synced !! i = Some s' ->
            k <> "batch_stats" -> s' !! k = s !! k)).
Proof.
  intros model_state.
  pose proof (sync_batch_stats_cases model_state) as Hcases.
  split; [| split].
  - split.
    + intros Hall. destruct Hcases as [[_ Hok] | [Hnot _]]; [exact Hok | contradiction].
    + intros [synced Hok].
      destruct Hcases as [[Hall _] | [_ Hr]]; [exact Hall | congruence].
  - split.
    + intros Hnot. destruct Hcases as [[Hall _] | [_ Hr]]; [contradiction | exact Hr].
    + intros Hr. destruct Hcases as [[_ [synced Hok]] | [Hnot _]];
        [congruence | exact Hnot].
  - intros synced Hok.
    apply sync_batch_stats_Ok_inv in Hok. destruct Hok as [avg ->].
    split; [apply length_map |]. split.
    + exists avg. apply List.Forall_forall. intros s Hs.
      apply in_map_iff in Hs. destruct Hs as (s0 & <- & _).
      apply lookup_insert_eq.
    + intros i s s' k Hs Hs' Hk. rewrite map_lookup, Hs in Hs'. simpl in Hs'.
      inversion Hs'; subst s'. apply lookup_insert_ne. congruence.
Qed.

End SyncMore.

Lemma sync_batch_stats_effect_witness :
  exists synced,
    sync_batch_stats [demo_state (Q2Qc 1); demo_state (Q2Qc 3)] = Ok synced.
Proof.
  apply (sync_batch_stats_effect [demo_state (Q2Qc 1); demo_state (Q2Qc 3)]).
  repeat constructor; vm_compute; eauto.
Defined.

(** ** The forward pass and the metrics *)

Section ForwardMore.
Context {F : Type} `{Scalar F} `{Backend F}.

Lemma model_fn_Raise (w : ImagenetWorkload F) params input_batch model_state
    mode (rng : RandomState) update_batch_norm e :
  model_fn w params input_batch model_state mode rng update_batch_norm = Raise e ->
  e = AttributeError "_model" /\ _model w = None.
Proof.
  unfold model_fn. destruct (_model w) as [m |].
  - destruct update_batch_norm; [destruct (flax_apply _ _ _ _ _) |]; discriminate.
  - intros E. inversion E. split; reflexivity.
Qed.

(** X7.  [model_fn] raises [AttributeError] as long as [init_model_fn] has
    not stored a model, and returns otherwise; its second result is an
    updated auxiliary state exactly when [update_batch_norm] is set, and
    [None] otherwise.  A 'params' collection inside [model_state] takes the
    place of the [params] argument: the result then does not depend on
    [params]. *)
Theorem model_fn_behaviour :
  forall (w : ImagenetWorkload F) params input_batch model_state mode
         (rng : RandomState) update_batch_norm,
    (_model w = None <->
     model_fn w params input_batch model_state mode rng update_batch_norm =
       Raise (AttributeError "_model")) /\
    (is_Some (_model w) <->
     exists logits new_model_state,
       model_fn w params input_batch model_state mode rng update_batch_norm =
         Ok (logits, new_model_state) /\
       (is_Some new_model_state <-> update_batch_norm = true)) /\
    (is_Some (model_state !! "params") ->
     forall params',
       model_fn w params input_batch model_state mode rng update_batch_norm =
       model_fn w params' input_batch model_state mode rng update_batch_norm).
Proof.
  intros w params input_batch model_state mode rng ubn.
  split; [| split].
  - unfold model_fn. destruct (_model w) as [m |]; split.
    + discriminate.
    + destruct ubn; [destruct (flax_apply _ _ _ _ _) |]; discriminate.
    + reflexivity.
    + reflexivity.
  - unfold model_fn. destruct (_model w) as [m |]; split.
    + intros _. destruct ubn.
      * destruct (flax_apply _ _ _ _ _) as [logits st].
        exists logits, (Some st). split; [reflexivity |]. split; eauto.
      * eexists _, None. split; [reflexivity |].
        split; [intros [x Hx]; discriminate | discriminate].
    + eauto.
    + intros [x Hx]. discriminate.
    + intros (logits & st & Hrun & _). discriminate.
  - intros [shadow Hshadow] params'. unfold model_fn.
    assert (Hvars : forall p : PyTree (Tensor F),
              model_state ∪ {[ "params" := p ]} = model_state).
    { intros p. apply map_eq. intros k.
      destruct (decide (k = "params")) as [-> | Hk].
      - rewrite (lookup_union_Some_l _ _ _ _ Hshadow). symmetry. exact Hshadow.
      - rewrite lookup_union_l; [reflexivity |].
        apply lookup_singleton_ne. congruence. }
    rewrite !Hvars. reflexivity.
Qed.

Lemma pmean_scalar_replicated (xs : Sharded F) :
  exists m, pmean_scalar xs = replicate_on (length xs) m.
Proof.
  unfold pmean_scalar. destruct (psum_scalar xs) as [total |] eqn:E.
  - eexists. reflexivity.
  - destruct xs; [| discriminate]. exists (of_Q 0). reflexivity.
Qed.

(** The metrics that [compute_metrics] leaves on the devices. *)
Lemma compute_metrics_replicated (w : ImagenetWorkload F)
    (logits labels : Sharded (Tensor F)) :
  exists loss accuracy,
    compute_metrics w logits labels =
    replicate_on (Nat.min (length logits) (length labels))
      ({[ "loss" := loss; "accuracy" := accuracy ]} : gmap string F).
Proof.
  unfold compute_metrics.
  destruct (pmean_scalar_replicated
              (zip_with (fun lg lb => loss_fn w lb lg) logits labels)) as [l Hl].
  destruct (pmean_scalar_replicated
              (zip_with (fun lg lb => jnp_mean (data (argmax_eq lg lb))) logits labels))
    as [a Ha].
  rewrite Hl, Ha, !length_zip_with. unfold replicate_on.
  rewrite zip_with_replicate. eauto.
Qed.

Lemma eval_model_fn_Ok_inv (w : ImagenetWorkload F) params batch state
    (rng : RandomState) metrics :
  eval_model_fn w params batch state rng = Ok metrics ->
  length state = length params /\
  length (image batch) = length params /\
  length (label batch) = length params /\
  exists loss accuracy,
    metrics =
    replicate_on (length params)
      ({[ "loss" := loss; "accuracy" := accuracy ]} : gmap string F).
Proof.
  intros Hrun. unfold eval_model_fn in Hrun.
  destruct (pmap_axis_size _) as [sz |] eqn:Hsz; simpl in Hrun; [| discriminate].
  apply pmap_axis_size_Ok in Hsz.
  apply Forall_cons in Hsz as [Hs1 Hsz].
  apply Forall_cons in Hsz as [Hs2 Hsz].
  apply Forall_cons in Hsz as [Hs3 _].
  destruct (collect _) as [outs |] eqn:Hc; simpl in Hrun; [| discriminate].
  apply collect_length in Hc.
  rewrite length_zip_with, length_zip in Hc.
  unfold batch_slices in Hc. rewrite length_zip_with in Hc.
  inversion Hrun; subst metrics; clear Hrun.
  repeat (split; [assumption |]).
  destruct (compute_metrics_replicated w (map fst outs) (label batch))
    as (loss & accuracy & Hm).
  exists loss, accuracy. rewrite Hm. f_equal. rewrite length_map. lia.
Qed.

(** X8.  When [eval_model_fn] returns, it returns one metrics dict per
    device, all devices hold the same dict, and the dict has exactly the
    entries 'loss' and 'accuracy'; so reading replica 0, as [eval_model]
    does, loses nothing.  It raises the [ValueError] of [jax.pmap] when the
    mapped arguments do not have one device-axis size. *)
Theorem eval_model_fn_synced :
  forall (w : ImagenetWorkload F) params batch state (rng : RandomState),
    (forall metrics,
        eval_model_fn w params batch state rng = Ok metrics ->
        length state = length params /\
        length (image batch) = length params /\
        length (label batch) = length params /\
        exists loss accuracy,
          metrics =
          replicate_on (length params)
            ({[ "loss" := loss; "accuracy" := accuracy ]} : gmap string F)) /\
    (~ (length (image batch) = length params /\
        length (label batch) = length params /\
        length state = length params) ->
     eval_model_fn w params batch state rng =
       Raise (ValueError "pmap got inconsistent sizes for array axes to be mapped")).
Proof.
  intros w params batch state rng. split.
  - intros metrics Hrun. exact (eval_model_fn_Ok_inv _ _ _ _ _ _ Hrun).
  - intros Hsizes. unfold eval_model_fn, pmap_axis_size.
    destruct (forallb _ _) eqn:Hall; [| reflexivity].
    exfalso. apply Hsizes. rewrite forallb_forall in Hall.
    assert (Hin : forall k, In k [length (image batch); length (label batch); length state] ->
                            k = length params).
    { intros k Hk. symmetry. apply Nat.eqb_eq. apply Hall. exact Hk. }
    repeat split; apply Hin; simpl; auto.
Qed.

End ForwardMore.

(** ** Model initialization *)

Section InitMore.
Context {F : Type} `{Scalar F} `{Backend F}.

(** X9.  When [init_model_fn] returns, the parameters and the auxiliary
    state it returns are replicated over [jax.device_count()] devices; the
    auxiliary state has no 'params' collection, and together with the
    parameters it is exactly what [model.init] produced.  The workload then
    holds the model object and the parameter shapes, and its other fields
    and the trace are as before. *)
Theorem init_model_fn_returns :
  forall (rng : RandomState) (s : World F) params model_state s',
    init_model_fn rng s = (Ok (params, model_state), s') ->
    let model := mkModel (model_name (self s)) (num_classes (self s)) "float32" in
    exists p st,
      params = replicate_on (Z.to_nat device_count) p /\
      model_state = replicate_on (Z.to_nat device_count) st /\
      st !! "params" = None /\
      <["params" := p]> st = flax_init model rng (jnp_ones [1; 224; 224; 3]%nat) /\
      _model (self s') = Some model /\
      _param_shapes (self s') =
        Some (tree_map (fun x => mkShapeTuple (shape x)) p) /\
      _eval_ds (self s') = _eval_ds (self s) /\
      dataset (self s') = dataset (self s) /\
      model_name (self s') = model_name (self s) /\
      num_classes (self s') = num_classes (self s) /\
      trace s' = trace s.
Proof.
  intros rng s params model_state s' Hrun model. unfold init_model_fn in Hrun.
  bind_ok Hrun w s1 Hw. inversion Hw; subst w s1; clear Hw.
  bind_ok Hrun cls s2 Hcls.
  assert (Hcls' : cls = model_name (self s) /\ s2 = s).
  { unfold lift in Hcls. destruct (models_has (model_name (self s)));
      inversion Hcls; split; reflexivity. }
  destruct Hcls' as [-> ->]. clear Hcls.
  bind_ok Hrun u s3 Hset. inversion Hset; subst u s3; clear Hset.
  bind_ok Hrun pm s4 Hinit.
  unfold lift in Hinit. inversion Hinit as [[Hinit' Hs4]]; subst s4; clear Hinit.
  destruct pm as [p st].
  bind_ok Hrun u' s5 Hshapes. inversion Hshapes; subst u' s5; clear Hshapes.
  inversion Hrun; subst params model_state s'; clear Hrun.
  unfold initialized, getitem in Hinit'. fold model in Hinit'.
  destruct (flax_init model rng (jnp_ones [1; 224; 224; 3]%nat) !! "params")
    as [p0 |] eqn:Hp; simpl in Hinit'; [| discriminate].
  inversion Hinit'; subst p0 st; clear Hinit'.
  exists p, (delete "params" (flax_init model rng (jnp_ones [1; 224; 224; 3]%nat))).
  split; [reflexivity |]. split; [reflexivity |].
  split; [apply lookup_delete_eq |].
  split; [rewrite insert_delete_eq; apply insert_id; exact Hp |].
  simpl. repeat split.
Qed.


End InitMore.

Lemma init_model_fn_returns_witness :
  exists p st,
    replicate_on 2 demo_params =
      replicate_on (Z.to_nat (device_count (Backend := demo_backend))) p /\
    replicate_on 2 (demo_state (Q2Qc 0)) =
      replicate_on (Z.to_nat (device_count (Backend := demo_backend))) st /\
    st !! "params" = None.
Proof.
  destruct (init_model_fn_returns (H0 := demo_backend) 7%nat (mkWorld __init__ [])
              (replicate_on 2 demo_params) (replicate_on 2 (demo_state (Q2Qc 0)))
              demo_world)
    as (p & st & Hp & Hst & Hfresh & _).
  - vm_compute. reflexivity.
  - exists p, st. repeat split; assumption.
Defined.


(** ** The evaluation summary *)

Section SummaryMore.
Context {F : Type} `{Scalar F} `{Backend F}.

Lemma collect_map_Forall2 {A B} (f : A -> result B) (xs : list A) (ys : list B) :
  collect (map f xs) = Ok ys -> Forall2 (fun x y => f x = Ok y) xs ys.
Proof.
  revert ys. induction xs as [| x xs IH]; intros ys Hc; simpl in Hc.
  - inversion Hc. constructor.
  - destruct (f x) as [y |] eqn:Hx; simpl in Hc; [| discriminate].
    destruct (collect (map f xs)) as [ys' |]; simpl in Hc; [| discriminate].
    inversion Hc; subst. constructor; [exact Hx | apply IH; reflexivity].
Qed.

(** Every entry that the loop appends is a replicated loss/accuracy dict. *)
Lemma eval_batches_metrics :
  forall (n : nat) params model_state (rng : RandomState) eval_metrics total
         (s : World F) v s',
    Forall (fun ms => exists k loss accuracy,
              ms = replicate_on k
                     ({[ "loss" := loss; "accuracy" := accuracy ]} : gmap string F))
      eval_metrics ->
    eval_batches n params model_state rng eval_metrics total s = (Ok v, s') ->
    Forall (fun ms => exists k loss accuracy,
              ms = replicate_on k
                     ({[ "loss" := loss; "accuracy" := accuracy ]} : gmap string F))
      v.
Proof.
  induction n as [| n IH]; intros params model_state rng eval_metrics total s v s'
    Hacc Hrun.
  - inversion Hrun; subst. exact Hacc.
  - cbn [eval_batches] in Hrun.
    bind_ok Hrun batch s1 Hnext.
    bind_ok Hrun w s2 Hw. inversion Hw; subst w s2; clear Hw.
    bind_ok Hrun sm s2 Hsm.
    unfold lift in Hsm. inversion Hsm as [[Hsm' Hs2]]; subst s2; clear Hsm.
    bind_ok Hrun acc s2 Hacc'.
    eapply IH; [| exact Hrun].
    apply Forall_app. split; [exact Hacc |].
    constructor; [| constructor].
    destruct (eval_model_fn_Ok_inv _ _ _ _ _ _ Hsm')
      as (_ & _ & _ & loss & accuracy & ->).
    eauto.
Qed.

Lemma omap_lookup_all {V} (k : string) (ms : list (gmap string V)) :
  Forall (fun m => is_Some (m !! k)) ms ->
  length (omap (fun m => m !! k) ms) = length ms.
Proof.
  induction 1 as [| m ms [v Hv] _ IH]; [reflexivity |].
  cbn [omap list_omap]. rewrite Hv. simpl. f_equal. exact IH.
Qed.

Lemma stack_metrics_lookup (firsts : list (gmap string F)) stacked (key : string) :
  stack_metrics firsts = Ok stacked ->
  Forall (fun m => is_Some (m !! key)) firsts ->
  (jnp_mean <$> stacked) !! key =
    Some (jnp_mean (omap (fun m : gmap string F => m !! key) firsts)).
Proof.
  intros Hstack Hall. unfold stack_metrics in Hstack.
  destruct firsts as [| m0 rest] eqn:Ef; [discriminate |].
  destruct (forallb _ _); [| discriminate].
  inversion Hstack; subst stacked; clear Hstack.
  rewrite lookup_fmap, map_lookup_imap.
  inversion Hall as [| ? ? [v Hv] _]; subst.
  cbn [omap list_omap]. rewrite Hv. reflexivity.
Qed.

Lemma stack_metrics_lookup_None (m0 : gmap string F) rest stacked (key : string) :
  stack_metrics (m0 :: rest) = Ok stacked ->
  m0 !! key = None ->
  (jnp_mean <$> stacked) !! key = None.
Proof.
  intros Hstack Hnone. unfold stack_metrics in Hstack.
  destruct (forallb _ _); [| discriminate].
  inversion Hstack; subst stacked; clear Hstack.
  rewrite lookup_fmap, map_lookup_imap, Hnone. reflexivity.
Qed.

(** [eval_model_fn] reads the model object and the number of classes of
    the workload, and nothing else of it. *)
Lemma eval_model_fn_self (w w' : ImagenetWorkload F) params batch state
    (rng : RandomState) :
  _model w' = _model w -> num_classes w' = num_classes w ->
  eval_model_fn w' params batch state rng = eval_model_fn w params batch state rng.
Proof.
  intros Hm Hn. unfold eval_model_fn, model_fn, compute_metrics, loss_fn.
  rewrite Hm, Hn. reflexivity.
Qed.

Lemma next_eval_iter_Ok (s : World F) b s' :
  next_eval_iter s = (Ok b, s') ->
  exists it,
    _eval_ds (self s) = Some it /\ pipeline_next it = Some b /\
    _eval_ds (self s') = Some (advance it) /\
    _model (self s') = _model (self s) /\
    num_classes (self s') = num_classes (self s).
Proof.
  unfold next_eval_iter, bind, emit, get_self, lift, set_eval_ds, ret. simpl.
  destruct (_eval_ds (self s)) as [it |]; [| discriminate].
  destruct (pipeline_next it) as [batch |] eqn:Hb; [| discriminate].
  intros E. inversion E; subst. exists it. simpl. repeat split. exact Hb.
Qed.

(** The loop evaluates, in order, the batches that the iterator delivers. *)
Lemma eval_batches_reads :
  forall (n : nat) params model_state (rng : RandomState) eval_metrics total
         (s : World F) v s' it,
    _eval_ds (self s) = Some it ->
    eval_batches n params model_state rng eval_metrics total s = (Ok v, s') ->
    exists new,
      v = eval_metrics ++ new /\ length new = n /\
      forall i sm,
        new !! i = Some sm ->
        exists batch,
          pipeline_next (Nat.iter i advance it) = Some batch /\
          eval_model_fn (self s) params batch model_state rng = Ok sm.
Proof.
  induction n as [| n IH]; intros params model_state rng eval_metrics total s v s'
    it Hit Hrun.
  - inversion Hrun; subst. exists []. rewrite app_nil_r.
    repeat split. intros i sm Hi. destruct i; discriminate.
  - cbn [eval_batches] in Hrun.
    bind_ok Hrun batch s1 Hnext.
    apply next_eval_iter_Ok in Hnext.
    destruct Hnext as (it0 & Hit0 & Hb & Hit1 & Hm & Hc).
    rewrite Hit in Hit0. inversion Hit0; subst it0. clear Hit0.
    bind_ok Hrun w s2 Hw. inversion Hw; subst w s2; clear Hw.
    bind_ok Hrun sm0 s2 Hsm.
    unfold lift in Hsm. inversion Hsm as [[Hsm' Hs2]]; subst s2; clear Hsm.
    rewrite (eval_model_fn_self (self s) (self s1)) in Hsm' by assumption.
    bind_ok Hrun acc s2 Hacc.
    unfold lift in Hacc. inversion Hacc as [[Hacc' Hs2]]; subst s2; clear Hacc.
    destruct (IH _ _ _ _ _ _ _ _ _ Hit1 Hrun) as (new & -> & Hlen & Hnew).
    exists (sm0 :: new). split; [rewrite <- app_assoc; reflexivity |].
    split; [simpl; lia |].
    intros i sm Hi. destruct i as [| i].
    + simpl in Hi. inversion Hi; subst sm0. exists batch. split; assumption.
    + simpl in Hi. destruct (Hnew i sm Hi) as (b' & Hb' & Hsm).
      exists b'. split.
      * rewrite Nat.iter_succ_r. exact Hb'.
      * rewrite <- Hsm. symmetry. apply eval_model_fn_self; assumption.
Qed.

Lemma Forall2_lookup_omap {V} (key : string) (ms : list (gmap string V)) :
  Forall (fun m => is_Some (m !! key)) ms ->
  Forall2 (fun m v => m !! key = Some v) ms (omap (fun m => m !! key) ms).
Proof.
  induction 1 as [| m ms [v Hv] _ IH]; [constructor |].
  cbn [omap list_omap]. rewrite Hv. constructor; assumption.
Qed.

(** X11.  A summary that [eval_model] returns has exactly the entries
    'loss' and 'accuracy'.  Each is the mean, over the
    [num_eval_examples // 200] batches, of the value that replica 0 holds
    in the result of [eval_model_fn] for the batch: batch [i] is the
    [i]-th batch that the evaluation iterator delivers, counted from where
    the iterator stood at the call (or from its start, when the call built
    it), and [eval_model_fn] is given the parameters, the synchronized
    model state and [rng].  So [has_reached_goal] accepts every summary of
    [eval_model]: it returns, comparing that mean accuracy with the
    target. *)
Theorem eval_model_summary :
  forall params model_state (rng : RandomState) data_dir (s : World F)
         summary s',
    eval_model params model_state rng data_dir s = (Ok summary, s') ->
    exists N synced ds metrics losses accuracies,
      num_eval_examples (self s) = Some N /\
      sync_batch_stats model_state = Ok synced /\
      (_eval_ds (self s) = Some ds \/
       (_eval_ds (self s) = None /\
        _build_dataset (self s) (fst (prng_split2 rng)) "test" data_dir 200 =
          Ok ds)) /\
      length metrics = Z.to_nat (N / 200) /\
      (0 < length metrics)%nat /\
      (forall i m,
          metrics !! i = Some m ->
          exists batch replicas,
            pipeline_next (Nat.iter i advance ds) = Some batch /\
            eval_model_fn (self s) params batch synced rng = Ok replicas /\
            replicas !! 0%nat = Some m) /\
      Forall2 (fun m l => m !! "loss" = Some l) metrics losses /\
      Forall2 (fun m a => m !! "accuracy" = Some a) metrics accuracies /\
      summary !! "loss" = Some (jnp_mean losses) /\
      summary !! "accuracy" = Some (jnp_mean accuracies) /\
      (forall k, k <> "loss" -> k <> "accuracy" -> summary !! k = None) /\
      has_reached_goal (self s') summary =
        Ok (fgtb (jnp_mean accuracies) (of_Q 0.76)).
Proof.
  intros params model_state rng data_dir s summary s' Hrun.
  unfold eval_model in Hrun.
  bind_ok Hrun synced s1 Hsync.
  unfold call_sync_batch_stats, bind, emit, lift in Hsync. simpl in Hsync.
  inversion Hsync as [[Hsync' Hs1]]; clear Hsync.
  destruct (prng_split2 rng) as [data_rng model_rng] eqn:Hsplit.
  bind_ok Hrun w s2 Hw. inversion Hw; subst w s2; clear Hw.
  bind_ok Hrun n0 s2 Hn0.
  unfold lift in Hn0. inversion Hn0 as [[Hn0' Hs2]]; subst s2; clear Hn0.
  bind_ok Hrun nb s3 Hnb.
  unfold lift in Hnb. inversion Hnb as [[Hnb' Hs3]]; subst s3; clear Hnb.
  assert (Hself1 : self s1 = self s) by (subst s1; reflexivity).
  rewrite Hself1 in Hn0'.
  destruct (num_eval_examples (self s)) as [N |] eqn:HN; [| discriminate].
  simpl in Hn0'. inversion Hn0'; subst n0. clear Hn0'.
  subst nb.
  bind_ok Hrun u s4 Hbuild.
  assert (Hds : exists ds,
            (_eval_ds (self s) = Some ds \/
             (_eval_ds (self s) = None /\
              _build_dataset (self s) data_rng "test" data_dir 200 = Ok ds)) /\
            _eval_ds (self s4) = Some ds /\
            _model (self s4) = _model (self s) /\
            num_classes (self s4) = num_classes (self s)).
  { rewrite Hself1 in Hbuild.
    destruct (_eval_ds (self s)) as [ds0 |] eqn:Eds.
    - inversion Hbuild; subst s4. exists ds0. rewrite Hself1, Eds.
      repeat split. left. reflexivity.
    - bind_ok Hbuild ds0 s3 Hb.
      unfold lift in Hb. inversion Hb as [[Hb' Hs3]]; subst s3; clear Hb.
      inversion Hbuild; subst s4. exists ds0. simpl. rewrite Hself1.
      repeat split. right. split; [reflexivity | exact Hb']. }
  destruct Hds as (ds & Hwhich & Hds4 & Hm4 & Hc4).
  bind_ok Hrun em s5 Hloop.
  bind_ok Hrun firsts s6 Hfirsts.
  bind_ok Hrun stacked s7 Hstack.
  inversion Hrun; subst summary s7; clear Hrun.
  pose proof (eval_batches_metrics _ _ _ _ _ _ _ _ _ ltac:(constructor) Hloop)
    as Hform.
  destruct (eval_batches_reads _ _ _ _ _ _ _ _ _ _ Hds4 Hloop)
    as (new & Hem & Hlen & Hnew).
  simpl in Hem. subst new.
  unfold lift in Hfirsts. inversion Hfirsts as [[Hfirsts' Hs6]]; clear Hfirsts.
  apply collect_map_Forall2 in Hfirsts'.
  assert (Hlenf : length firsts = Z.to_nat (N / 200)).
  { rewrite <- Hlen. symmetry. eapply Forall2_length. exact Hfirsts'. }
  assert (Hff : Forall (fun m : gmap string F => exists loss accuracy,
                          m = {[ "loss" := loss; "accuracy" := accuracy ]}) firsts).
  { clear -Hform Hfirsts'. induction Hfirsts' as [| x y xs ys Hxy _ IH].
    - constructor.
    - inversion Hform as [| ? ? (k & l & a & ->) Hrest]; subst.
      constructor; [| apply IH; exact Hrest].
      destruct k as [| k]; simpl in Hxy; [discriminate |].
      inversion Hxy. eauto. }
  unfold lift in Hstack. inversion Hstack as [[Hstack' Hs7]]; clear Hstack.
  assert (Hhas : forall key, key = "loss" \/ key = "accuracy" ->
            Forall (fun m : gmap string F => is_Some (m !! key)) firsts).
  { intros key Hkey. eapply Forall_impl; [exact Hff |].
    intros m (l & a & ->). destruct Hkey as [-> | ->].
    - rewrite lookup_insert_eq. eauto.
    - rewrite lookup_insert_ne by discriminate. rewrite lookup_singleton_eq. eauto. }
  exists N, synced, ds, firsts,
    (omap (fun m : gmap string F => m !! "loss") firsts),
    (omap (fun m : gmap string F => m !! "accuracy") firsts).
  split; [reflexivity |]. split; [exact Hsync' |].
  split; [exact Hwhich |].
  split; [exact Hlenf |].
  split.
  { destruct firsts; [discriminate | simpl; lia]. }
  split.
  { intros i m Hi.
    destruct (Forall2_lookup_r _ _ _ _ _ Hfirsts' Hi) as (sm & Hsm & Hfirst).
    destruct (Hnew i sm Hsm) as (batch & Hb & Hfn).
    exists batch, sm. split; [exact Hb |]. split.
    - rewrite <- Hfn. symmetry. apply eval_model_fn_self; assumption.
    - destruct sm as [| x rest]; simpl in Hfirst; inversion Hfirst. reflexivity. }
  split; [apply Forall2_lookup_omap, Hhas; auto |].
  split; [apply Forall2_lookup_omap, Hhas; auto |].
  split; [apply (stack_metrics_lookup firsts); [exact Hstack' | apply Hhas; auto] |].
  split; [apply (stack_metrics_lookup firsts); [exact Hstack' | apply Hhas; auto] |].
  split.
  - intros key Hk1 Hk2. destruct firsts as [| m0 rest]; [discriminate |].
    apply (stack_metrics_lookup_None m0 rest); [exact Hstack' |].
    inversion Hff as [| ? ? (l0 & a0 & ->) _]; subst.
    rewrite lookup_insert_ne by congruence.
    apply lookup_singleton_ne. congruence.
  - unfold has_reached_goal, getitem.
    rewrite (stack_metrics_lookup firsts _ "accuracy" Hstack') by (apply Hhas; auto).
    reflexivity.
Qed.

End SummaryMore.

Lemma eval_model_summary_witness :
  exists N ds (metrics : list (gmap string Qc)) (accuracies : list Qc),
    num_eval_examples (self demo_world) = Some N /\
    _build_dataset (H0 := demo_backend) (self demo_world)
      (fst (prng_split2 (Backend := demo_backend) 5%nat)) "test" "/data" 200 =
      Ok ds /\
    length metrics = Z.to_nat (N / 200) /\
    Forall2 (fun m a => m !! "accuracy" = Some a) metrics accuracies /\
    has_reached_goal (self (snd demo_eval_run))
      (match fst demo_eval_run with Ok v => v | Raise _ => ∅ end) =
      Ok (fgtb (jnp_mean accuracies) (of_Q 0.76)).
Proof.
  destruct (eval_model_summary (H0 := demo_backend) (replicate_on 2 demo_params)
              [demo_state (Q2Qc 1); demo_state (Q2Qc 3)] 5%nat "/data" demo_world
              (match fst demo_eval_run with Ok v => v | Raise _ => ∅ end)
              (snd demo_eval_run))
    as (N & synced & ds & metrics & losses & accuracies & HN & _ & Hds & Hlen & _
        & _ & _ & Hacc & _ & _ & _ & Hgoal).
  - vm_compute. reflexivity.
  - exists N, ds, metrics, accuracies.
    split; [exact HN |]. split.
    + destruct Hds as [Hset | [_ Hbuilt]]; [discriminate Hset | exact Hbuilt].
    + repeat split; assumption.
Defined.

(** ** Evaluation: the cached dataset and the failures *)

Section EvalMore.
Context {F : Type} `{Scalar F} `{Backend F}.

Lemma call_sync_batch_stats_run
    (model_state : Sharded (gmap string (PyTree (Tensor F)))) (s : World F) :
  call_sync_batch_stats model_state s =
  (sync_batch_stats model_state, mkWorld (self s) (trace s ++ [EvSyncBatchStats])).
Proof. reflexivity. Qed.

Lemma collect_Raise {A} (rs : list (result A)) (e : exn) :
  collect rs = Raise e -> In (Raise e) rs.
Proof.
  induction rs as [| r rs IH]; simpl; [discriminate |].
  destruct r as [x | e0]; simpl.
  - destruct (collect rs) as [xs | e1]; simpl; [discriminate |].
    intros E. inversion E; subst. right. apply IH. reflexivity.
  - intros E. inversion E; subst. left. reflexivity.
Qed.

Lemma in_zip_with {A B C} (f : A -> B -> C) (l : list A) (k : list B) (z : C) :
  In z (zip_with f l k) -> exists x y, z = f x y.
Proof.
  revert k. induction l as [| x l IH]; intros [| y k]; simpl; try tauto.
  intros [<- | Hin]; [eauto | eapply IH; exact Hin].
Qed.

Lemma eval_model_fn_Raise (w : ImagenetWorkload F) params batch state
    (rng : RandomState) e :
  eval_model_fn w params batch state rng = Raise e ->
  e = ValueError "pmap got inconsistent sizes for array axes to be mapped" \/
  e = AttributeError "_model".
Proof.
  unfold eval_model_fn. destruct (pmap_axis_size _) as [sz | e0] eqn:Hsz; simpl.
  - destruct (collect _) as [outs | e1] eqn:Hc; simpl; [discriminate |].
    intros E. inversion E; subst e1. right.
    apply collect_Raise, in_zip_with in Hc. destruct Hc as (p & bs & Hc).
    symmetry in Hc. apply model_fn_Raise in Hc. tauto.
  - intros E. inversion E; subst e0. left.
    unfold pmap_axis_size in Hsz. destruct (forallb _ _); inversion Hsz.
    reflexivity.
Qed.

Lemma next_eval_iter_Raise (s : World F) e s' :
  next_eval_iter s = (Raise e, s') ->
  (e = TypeError /\ _eval_ds (self s) = None) \/ e = StopIteration.
Proof.
  unfold next_eval_iter, bind, emit, get_self, lift, set_eval_ds, ret. simpl.
  destruct (_eval_ds (self s)) as [it |].
  - destruct (pipeline_next it); intros E; inversion E. right. reflexivity.
  - intros E; inversion E. left. split; reflexivity.
Qed.

(** The exceptions of the evaluation loop, once there is an iterator. *)
Lemma eval_batches_Raise :
  forall (n : nat) params model_state (rng : RandomState) eval_metrics total
         (s : World F) e s',
    is_Some (_eval_ds (self s)) ->
    eval_batches n params model_state rng eval_metrics total s = (Raise e, s') ->
    e = StopIteration \/
    e = ValueError "pmap got inconsistent sizes for array axes to be mapped" \/
    e = AttributeError "_model".
Proof.
  induction n as [| n IH]; intros params model_state rng eval_metrics total s e s'
    Hds Hrun.
  - discriminate.
  - cbn [eval_batches] in Hrun.
    apply bind_any in Hrun.
    destruct Hrun as [(b & s1 & Hnext & Hrun) | (e0 & Hnext & He)].
    + assert (Hds1 : is_Some (_eval_ds (self s1))).
      { apply next_eval_iter_run in Hnext. destruct Hnext as ((Hrw & _) & _).
        destruct Hds as [it Hit]. rewrite Hit in Hrw.
        destruct (_eval_ds (self s1)); [eauto | discriminate]. }
      apply bind_any in Hrun.
      destruct Hrun as [(w & s2 & Hw & Hrun) | (e0 & Hw & _)]; [| discriminate].
      inversion Hw; subst w s2; clear Hw.
      apply bind_any in Hrun.
      destruct Hrun as [(sm & s2 & Hsm & Hrun) | (e0 & Hsm & He)].
      * unfold lift in Hsm. inversion Hsm as [[Hsm' Hs2]]. subst s2. clear Hsm.
        apply bind_any in Hrun.
        destruct Hrun as [(a & s2 & Ha & Hrun) | (e0 & Ha & He)].
        -- unfold lift in Ha. inversion Ha as [[Ha' Hs2]]. subst s2.
           eapply IH; [exact Hds1 | exact Hrun].
        -- unfold lift in Ha. inversion Ha as [[Ha' Hs2]]. clear Ha.
           destruct (eval_model_fn_Ok_inv _ _ _ _ _ _ Hsm')
             as (_ & _ & _ & l & a & ->).
           destruct (collect_getitem_cases "accuracy"
                       (replicate_on (length params)
                          ({[ "loss" := l; "accuracy" := a ]} : gmap string F)))
             as [[_ [vs Hvs]] | [Hnot _]]; [congruence |].
           exfalso. apply Hnot. unfold replicate_on. apply Forall_replicate.
           rewrite lookup_insert_ne by discriminate.
           rewrite lookup_singleton_eq. eauto.
      * unfold lift in Hsm. inversion Hsm as [[Hsm' Hs2]]. clear Hsm.
        inversion He; subst e0.
        apply eval_model_fn_Raise in Hsm'. tauto.
    + inversion He; subst e0. apply next_eval_iter_Raise in Hnext.
      destruct Hnext as [[_ Hnone] | ->]; [| tauto].
      destruct Hds as [it Hit]. congruence.
Qed.

(** The exceptions after the loop. *)
Lemma summary_Raise (em : list (Sharded (gmap string F))) e :
  Forall (fun ms => exists k loss accuracy,
            ms = replicate_on k
                   ({[ "loss" := loss; "accuracy" := accuracy ]} : gmap string F))
    em ->
  (firsts <-? collect (map first_slice em);
   stacked <-? stack_metrics firsts;
   Ok (jnp_mean <$> stacked)) = Raise e ->
  e = IndexError \/ (e = TypeError /\ em = []).
Proof.
  intros Hform Hrun.
  destruct (collect (map first_slice em)) as [firsts | e1] eqn:Hfirsts;
    simpl in Hrun.
  - right. apply collect_map_Forall2 in Hfirsts.
    assert (Hff : Forall (fun m : gmap string F => exists loss accuracy,
                            m = {[ "loss" := loss; "accuracy" := accuracy ]}) firsts).
    { clear -Hform Hfirsts. induction Hfirsts as [| x y xs ys Hxy _ IH].
      - constructor.
      - inversion Hform as [| ? ? (k & l & a & ->) Hrest]; subst.
        constructor; [| apply IH; exact Hrest].
        destruct k as [| k]; simpl in Hxy; [discriminate |].
        inversion Hxy. eauto. }
    unfold stack_metrics in Hrun.
    destruct firsts as [| m0 rest].
    + inversion Hfirsts; subst. inversion Hrun. split; reflexivity.
    + exfalso.
      assert (Hdom : forallb (fun m : gmap string F => bool_decide (dom m = dom m0))
                       (m0 :: rest) = true).
      { apply forallb_forall. intros m Hm. apply bool_decide_eq_true.
        rewrite List.Forall_forall in Hff.
        destruct (Hff m Hm) as (l & a & ->).
        destruct (Hff m0 ltac:(left; reflexivity)) as (l0 & a0 & ->).
        rewrite !dom_insert_L, !dom_singleton_L. reflexivity. }
      rewrite Hdom in Hrun. discriminate.
  - inversion Hrun; subst e1. left.
    apply collect_Raise, in_map_iff in Hfirsts.
    destruct Hfirsts as (x & Hx & _). destruct x; inversion Hx. reflexivity.
Qed.

(** X12.  Once [_eval_ds] is set, [eval_model] never builds a dataset
    again: whatever [rng] and [data_dir] are, and however the run ends, the
    workload afterwards holds the iterator it held before, built from the
    same arguments, and the batch-size check is not made.  A run that
    returns a summary has drawn [num_eval_examples // 200] further batches
    from it. *)
Theorem eval_model_reuses_dataset :
  forall params model_state (rng : RandomState) data_dir (s : World F) r s' ds,
    _eval_ds (self s) = Some ds ->
    eval_model params model_state rng data_dir s = (r, s') ->
    exists ds',
      _eval_ds (self s') = Some ds' /\
      rewind ds' = rewind ds /\
      r <> Raise (ValueError "Batch size must be divisible by the number of devices") /\
      (forall summary N,
          r = Ok summary -> num_eval_examples (self s) = Some N ->
          ds_drawn ds' = (ds_drawn ds + Z.to_nat (N / 200))%nat).
Proof.
  intros params model_state rng data_dir s r s' ds Hds Hrun.
  unfold eval_model in Hrun.
  rewrite bind_run, call_sync_batch_stats_run in Hrun.
  destruct (sync_batch_stats model_state) as [ms' | e] eqn:Hsync.
  2: { destruct (sync_batch_stats_Raise _ _ Hsync) as [He _].
       inversion Hrun; subst r s' e. simpl. exists ds.
       repeat split; [assumption | discriminate | discriminate]. }
  destruct (prng_split2 rng) as [data_rng model_rng].
  rewrite bind_run in Hrun. simpl in Hrun.
  rewrite bind_run in Hrun. unfold lift at 1 in Hrun.
  destruct (num_eval_examples (self s)) as [N |] eqn:HN; simpl in Hrun.
  2: { inversion Hrun; subst r s'. simpl. exists ds.
       repeat split; [assumption | discriminate | discriminate]. }
  rewrite bind_run in Hrun. unfold lift at 1, py_floordiv in Hrun. simpl in Hrun.
  rewrite Hds in Hrun. rewrite bind_run in Hrun. unfold ret at 1 in Hrun.
  set (s1 := mkWorld (self s) (trace s ++ [EvSyncBatchStats])) in *.
  apply bind_any in Hrun.
  destruct Hrun as [(em & s2 & Hloop & Hrun) | (e & Hloop & ->)].
  - pose proof (eval_batches_metrics _ _ _ _ _ _ _ _ _ ltac:(constructor) Hloop)
      as Hform.
    apply eval_batches_run in Hloop.
    destruct Hloop as ((Hrw & _) & k & _ & _ & Hc).
    destruct (Hc em eq_refl) as (_ & _ & Hdrawn). clear Hc.
    assert (Hs' : s' = s2 /\
                  r <> Raise (ValueError
                           "Batch size must be divisible by the number of devices")).
    { rewrite bind_run in Hrun. unfold lift at 1 in Hrun.
      pose proof (summary_Raise em) as Htail. unfold rbind in Htail.
      destruct (collect (map first_slice em)) as [firsts | e1].
      - rewrite bind_run in Hrun. unfold lift at 1 in Hrun.
        destruct (stack_metrics firsts) as [st | e2].
        + inversion Hrun. split; [reflexivity | discriminate].
        + inversion Hrun; subst. split; [reflexivity |].
          destruct (Htail e2 Hform eq_refl) as [-> | [-> _]]; discriminate.
      - inversion Hrun; subst. split; [reflexivity |].
        destruct (Htail e1 Hform eq_refl) as [-> | [-> _]]; discriminate. }
    destruct Hs' as [-> Hr].
    simpl in Hrw, Hdrawn. rewrite Hds in Hrw, Hdrawn. simpl in Hrw, Hdrawn.
    destruct (_eval_ds (self s2)) as [ds' |] eqn:Hds'; [| discriminate].
    simpl in Hrw, Hdrawn. exists ds'.
    split; [reflexivity |]. split; [congruence |]. split; [exact Hr |].
    intros summary N' _ HN'. inversion HN'; subst N'. congruence.
  - assert (Hds1 : is_Some (_eval_ds (self s1))) by (simpl; rewrite Hds; eauto).
    pose proof (eval_batches_Raise _ _ _ _ _ _ _ _ _ Hds1 Hloop) as He.
    apply eval_batches_run in Hloop.
    destruct Hloop as ((Hrw & _) & _).
    simpl in Hrw. rewrite Hds in Hrw. simpl in Hrw.
    destruct (_eval_ds (self s')) as [ds' |] eqn:Hds'; [| discriminate].
    simpl in Hrw. exists ds'.
    split; [reflexivity |]. split; [congruence |]. split.
    + destruct He as [-> | [-> | ->]]; discriminate.
    + discriminate.
Qed.

End EvalMore.

Section EvalFailures.
Context {F : Type} `{Scalar F} `{Backend F}.

Lemma num_eval_examples_batches (w : ImagenetWorkload F) N :
  num_eval_examples w = Some N -> (0 < Z.to_nat (N / 200))%nat.
Proof.
  unfold num_eval_examples.
  destruct (str_contains _ _); [intros E; inversion E; subst; vm_compute; lia |].
  destruct (String.eqb _ _); intros E; inversion E; subst. vm_compute. lia.
Qed.




End EvalFailures.

Lemma eval_model_reuses_dataset_witness :
  exists ds',
    _eval_ds (self (snd demo_eval_again)) = Some ds' /\
    rewind ds' =
      rewind (mkInputIter "imagenette" 200 (train_mean __init__)
                (train_stddev __init__) true false 19) /\
    ds_drawn ds' = (19 + Z.to_nat (3925 / 200))%nat.
Proof.
  destruct (eval_model_reuses_dataset (H0 := demo_backend)
              (replicate_on 2 demo_params)
              [demo_state (Q2Qc 1); demo_state (Q2Qc 3)] 11%nat "/elsewhere"
              (snd demo_eval_run) (fst demo_eval_again) (snd demo_eval_again)
              (mkInputIter "imagenette" 200 (train_mean __init__)
                 (train_stddev __init__) true false 19))
    as (ds' & Hds' & Hrw & _ & Hdrawn).
  - vm_compute. reflexivity.
  - exact (surjective_pairing demo_eval_again).
  - exists ds'. split; [exact Hds' |]. split; [exact Hrw |].
    apply (Hdrawn (match fst demo_eval_again with Ok v => v | Raise _ => ∅ end) 3925).
    + vm_compute. reflexivity.
    + reflexivity.
Defined.




(** ** More on the goal test *)

(** X16.  On exact rationals [has_reached_goal] reads the accuracy entry
    only: it raises [KeyError 'accuracy'] when the entry is missing,
    summaries with the same accuracy get the same answer on any workload
    object (the loss, the dataset and the model do not matter), and the
    answer is monotone: once reached at an accuracy, reached at every
    accuracy that is at least as large. *)
Theorem has_reached_goal_accuracy_only :
  forall (w w' : ImagenetWorkload Qc) (r r' : gmap string Qc),
    (r !! "accuracy" = None <->
     has_reached_goal w r = Raise (KeyError "accuracy")) /\
    (r !! "accuracy" = r' !! "accuracy" ->
     has_reached_goal w r = has_reached_goal w' r') /\
    (forall a a',
        r !! "accuracy" = Some a -> r' !! "accuracy" = Some a' -> (a <= a')%Qc ->
        has_reached_goal w r = Ok true -> has_reached_goal w' r' = Ok true).
Proof.
  intros w w' r r'. unfold has_reached_goal, getitem, target_value.
  split; [| split].
  - destruct (r !! "accuracy"); simpl; split; congruence.
  - intros ->. reflexivity.
  - intros a a' -> -> Hle. simpl.
    destruct (a ?= Q2Qc 0.76)%Qc eqn:Ha; try discriminate. intros _.
    apply Qcgt_alt in Ha.
    assert (Ha' : (a' > Q2Qc 0.76)%Qc).
    { eapply Qclt_le_trans; eassumption. }
    apply Qcgt_alt in Ha'. rewrite Ha'. reflexivity.
Qed.

Lemma has_reached_goal_accuracy_only_witness :
  has_reached_goal (self other_dataset_world)
    ({[ "accuracy" := Q2Qc 0.9 ]} : gmap string Qc) = Ok true.
Proof.
  destruct (has_reached_goal_accuracy_only __init__ (self other_dataset_world)
              {[ "loss" := Q2Qc 2; "accuracy" := Q2Qc 0.8 ]}
              {[ "accuracy" := Q2Qc 0.9 ]}) as (_ & _ & Hmono).
  apply (Hmono (Q2Qc 0.8) (Q2Qc 0.9)).
  - vm_compute. reflexivity.
  - vm_compute. reflexivity.
  - vm_compute. discriminate.
  - vm_compute. reflexivity.
Defined.

(** ** More on the training step *)

Section StepMore.
Context {F : Type} `{Scalar F} `{Backend F}.

Lemma collect_lookup {A} (rs : list (result A)) (xs : list A) (i : nat) r :
  collect rs = Ok xs -> rs !! i = Some r ->
  exists x, r = Ok x /\ xs !! i = Some x.
Proof.
  revert xs i. induction rs as [| r0 rs IH]; intros xs i Hc Hi;
    [discriminate |].
  simpl in Hc. destruct r0 as [x0 |]; simpl in Hc; [| discriminate].
  destruct (collect rs) as [xs' |] eqn:Hrs; simpl in Hc; [| discriminate].
  inversion Hc; subst xs. destruct i as [| i]; simpl in *.
  - inversion Hi; subst. eauto.
  - eapply IH; [reflexivity | exact Hi].
Qed.

Lemma pmean_tree_length (xs : Sharded (PyTree (Tensor F))) :
  length (pmean_tree xs) = length xs.
Proof.
  destruct (pmean_tree_replicated xs) as [g ->].
  unfold replicate_on. apply length_replicate.
Qed.

(** X17.  When [pmapped_train_step] returns, all device-mapped arguments
    had the same number of slices and each result has that number of
    slices.  The new auxiliary state of a device is the one that the
    evaluation of [_loss_fn] on that device's own state and batch slice
    returned: it does not go through [lax.pmean].  With inconsistent
    numbers of slices the step raises the [ValueError] of [jax.pmap]. *)
Theorem pmapped_train_step_slices :
  forall (workload : ImagenetWorkload F) opt_update_fn model_state
         optimizer_state params hyperparameters batch (rng : RandomState),
    (forall new_model_state new_optimizer_state new_params,
        pmapped_train_step workload opt_update_fn model_state optimizer_state
          params hyperparameters batch rng =
          Ok (new_model_state, new_optimizer_state, new_params) ->
        let n := length params in
        (length model_state = n /\ length optimizer_state = n /\
         length (image batch) = n /\ length (label batch) = n) /\
        (length new_model_state = n /\ length new_optimizer_state = n /\
         length new_params = n) /\
        forall i p st img lbl,
          params !! i = Some p -> model_state !! i = Some st ->
          image batch !! i = Some img -> label batch !! i = Some lbl ->
          exists loss st' logits g,
            value_and_grad
              (_loss_fn workload hyperparameters st (mkBatch img lbl) rng) p =
              Ok ((loss, (st', logits)), g) /\
            new_model_state !! i = Some st') /\
    (~ (length optimizer_state = length model_state /\
        length params = length model_state /\
        length (image batch) = length model_state /\
        length (label batch) = length model_state) ->
     pmapped_train_step workload opt_update_fn model_state optimizer_state
       params hyperparameters batch rng =
       Raise (ValueError "pmap got inconsistent sizes for array axes to be mapped")).
Proof.
  intros workload opt_update_fn model_state optimizer_state params
    hyperparameters batch rng. split.
  - intros nms nos nps Hstep n. unfold pmapped_train_step in Hstep.
    destruct (pmap_axis_size _) as [sz |] eqn:Hsz; simpl in Hstep; [| discriminate].
    apply pmap_axis_size_Ok in Hsz.
    apply Forall_cons in Hsz as [Hs1 Hsz].
    apply Forall_cons in Hsz as [Hs2 Hsz].
    apply Forall_cons in Hsz as [Hs3 Hsz].
    apply Forall_cons in Hsz as [Hs4 _].
    destruct (collect _) as [outs |] eqn:Hc; simpl in Hstep; [| discriminate].
    pose proof (collect_length _ _ Hc) as Hlen.
    rewrite length_zip_with, length_zip in Hlen.
    unfold batch_slices in Hlen. rewrite length_zip_with in Hlen.
    inversion Hstep; subst nms nos nps; clear Hstep.
    fold n in Hs2. 
    split; [unfold n; repeat split; lia |]. split.
    + rewrite !length_map, length_zip_with, pmean_tree_length, length_map,
        length_zip. unfold n. repeat split; lia.
    + intros i p st img lbl Hp Hst Himg Hlbl.
      assert (Hri : zip_with
                      (fun p sb => value_and_grad
                         (_loss_fn workload hyperparameters (fst sb) (snd sb) rng) p)
                      params (zip model_state (batch_slices batch)) !! i =
                    Some (value_and_grad
                            (_loss_fn workload hyperparameters st (mkBatch img lbl) rng) p)).
      { rewrite lookup_zip_with, Hp. simpl.
        unfold batch_slices. rewrite lookup_zip_with, Hst. simpl.
        rewrite lookup_zip_with, Himg. simpl. rewrite Hlbl. reflexivity. }
      destruct (collect_lookup _ _ _ _ Hc Hri) as (out & Hout & Hi).
      destruct out as [[loss [st' logits]] g].
      exists loss, st', logits, g. split; [exact Hout |].
      rewrite !map_lookup, Hi. reflexivity.
  - intros Hsizes. unfold pmapped_train_step, pmap_axis_size.
    destruct (forallb _ _) eqn:Hall; [| reflexivity].
    exfalso. apply Hsizes. rewrite forallb_forall in Hall.
    assert (Hin : forall k,
              In k [length optimizer_state; length params;
                    length (image batch); length (label batch)] ->
              k = length model_state).
    { intros k Hk. symmetry. apply Nat.eqb_eq. apply Hall. exact Hk. }
    repeat split; apply Hin; simpl; auto.
Qed.

(** What a returning call of [update_params] did. *)
Lemma update_params_Ok_inv
    params model_state hyperparameters input_batch label_batch loss_type
    optimizer_state opt_update_fn eval_results global_step (rng : RandomState)
    (s : World F) os f ps ms s' :
  update_params params model_state hyperparameters input_batch label_batch
    loss_type (optimizer_state, opt_update_fn) eval_results global_step rng s =
    (Ok ((os, f), ps, ms), s') ->
  self s' = self s /\ f = opt_update_fn /\
  exists nms n,
    pmapped_train_step (self s) opt_update_fn model_state optimizer_state params
      hyperparameters (mkBatch input_batch label_batch) rng = Ok (nms, os, ps) /\
    num_train_examples (self s) = Some n /\
    n / get_batch_size "imagenet" <> 0 /\
    (if (global_step + 1) mod (n / get_batch_size "imagenet") =? 0
     then trace s' = trace s ++ [EvSyncBatchStats] /\ sync_batch_stats nms = Ok ms
     else trace s' = trace s /\ ms = nms).
Proof.
  unfold update_params. intros Hrun.
  bind_ok Hrun w s1 Hw. inversion Hw; subst w s1; clear Hw.
  bind_ok Hrun out s1 Hstep.
  unfold lift in Hstep. inversion Hstep as [[Hstep' Hs1]]; subst s1; clear Hstep.
  destruct out as [[nms nos] nps].
  bind_ok Hrun n s1 Hn.
  unfold lift in Hn. inversion Hn as [[Hn' Hs1]]; subst s1; clear Hn.
  destruct (num_train_examples (self s)) as [n0 |] eqn:Hnte; [| discriminate].
  simpl in Hn'. inversion Hn'; subst n0; clear Hn'.
  bind_ok Hrun spe s1 Hspe.
  unfold lift, py_floordiv in Hspe.
  change (get_batch_size "imagenet" =? 0) with false in Hspe. cbv iota in Hspe.
  inversion Hspe; subst spe s1; clear Hspe.
  bind_ok Hrun r s1 Hr.
  unfold lift, py_mod in Hr.
  destruct (Z.eqb_spec (n / get_batch_size "imagenet") 0) as [E0 | Hne0];
    [discriminate |].
  inversion Hr; subst r s1; clear Hr.
  bind_ok Hrun nms' s1 Hsync.
  inversion Hrun; subst os f ps ms s1; clear Hrun.
  destruct ((global_step + 1) mod (n / get_batch_size "imagenet") =? 0) eqn:Hb.
  - rewrite call_sync_batch_stats_run in Hsync.
    inversion Hsync as [[Hsync' Hs']]. subst s'. simpl.
    split; [reflexivity |]. split; [reflexivity |].
    exists nms, n. rewrite Hb. repeat split; try assumption; reflexivity.
  - inversion Hsync; subst nms' s'.
    split; [reflexivity |]. split; [reflexivity |].
    exists nms, n. rewrite Hb. repeat split; try assumption; reflexivity.
Qed.

(** X18.  [update_params] never changes the workload object.  When it
    returns, it hands back the [opt_update_fn] it was given, the optimizer
    state and the parameters are the ones of the training step, and the
    auxiliary state is the step's: untouched on an ordinary step, and on an
    epoch-boundary step (where [(global_step + 1) % steps_per_epoch = 0])
    with the 'batch_stats' of every slice replaced by one common tree and
    all other collections kept. *)
Theorem update_params_frame :
  forall params model_state hyperparameters input_batch label_batch loss_type
         optimizer_state opt_update_fn eval_results global_step
         (rng : RandomState) (s : World F) r s',
    update_params params model_state hyperparameters input_batch label_batch
      loss_type (optimizer_state, opt_update_fn) eval_results global_step rng s =
      (r, s') ->
    self s' = self s /\
    forall os f ps ms,
      r = Ok ((os, f), ps, ms) ->
      f = opt_update_fn /\
      exists nms n,
        pmapped_train_step (self s) opt_update_fn model_state optimizer_state
          params hyperparameters (mkBatch input_batch label_batch) rng =
          Ok (nms, os, ps) /\
        num_train_examples (self s) = Some n /\
        ((global_step + 1) mod (n / get_batch_size "imagenet") <> 0 -> ms = nms) /\
        ((global_step + 1) mod (n / get_batch_size "imagenet") = 0 ->
         exists avg, ms = map (fun st => <["batch_stats" := avg]> st) nms).
Proof.
  intros params model_state hyperparameters input_batch label_batch loss_type
    optimizer_state opt_update_fn eval_results global_step rng s r s' Hrun.
  split.
  - unfold update_params in Hrun.
    rewrite bind_run in Hrun. simpl in Hrun.
    rewrite bind_run in Hrun. unfold lift at 1 in Hrun.
    destruct (pmapped_train_step _ _ _ _ _ _ _ _) as [[[nms nos] nps] | e];
      [| inversion Hrun; reflexivity].
    rewrite bind_run in Hrun. unfold lift at 1 in Hrun.
    destruct (num_train_examples (self s)) as [n |]; simpl in Hrun;
      [| inversion Hrun; reflexivity].
    rewrite bind_run in Hrun. unfold lift at 1, py_floordiv in Hrun.
    change (get_batch_size "imagenet" =? 0) with false in Hrun. cbv iota in Hrun.
    rewrite bind_run in Hrun. unfold lift at 1, py_mod in Hrun.
    destruct (n / get_batch_size "imagenet" =? 0);
      [inversion Hrun; reflexivity |].
    rewrite bind_run in Hrun.
    destruct ((global_step + 1) mod (n / get_batch_size "imagenet") =? 0).
    + rewrite call_sync_batch_stats_run in Hrun.
      destruct (sync_batch_stats nms); inversion Hrun; reflexivity.
    + unfold ret in Hrun. inversion Hrun; reflexivity.
  - intros os f ps ms ->. apply update_params_Ok_inv in Hrun.
    destruct Hrun as (_ & Hf & nms & n & Hstep & Hn & _ & Hcase).
    split; [exact Hf |]. exists nms, n.
    split; [exact Hstep |]. split; [exact Hn |].
    destruct (Z.eqb_spec ((global_step + 1) mod (n / get_batch_size "imagenet")) 0)
      as [E | E].
    + destruct Hcase as [_ Hsync]. split; [intros Hne; contradiction |].
      intros _. apply sync_batch_stats_Ok_inv. exact Hsync.
    + destruct Hcase as [_ ->]. split; [reflexivity | intros E'; contradiction].
Qed.

End StepMore.

(** ** Synchronization once per epoch *)

Section EpochBoundaries.

Lemma epoch_boundaries_app (spe g : Z) (a b : nat) :
  epoch_boundaries spe g (a + b) =
  (epoch_boundaries spe g a + epoch_boundaries spe (g + Z.of_nat a) b)%nat.
Proof.
  revert g. induction a as [| a IH]; intros g.
  - simpl. rewrite Z.add_0_r. reflexivity.
  - cbn [Nat.add epoch_boundaries]. rewrite IH.
    replace (g + 1 + Z.of_nat a) with (g + Z.of_nat (S a)) by lia. lia.
Qed.

Lemma epoch_boundaries_none (spe : Z) (k : nat) (g : Z) :
  0 < spe -> g mod spe + Z.of_nat k < spe -> epoch_boundaries spe g k = 0%nat.
Proof.
  intros Hspe. revert g. induction k as [| k IH]; intros g Hk; [reflexivity |].
  cbn [epoch_boundaries].
  pose proof (Z.mod_pos_bound g spe Hspe) as Hg.
  assert (Hnext : (g + 1) mod spe = g mod spe + 1).
  { rewrite Z.add_mod by lia.
    destruct (Z.eq_dec spe 1) as [-> | Hne]; [lia |].
    rewrite (Z.mod_small 1 spe) by lia. apply Z.mod_small. lia. }
  rewrite Hnext. destruct (Z.eqb_spec (g mod spe + 1) 0) as [E | _]; [lia |].
  rewrite IH by (rewrite Hnext; lia). reflexivity.
Qed.

Lemma epoch_boundaries_epoch (spe g : Z) :
  0 < spe -> g mod spe = 0 -> epoch_boundaries spe g (Z.to_nat spe) = 1%nat.
Proof.
  intros Hspe Hg.
  replace (Z.to_nat spe) with (Z.to_nat (spe - 1) + 1)%nat by lia.
  rewrite epoch_boundaries_app.
  rewrite epoch_boundaries_none by lia.
  cbn [epoch_boundaries Nat.add].
  replace (g + Z.of_nat (Z.to_nat (spe - 1)) + 1) with (g + 1 * spe) by lia.
  rewrite Z.mod_add by lia. rewrite Hg. reflexivity.
Qed.

Lemma epoch_boundaries_epochs (spe g : Z) (e : nat) :
  0 < spe -> g mod spe = 0 ->
  epoch_boundaries spe g (e * Z.to_nat spe) = e.
Proof.
  intros Hspe. revert g. induction e as [| e IH]; intros g Hg; [reflexivity |].
  cbn [Nat.mul]. rewrite epoch_boundaries_app.
  rewrite epoch_boundaries_epoch by assumption.
  rewrite IH; [reflexivity |].
  rewrite Z2Nat.id by lia.
  replace (g + spe) with (g + 1 * spe) by lia.
  rewrite Z.mod_add by lia. exact Hg.
Qed.

Context {F : Type} `{Scalar F} `{Backend F}.

(** X19.  A returning run of consecutive [update_params] steps calls
    [sync_batch_stats] once for every step index [i] of the run with
    [(i + 1) % steps_per_epoch = 0], and does nothing else that is recorded.
    So a run of [e] whole epochs that starts at an epoch start calls it
    exactly [e] times: once per epoch. *)
Theorem train_steps_sync_once_per_epoch :
  forall steps hyperparameters loss_type optimizer_state params model_state
         global_step (s : World F) out s' n,
    num_train_examples (self s) = Some n ->
    train_steps steps hyperparameters loss_type optimizer_state params
      model_state global_step s = (Ok out, s') ->
    let steps_per_epoch := n / get_batch_size "imagenet" in
    trace s' =
      trace s ++
      replicate (epoch_boundaries steps_per_epoch global_step (length steps))
        EvSyncBatchStats /\
    (forall e : nat,
        0 < steps_per_epoch -> global_step mod steps_per_epoch = 0 ->
        length steps = (e * Z.to_nat steps_per_epoch)%nat ->
        trace s' = trace s ++ replicate e EvSyncBatchStats).
Proof.
  intros steps hyperparameters loss_type optimizer_state params model_state
    global_step s out s' n Hn Hrun steps_per_epoch.
  assert (Htrace : trace s' =
            trace s ++
            replicate (epoch_boundaries steps_per_epoch global_step (length steps))
              EvSyncBatchStats).
  { revert optimizer_state params model_state global_step s Hn Hrun.
    induction steps as [| [[input_batch label_batch] rng] steps IH];
      intros optimizer_state params model_state global_step s Hn Hrun.
    - inversion Hrun; subst. simpl. rewrite app_nil_r. reflexivity.
    - cbn [train_steps] in Hrun. bind_ok Hrun res s1 Hstep.
      destruct res as [[[os f] ps] ms]. destruct optimizer_state as [os0 upd].
      apply update_params_Ok_inv in Hstep.
      destruct Hstep as (Hself & _ & nms & n' & _ & Hn' & _ & Hcase).
      rewrite Hn in Hn'. inversion Hn'; subst n'. clear Hn'.
      fold steps_per_epoch in Hcase.
      rewrite <- Hself in Hn. specialize (IH _ _ _ _ _ Hn Hrun).
      rewrite IH. cbn [length epoch_boundaries].
      destruct ((global_step + 1) mod steps_per_epoch =? 0).
      + destruct Hcase as [-> _]. rewrite <- app_assoc. reflexivity.
      + destruct Hcase as [-> _]. reflexivity. }
  split; [exact Htrace |].
  intros e Hspe Hg Hlen. rewrite Htrace, Hlen.
  rewrite epoch_boundaries_epochs by assumption. reflexivity.
Qed.

End EpochBoundaries.

(** ** Selecting data *)

Section DataSelection.
Context {F : Type} `{Scalar F} `{Backend F}.

(** X20.  [data_selection] draws exactly one batch from the queue and
    returns its images and labels; [k] consecutive calls on a queue that
    still has [k] batches return these batches in order and leave the
    queue advanced by [k], with the arguments it was built from unchanged.
    When the queue runs out before, [StopIteration] comes through: the
    queue is never restarted. *)
Theorem data_selection_in_order :
  forall (k : nat) (input_queue : InputIter F),
    ((forall j, (j < k)%nat ->
                is_Some (pipeline_next (Nat.iter j advance input_queue))) ->
     exists batches,
       select_batches k input_queue = Ok (batches, Nat.iter k advance input_queue) /\
       length batches = k /\
       rewind (Nat.iter k advance input_queue) = rewind input_queue /\
       ds_drawn (Nat.iter k advance input_queue) = (ds_drawn input_queue + k)%nat /\
       forall j x, pipeline_next (Nat.iter j advance input_queue) = Some x ->
                   (j < k)%nat -> batches !! j = Some (image x, label x)) /\
    ((exists j, (j < k)%nat /\
                pipeline_next (Nat.iter j advance input_queue) = None) ->
     select_batches k input_queue = Raise StopIteration).
Proof.
  induction k as [| k IH]; intros q.
  - split.
    + intros _. exists []. simpl. repeat split; try lia.
    + intros (j & Hj & _). lia.
  - assert (Hshift : forall j, Nat.iter j advance (advance q) =
                               Nat.iter (S j) advance q).
    { intros j. symmetry. apply Nat.iter_succ_r. }
    split.
    + intros Hall. rewrite <- (Hshift k).
      destruct (Hall 0%nat ltac:(lia)) as [x0 Hx0]. simpl in Hx0.
      destruct (IH (advance q)) as [IHok _].
      destruct IHok as (bs & Hbs & Hlen & Hrw & Hdrawn & Hlook).
      { intros j Hj. rewrite Hshift. apply Hall. lia. }
      exists ((image x0, label x0) :: bs).
      split.
      { cbn [select_batches]. unfold data_selection at 1.
        rewrite Hx0. cbn [rbind fst snd]. rewrite Hbs. reflexivity. }
      split; [simpl; lia |].
      split; [rewrite Hrw; reflexivity |].
      split; [rewrite Hdrawn; simpl; lia |].
      intros j x Hx Hj. destruct j as [| j].
      * simpl in Hx. rewrite Hx0 in Hx. inversion Hx. reflexivity.
      * rewrite <- Hshift in Hx. simpl. apply Hlook; [exact Hx | lia].
    + intros (j & Hj & Hnone). cbn [select_batches]. unfold data_selection at 1.
      destruct (pipeline_next q) as [x0 |] eqn:Hx0; [| reflexivity].
      simpl. destruct j as [| j]; [simpl in Hnone; congruence |].
      destruct (IH (advance q)) as [_ IHraise].
      rewrite IHraise; [reflexivity |].
      exists j. split; [lia |]. rewrite Hshift. exact Hnone.
Qed.

End DataSelection.

(** ** The optimizer state *)

Section OptimizerMore.
Context `{Backend R} `{!Optax R}.

Lemma num_train_examples_values (w : ImagenetWorkload R) (n : Z) :
  num_train_examples w = Some n -> n = 1271167 \/ n = 9469.
Proof.
  unfold num_train_examples.
  destruct (str_contains "imagenet2012" (dataset w)).
  - intros [= <-]. left. reflexivity.
  - destruct (String.eqb "imagenette" (dataset w)); [| discriminate].
    intros [= <-]. right. reflexivity.
Qed.

Lemma optimizer_returns (hyperparameters : Hyperparameters R) (n : Z) :
  0 < n / get_batch_size "imagenet" ->
  exists learning_rate_fn,
    create_learning_rate_fn hyperparameters (n / get_batch_size "imagenet") =
      Ok learning_rate_fn /\
    optimizer hyperparameters (Some n) =
      Ok (optax_sgd true (momentum hyperparameters) learning_rate_fn).
Proof.
  intros Hspe.
  destruct (create_learning_rate_fn_returns hyperparameters _ Hspe) as [fn Hfn].
  exists fn. split; [exact Hfn |].
  unfold optimizer, as_int, py_floordiv. cbn [rbind].
  change (get_batch_size "imagenet" =? 0) with false. cbv iota.
  cbn [rbind]. rewrite Hfn. reflexivity.
Qed.

Lemma init_optimizer_state_Ok (workload : ImagenetWorkload R)
    model_params model_state (hyperparameters : Hyperparameters R)
    (rng : RandomState) shapes n :
  _param_shapes workload = Some shapes ->
  num_train_examples workload = Some n ->
  exists learning_rate_fn,
    create_learning_rate_fn hyperparameters (n / get_batch_size "imagenet") =
      Ok learning_rate_fn /\
    init_optimizer_state workload model_params model_state hyperparameters rng =
      Ok (replicate_on (Z.to_nat device_count)
            (fst (optax_sgd true (momentum hyperparameters) learning_rate_fn)
               (tree_map (fun s => jnp_zeros (shape_tuple s)) shapes)),
          snd (optax_sgd true (momentum hyperparameters) learning_rate_fn)).
Proof.
  intros Hshapes Hn.
  assert (Hspe : 0 < n / get_batch_size "imagenet").
  { destruct (num_train_examples_values _ _ Hn) as [-> | ->]; reflexivity. }
  destruct (optimizer_returns hyperparameters n Hspe) as (fn & Hfn & Hopt).
  exists fn. split; [exact Hfn |].
  unfold init_optimizer_state, param_shapes. rewrite Hshapes. cbn [rbind].
  rewrite Hn, Hopt. cbn [rbind].
  destruct (optax_sgd true (momentum hyperparameters) fn) as [opt_init_fn opt_update_fn].
  reflexivity.
Qed.

(** X21.  [init_optimizer_state] fails in two ways only, and never because
    of the schedule.  Before [init_model_fn] has stored the parameter
    shapes it raises the [ValueError] of [param_shapes], whatever the
    dataset is.  With the shapes stored and a dataset that is neither
    imagenet2012 nor imagenette it raises [TypeError], from [None // 128].
    Otherwise it returns: the state that [opt_init_fn] of
    [optax.sgd(nesterov=True, momentum, learning_rate)] gives for a tree of
    zeros of the stored shapes, replicated over the devices, and the
    [opt_update_fn] of the same call; [learning_rate] is the schedule of
    [create_learning_rate_fn] for [num_train_examples // 128] steps per
    epoch.  [model_params], [model_state] and [rng] play no part. *)
Theorem init_optimizer_state_cases :
  forall (workload : ImagenetWorkload R) model_params model_state
         (hyperparameters : Hyperparameters R) (rng : RandomState),
    (_param_shapes workload = None ->
     init_optimizer_state workload model_params model_state hyperparameters rng =
       Raise (ValueError
         "This should not happen, workload.init_model_fn() should be called before workload.param_shapes!")) /\
    (is_Some (_param_shapes workload) ->
     num_train_examples workload = None ->
     init_optimizer_state workload model_params model_state hyperparameters rng =
       Raise TypeError) /\
    (forall shapes n,
        _param_shapes workload = Some shapes ->
        num_train_examples workload = Some n ->
        exists learning_rate_fn,
          create_learning_rate_fn hyperparameters (n / get_batch_size "imagenet") =
            Ok learning_rate_fn /\
          init_optimizer_state workload model_params model_state hyperparameters rng =
            Ok (replicate_on (Z.to_nat device_count)
                  (fst (optax_sgd true (momentum hyperparameters) learning_rate_fn)
                     (tree_map (fun s => jnp_zeros (shape_tuple s)) shapes)),
                snd (optax_sgd true (momentum hyperparameters) learning_rate_fn))).
Proof.
  intros workload model_params model_state hyperparameters rng.
  split; [| split].
  - intros Hnone. unfold init_optimizer_state, param_shapes. rewrite Hnone.
    reflexivity.
  - intros [shapes Hshapes] Hn. unfold init_optimizer_state, param_shapes.
    rewrite Hshapes. cbn [rbind]. rewrite Hn. reflexivity.
  - intros shapes n Hshapes Hn. apply init_optimizer_state_Ok; assumption.
Qed.

Lemma init_model_fn_shapes (rng : RandomState) (s : World R) params model_state s' :
  init_model_fn rng s = (Ok (params, model_state), s') ->
  exists p,
    params = replicate_on (Z.to_nat device_count) p /\
    _param_shapes (self s') = Some (tree_map (fun x => mkShapeTuple (shape x)) p) /\
    dataset (self s') = dataset (self s).
Proof.
  intros Hrun. unfold init_model_fn in Hrun.
  bind_ok Hrun w s1 Hw. inversion Hw; subst w s1; clear Hw.
  bind_ok Hrun cls s2 Hcls.
  assert (Hs2 : s2 = s).
  { unfold lift in Hcls. destruct (models_has (model_name (self s)));
      inversion Hcls; reflexivity. }
  subst s2. clear Hcls.
  bind_ok Hrun u s3 Hset. inversion Hset; subst u s3; clear Hset.
  bind_ok Hrun pm s4 Hinit.
  unfold lift in Hinit. inversion Hinit as [[Hinit' Hs4]]; subst s4; clear Hinit.
  destruct pm as [p st].
  bind_ok Hrun u' s5 Hshapes. inversion Hshapes; subst u' s5; clear Hshapes.
  inversion Hrun; subst params model_state s'; clear Hrun.
  exists p. repeat split.
Qed.

(** X22.  After [init_model_fn] has returned for a workload on imagenette
    or imagenet2012, [init_optimizer_state] returns, and the optimizer
    state it builds is [opt_init_fn] of a tree of zeros with the structure
    and the leaf shapes of the model parameters that [init_model_fn]
    returned, replicated over the same number of devices. *)
Theorem init_optimizer_state_after_init_model_fn :
  forall (rng0 : RandomState) (s : World R) params model_state s'
         model_params model_state' (hyperparameters : Hyperparameters R)
         (rng : RandomState) n,
    init_model_fn rng0 s = (Ok (params, model_state), s') ->
    num_train_examples (self s) = Some n ->
    exists p learning_rate_fn opt_init_fn opt_update_fn zeros,
      params = replicate_on (Z.to_nat device_count) p /\
      create_learning_rate_fn hyperparameters (n / get_batch_size "imagenet") =
        Ok learning_rate_fn /\
      optax_sgd true (momentum hyperparameters) learning_rate_fn =
        (opt_init_fn, opt_update_fn) /\
      init_optimizer_state (self s') model_params model_state' hyperparameters rng =
        Ok (replicate_on (Z.to_nat device_count) (opt_init_fn zeros), opt_update_fn) /\
      tree_map shape zeros = tree_map shape p /\
      Forall (fun z => Forall (fun v => v = 0%R) (data z) /\
                       length (data z) = foldr Nat.mul 1%nat (shape z))
        (tree_leaves zeros).
Proof.
  intros rng0 s params model_state s' model_params model_state' hyperparameters
    rng n Hinit Hn.
  destruct (init_model_fn_shapes _ _ _ _ _ Hinit) as (p & Hp & Hshapes & Hds).
  assert (Hn' : num_train_examples (self s') = Some n).
  { unfold num_train_examples in *. rewrite Hds. exact Hn. }
  destruct (init_optimizer_state_Ok (self s') model_params model_state'
              hyperparameters rng _ n Hshapes Hn') as (fn & Hfn & Hrun).
  destruct (optax_sgd true (momentum hyperparameters) fn)
    as [opt_init_fn opt_update_fn] eqn:Hsgd.
  exists p, fn, opt_init_fn, opt_update_fn,
    (tree_map (fun x => jnp_zeros (shape x)) p).
  split; [exact Hp |]. split; [exact Hfn |]. split; [exact Hsgd |].
  split.
  { rewrite Hrun. rewrite tree_map_map. reflexivity. }
  split.
  { rewrite tree_map_map. apply tree_map_ext. intros a. reflexivity. }
  clear. induction p as [a | items IH] using PyTree_ind'.
  - simpl. constructor; [| constructor]. split.
    + simpl. generalize (foldr Nat.mul 1%nat (shape a)). intros m.
      induction m as [| m IHm]; simpl; constructor; [| exact IHm].
      unfold Q2R. simpl. lra.
    + apply repeat_length.
  - simpl. induction IH as [| [k t] items Ht _ IHitems]; simpl.
    + constructor.
    + apply Forall_app. split; assumption.
Qed.

End OptimizerMore.

(** ** The further properties on the demo workloads *)

Lemma create_learning_rate_fn_raises_witness :
  create_learning_rate_fn usual_hparams 0 =
  Raise (ValueError "The cosine_decay_schedule requires positive decay_steps!").
Proof.
  apply (proj1 (proj1 (create_learning_rate_fn_raises usual_hparams 0))). lia.
Defined.

Lemma model_fn_behaviour_witness :
  model_fn (H0 := demo_backend) __init__ demo_params
    (mkBatch (mkTensor [1; 1]%nat [Q2Qc 3]) (mkTensor [1]%nat [Q2Qc 1]))
    (demo_state (Q2Qc 1)) TRAIN 5%nat true =
  Raise (AttributeError "_model").
Proof.
  apply (proj1 (proj1 (model_fn_behaviour (H0 := demo_backend) __init__ demo_params
                         (mkBatch (mkTensor [1; 1]%nat [Q2Qc 3])
                                  (mkTensor [1]%nat [Q2Qc 1]))
                         (demo_state (Q2Qc 1)) TRAIN 5%nat true))).
  reflexivity.
Defined.

Lemma eval_model_fn_synced_witness :
  eval_model_fn (H0 := demo_backend) (self demo_world) (replicate_on 2 demo_params)
    (mkBatch demo_images demo_labels) [demo_state (Q2Qc 1)] 5%nat =
  Raise (ValueError "pmap got inconsistent sizes for array axes to be mapped").
Proof.
  apply (proj2 (eval_model_fn_synced (H0 := demo_backend) (self demo_world)
                  (replicate_on 2 demo_params) (mkBatch demo_images demo_labels)
                  [demo_state (Q2Qc 1)] 5%nat)).
  simpl. intros (_ & _ & Hstate). discriminate Hstate.
Defined.

Lemma pmapped_train_step_slices_witness :
  pmapped_train_step (H0 := demo_backend) (self demo_world) demo_opt_update
    [demo_state (Q2Qc 1); demo_state (Q2Qc 3)] (replicate_on 2 0%nat)
    (replicate_on 3 demo_params) demo_hparams (mkBatch demo_images demo_labels)
    5%nat =
  Raise (ValueError "pmap got inconsistent sizes for array axes to be mapped").
Proof.
  apply (proj2 (pmapped_train_step_slices (H0 := demo_backend) (self demo_world)
                  demo_opt_update [demo_state (Q2Qc 1); demo_state (Q2Qc 3)]
                  (replicate_on 2 0%nat) (replicate_on 3 demo_params) demo_hparams
                  (mkBatch demo_images demo_labels) 5%nat)).
  simpl. intros (_ & Hparams & _). discriminate Hparams.
Defined.

Lemma update_params_frame_witness :
  self (snd demo_update_run) = self demo_world.
Proof.
  apply (proj1 (update_params_frame (H0 := demo_backend)
                  (replicate_on 2 demo_params)
                  [demo_state (Q2Qc 1); demo_state (Q2Qc 3)] demo_hparams
                  demo_images demo_labels SOFTMAX_CROSS_ENTROPY
                  (replicate_on 2 0%nat) demo_opt_update [] 72 5%nat demo_world
                  (fst demo_update_run) (snd demo_update_run)
                  (surjective_pairing demo_update_run))).
Defined.

Lemma train_steps_sync_once_per_epoch_witness :
  trace (snd demo_train_run) = trace demo_world ++ replicate 1 EvSyncBatchStats.
Proof.
  apply (proj2 (train_steps_sync_once_per_epoch (H0 := demo_backend)
                  (replicate 73 (demo_images, demo_labels, 5%nat)) demo_hparams
                  SOFTMAX_CROSS_ENTROPY (replicate_on 2 0%nat, demo_opt_update)
                  (replicate_on 2 demo_params)
                  [demo_state (Q2Qc 1); demo_state (Q2Qc 3)] 0 demo_world
                  (match fst demo_train_run with
                   | Ok out => out
                   | Raise _ => ((replicate_on 2 0%nat, demo_opt_update), [], [])
                   end)
                  (snd demo_train_run) 9469
                  ltac:(reflexivity) ltac:(vm_compute; reflexivity)) 1%nat).
  - reflexivity.
  - reflexivity.
  - reflexivity.
Defined.

Lemma data_selection_in_order_witness :
  exists batches,
    select_batches (H := demo_backend) 2 demo_queue =
      Ok (batches, Nat.iter 2 advance demo_queue) /\
    length batches = 2%nat.
Proof.
  destruct (proj1 (data_selection_in_order (H0 := demo_backend) 2 demo_queue))
    as (batches & Hrun & Hlen & _).
  - intros j _. simpl. eauto.
  - exists batches. split; assumption.
Defined.

Lemma init_optimizer_state_cases_witness :
  init_optimizer_state (H := demo_backend_R) __init__ [] [] usual_hparams 7%nat =
  Raise (ValueError
    "This should not happen, workload.init_model_fn() should be called before workload.param_shapes!").
Proof.
  apply (proj1 (init_optimizer_state_cases (H := demo_backend_R) __init__ [] []
                  usual_hparams 7%nat)).
  reflexivity.
Defined.

Lemma init_optimizer_state_after_init_model_fn_witness :
  exists p zeros,
    replicate_on 2 demo_params_R =
      replicate_on (Z.to_nat (device_count (Backend := demo_backend_R))) p /\
    init_optimizer_state (H := demo_backend_R) (self demo_world_R) [] []
      usual_hparams 9%nat =
      Ok (replicate_on 2 zeros, fun g s p => (g, s)) /\
    tree_map shape zeros = tree_map shape p.
Proof.
  destruct (init_optimizer_state_after_init_model_fn (H := demo_backend_R)
              7%nat (mkWorld __init__ [])
              (replicate_on 2 demo_params_R)
              (replicate_on 2 {[ "batch_stats" := Leaf (mkTensor [1]%nat [0%R]) ]})
              demo_world_R [] [] usual_hparams 9%nat 9469)
    as (p & fn & opt_init_fn & opt_update_fn & zeros & Hp & _ & Hsgd & Hrun & Hshape & _).
  - reflexivity.
  - reflexivity.
  - exists p, zeros. injection Hsgd as <- <-.
    split; [exact Hp | split; [exact Hrun | exact Hshape]].
Defined.
